(** * goinit: a shallow embedding of the project scaffolder

    The repository holds four versions of one small Go program: three
    programs one after the other in [main.go], and one in
    [unnamed/part_000]. The program creates a project directory, runs
    [git init] and [go mod init], writes template files and installs a
    commit hook.

    The embedding has three layers:
    - [Os]: the operating-system calls the program makes, as functions on
      an explicit world (file tree, working directory, trace of calls);
    - [Regexp]: the fragment of Go's regular expressions used by the alias
      pattern, with a backtracking matcher;
    - one module per version of the program, translated function by
      function from the Go source: [Part000], and [Main1], [Main2],
      [Main3] for the programs of [main.go] in the order of the file. *)

From Stdlib Require Import ZArith Ascii String List Lia.
From stdpp Require Import gmap strings list fin_maps.

Local Open Scope Z_scope.

(** ** Strings as byte sequences *)

Module Str.

(** Go strings are byte sequences; [string] is a list of [ascii] bytes. *)
Fixpoint to_list (s : string) : list ascii :=
  match s with
  | EmptyString => []
  | String c s' => c :: to_list s'
  end.

Fixpoint of_list (l : list ascii) : string :=
  match l with
  | [] => EmptyString
  | c :: l' => String c (of_list l')
  end.

(** [s[:n]] for [n <= len(s)]; the whole string when it is shorter. *)
Fixpoint take (n : nat) (s : string) : string :=
  match n, s with
  | O, _ => EmptyString
  | S _, EmptyString => EmptyString
  | S n', String c s' => String c (take n' s')
  end.

Arguments take : simpl never.


(** [s[i:j]]. *)
Definition slice (i j : nat) (s : string) : string :=
  of_list (List.firstn (j - i) (List.skipn i (to_list s))).

(** The line-feed byte, written [\n] in Go. *)
Definition nl : string := String (ascii_of_nat 10) EmptyString.

(** The fields of a path name between its slashes. *)
Fixpoint split_slash (s : string) : list string :=
  match s with
  | EmptyString => [EmptyString]
  | String c s' =>
      if Ascii.eqb c "/" then EmptyString :: split_slash s'
      else match split_slash s' with
           | x :: xs => String c x :: xs
           | [] => [String c EmptyString]
           end
  end.

Definition has_slash (s : string) : bool :=
  existsb (fun c => Ascii.eqb c "/") (to_list s).

End Str.

(** ** The operating system

    The calls are those of a process that may do whatever it asks for:
    there are no access rights, no symbolic links, no full disk. A call
    fails for what the tree holds: a missing entry, an entry that is
    there, a file where a directory is needed. *)

Module Os.

(** An absolute path, as its components from the root. *)
Abbreviation path := (list string).

(** Permission bits are kept as the integer the program passes
    ([0o700], [os.ModePerm]). *)
Inductive node :=
| Dir (perm : Z)
| File (perm : Z) (data : string).

Inductive errno :=
| ENOENT | EEXIST | ENOTDIR | EISDIR | EBADF
| EOF           (* io.EOF *)
| EEXIT         (* the child could not be started or exited non-zero *)
| ENOHOME.      (* $HOME is not defined *)

(** A Go [error]: a system error, or [fmt.Errorf(format, err)] with a
    [%w] verb, whose operand may be the nil error. *)
#[warnings="-register-all"]
Inductive error :=
| Errno (e : errno)
| Errorf (format : string) (operand : option error).

Inductive event :=
| EvStat (name : string)
| EvGetwd
| EvMkdir (p : path) (perm : Z)
| EvChdir (name : string)
| EvExec (argv : list string)
| EvCreate (name : string)
| EvWrite (p : path) (data : string)
| EvChmod (name : string) (mode : Z)
| EvOpen (name : string)
| EvRead (p : path) (size : nat).

(** The mutable world of one process: the file tree, the working
    directory and the calls issued so far (oldest first). *)
Record world := World {
  fs : gmap path node;
  cwd : path;
  trace : list event
}.

(** What the process is started with and cannot change. [exec_tool argv
    dir tree] is the effect of running an external program in directory
    [dir]: whether it succeeded, and the tree it leaves. [embedded] is
    the compiled-in template store, the [embed.FS] variable
    [templatesFS]. *)
Record env := Env {
  umask : Z;
  HOME : string;
  exec_tool : list string -> path -> gmap path node -> bool * gmap path node;
  embedded : string -> option string
}.

Inductive result (A : Type) :=
| Ok (a : A)
| Err (e : error).
Arguments Ok {A} a.
Arguments Err {A} e.

(** Computations keep the world they reached when they fail: nothing is
    rolled back. *)
Definition M (A : Type) := world -> result A * world.

Definition ret {A} (a : A) : M A := fun w => (Ok a, w).
Definition fail {A} (e : error) : M A := fun w => (Err e, w).
Definition bind {A B} (m : M A) (k : A -> M B) : M B :=
  fun w => match m w with
           | (Ok a, w') => k a w'
           | (Err e, w') => (Err e, w')
           end.

(** [if err := m; err != nil { return fmt.Errorf(format, err) }] *)
Definition wrap {A} (format : string) (m : M A) : M A :=
  fun w => match m w with
           | (Ok a, w') => (Ok a, w')
           | (Err e, w') => (Err (Errorf format (Some e)), w')
           end.

Definition log (ev : event) : M unit :=
  fun w => (Ok tt, World (fs w) (cwd w) (trace w ++ [ev])).

Definition set_fs (t : gmap path node) : M unit :=
  fun w => (Ok tt, World t (cwd w) (trace w)).

Definition set_cwd (p : path) : M unit :=
  fun w => (Ok tt, World (fs w) p (trace w)).

Definition get : M world := fun w => (Ok w, w).

(** [for _, x := range l { if err := body(x); err != nil { return err } }] *)
Fixpoint for_each {A} (l : list A) (body : A -> M unit) : M unit :=
  match l with
  | [] => ret tt
  | x :: l' => bind (body x) (fun _ => for_each l' body)
  end.

(** [r, err := m]: run [m] and look at its outcome instead of returning
    on failure. *)
Definition attempt {A} (m : M A) : M (result A) :=
  fun w => let (r, w') := m w in (Ok r, w').

(** *** Path resolution

    Resolution is lexical: [.] and empty components are skipped and
    [..] drops the last component. There are no symbolic links. The
    kernel looks every component up on its way, so that [x/..] and [x/]
    fail there when [x] is missing or is a file; the two readings agree
    on the names without empty, [.] and [..] components, and a statement
    that tells the outcome of a call from the tree is made for such
    names. *)

Definition step_component (p : path) (c : string) : path :=
  if String.eqb c "" then p
  else if String.eqb c "." then p
  else if String.eqb c ".." then removelast p
  else p ++ [c].

Definition walk (p : path) (cs : list string) : path :=
  fold_left step_component cs p.

Definition is_abs (name : string) : bool :=
  match name with
  | String c _ => Ascii.eqb c "/"
  | EmptyString => false
  end.

(** The place that a name given to a system call stands for, read
    lexically. *)
Definition resolve (dir : path) (name : string) : path :=
  walk (if is_abs name then [] else dir) (Str.split_slash name).

(** [filepath.Join(pwd, name)]: [name] is appended to [pwd] even when it
    starts with a slash. *)
Definition filepath_Join (pwd : path) (name : string) : path :=
  walk pwd (Str.split_slash name).

(** [path.Join(a, b)] for a non-empty [a]; the result is cleaned when it
    is resolved. *)
Definition path_Join (a b : string) : string := a +:+ "/" +:+ b.

Definition parent (p : path) : path := removelast p.

(** Permission constants, octal in Go: [0o777] ([os.ModePerm]), [0o666]
    (used by [os.Create]), [0o700], [0o111]. *)
Definition ModePerm : Z := 511.
Definition perm_0666 : Z := 438.
Definition perm_0700 : Z := 448.
Definition perm_0111 : Z := 73.

Notation "x <- c ;; k" := (bind c (fun x => k))
  (at level 100, c at next level, right associativity).
Notation "c ;;; k" := (bind c (fun _ => k))
  (at level 100, right associativity).

Section Calls.
Context (E : env).

(** [os.Stat(name)]: succeeds when an entry of any kind is there. *)
Definition os_Stat (name : string) : M unit :=
  log (EvStat name) ;;;
  w <- get ;;
  if String.eqb name "" then fail (Errno ENOENT)
  else match fs w !! resolve (cwd w) name with
       | Some _ => ret tt
       | None => fail (Errno ENOENT)
       end.

(** [os.Getwd()]: fails when the working directory is gone. *)
Definition os_Getwd : M path :=
  log EvGetwd ;;;
  w <- get ;;
  match fs w !! cwd w with
  | Some (Dir _) => ret (cwd w)
  | _ => fail (Errno ENOENT)
  end.

(** [os.Mkdir(p, perm)]: the entry must be new and its parent a
    directory; the mode is [perm] less the umask. *)
Definition os_Mkdir (p : path) (perm : Z) : M unit :=
  log (EvMkdir p perm) ;;;
  w <- get ;;
  match fs w !! p with
  | Some _ => fail (Errno EEXIST)
  | None =>
      match fs w !! parent p with
      | Some (Dir _) => set_fs (<[p := Dir (Z.ldiff perm (umask E))]> (fs w))
      | Some (File _ _) => fail (Errno ENOTDIR)
      | None => fail (Errno ENOENT)
      end
  end.

(** [os.Chdir(name)] *)
Definition os_Chdir (name : string) : M unit :=
  log (EvChdir name) ;;;
  w <- get ;;
  if String.eqb name "" then fail (Errno ENOENT)
  else match fs w !! resolve (cwd w) name with
       | Some (Dir _) => set_cwd (resolve (cwd w) name)
       | Some (File _ _) => fail (Errno ENOTDIR)
       | None => fail (Errno ENOENT)
       end.

(** [os.Create(name)]: opens with [O_RDWR|O_CREATE|O_TRUNC] and mode
    [0666]. An existing file is emptied and keeps its mode. The handle
    returned is the place of the file. *)
Definition os_Create (name : string) : M path :=
  log (EvCreate name) ;;;
  w <- get ;;
  if String.eqb name "" then fail (Errno ENOENT)
  else
    let p := resolve (cwd w) name in
    match fs w !! p with
    | Some (Dir _) => fail (Errno EISDIR)
    | Some (File perm _) => set_fs (<[p := File perm ""]> (fs w)) ;;; ret p
    | None =>
        match fs w !! parent p with
        | Some (Dir _) =>
            set_fs (<[p := File (Z.ldiff perm_0666 (umask E)) ""]> (fs w)) ;;; ret p
        | Some (File _ _) => fail (Errno ENOTDIR)
        | None => fail (Errno ENOENT)
        end
    end.

(** [file.Write(data)] on a handle from [os.Create]. *)
Definition file_Write (h : path) (data : string) : M unit :=
  log (EvWrite h data) ;;;
  w <- get ;;
  match fs w !! h with
  | Some (File perm old) => set_fs (<[h := File perm (old +:+ data)]> (fs w))
  | _ => fail (Errno EBADF)
  end.

(** [os.Chmod(name, mode)]: the mode is set as given. *)
Definition os_Chmod (name : string) (mode : Z) : M unit :=
  log (EvChmod name mode) ;;;
  w <- get ;;
  if String.eqb name "" then fail (Errno ENOENT)
  else
    let p := resolve (cwd w) name in
    match fs w !! p with
    | Some (Dir _) => set_fs (<[p := Dir mode]> (fs w))
    | Some (File _ data) => set_fs (<[p := File mode data]> (fs w))
    | None => fail (Errno ENOENT)
    end.

(** [os.Open(name)] *)
Definition os_Open (name : string) : M path :=
  log (EvOpen name) ;;;
  w <- get ;;
  if String.eqb name "" then fail (Errno ENOENT)
  else match fs w !! resolve (cwd w) name with
       | Some _ => ret (resolve (cwd w) name)
       | None => fail (Errno ENOENT)
       end.

(** [file.Read(buf)] with [len(buf) = size], first read of a handle
    from [os.Open]: the bytes read, or [io.EOF] when there are none. *)
Definition file_Read (h : path) (size : nat) : M string :=
  log (EvRead h size) ;;;
  w <- get ;;
  match fs w !! h with
  | Some (File _ data) =>
      if String.eqb data "" then fail (Errno EOF)
      else ret (Str.take size data)
  | Some (Dir _) => fail (Errno EISDIR)
  | None => fail (Errno EBADF)
  end.

(** [exec.Command(argv...).Run()], and [CombinedOutput()] when the
    output is dropped: the child runs in the working directory and
    cannot move the parent. *)
Definition exec_Run (argv : list string) : M unit :=
  log (EvExec argv) ;;;
  w <- get ;;
  let (ok, t) := exec_tool E argv (cwd w) (fs w) in
  set_fs t ;;;
  if ok then ret tt else fail (Errno EEXIT).

(** [os.UserHomeDir()] *)
Definition os_UserHomeDir : M string :=
  if String.eqb (HOME E) "" then fail (Errno ENOHOME) else ret (HOME E).

(** [store.ReadFile(name)] on an embedded store. *)
Definition embed_ReadFile (store : string -> option string)
  (name : string) : M string :=
  match store name with
  | Some data => ret data
  | None => fail (Errno ENOENT)
  end.

End Calls.

(** Owner execute permission, [0o100]. *)
Definition owner_exec (perm : Z) : bool := Z.testbit perm 6.

(** Any of the three execute bits, [0o111]. *)
Definition any_exec (perm : Z) : bool := negb (Z.land perm perm_0111 =? 0).

End Os.

(** ** Regular expressions

    The fragment of Go's [regexp] syntax that the alias pattern uses:
    literal bytes, the Perl classes [\s] and [\w] (ASCII only in Go),
    concatenation, greedy [+] on a class, and one capturing group.
    Matching is by backtracking with Go's preference order: the leftmost
    start, and at each [+] the longest run first. Bytes of 128 and more
    belong to no class and to no literal of the pattern, so matching byte
    by byte agrees with matching rune by rune. *)

Module Regexp.

Local Open Scope nat_scope.

(** [\s], that is [[\t\n\f\r ]]. *)
Definition is_space (c : ascii) : bool :=
  let n := nat_of_ascii c in
  (n =? 9) || (n =? 10) || (n =? 12) || (n =? 13) || (n =? 32).

(** [\w], that is [[0-9A-Za-z_]]. *)
Definition is_word (c : ascii) : bool :=
  let n := nat_of_ascii c in
  ((48 <=? n) && (n <=? 57)) || ((65 <=? n) && (n <=? 90))
  || ((97 <=? n) && (n <=? 122)) || (n =? 95).

Inductive regex :=
| Eps
| Lit (c : ascii)
| Cat (r1 r2 : regex)
| Plus (cls : ascii -> bool)
| Group (r : regex).

(** A span of the input, as [start, end) byte offsets. *)
Definition span := (nat * nat)%type.

(** A continuation receives the offset reached, the input left and the
    span of the group, and says where the whole match ends. *)
Definition cont := nat -> list ascii -> option span -> option (nat * option span).

Definition accept : cont := fun i _ cap => Some (i, cap).

(** The rest of a greedy run: take one more byte of the class and go on;
    when that fails, stop here. *)
Fixpoint run (cls : ascii -> bool) (k : cont) (i : nat) (s : list ascii)
  (cap : option span) : option (nat * option span) :=
  match s with
  | c :: s' =>
      if cls c then
        match run cls k (S i) s' cap with
        | Some r => Some r
        | None => k i s cap
        end
      else k i s cap
  | [] => k i s cap
  end.

Fixpoint exec (r : regex) (k : cont) : cont :=
  match r with
  | Eps => k
  | Lit c => fun i s cap =>
      match s with
      | c' :: s' => if Ascii.eqb c c' then k (S i) s' cap else None
      | [] => None
      end
  | Cat r1 r2 => exec r1 (exec r2 k)
  | Plus cls => fun i s cap =>
      match s with
      | c :: s' => if cls c then run cls k (S i) s' cap else None
      | [] => None
      end
  | Group r1 => fun i s cap =>
      exec r1 (fun j s' _ => k j s' (Some (i, j))) i s cap
  end.

(** The match that starts at offset [i], where [s] is the input from
    there on. *)
Definition match_here (r : regex) (i : nat) (s : list ascii) :
  option (nat * option span) :=
  exec r accept i s None.

(** The leftmost match at or after offset [i]: start, end and group. *)
Fixpoint find_from (r : regex) (i : nat) (s : list ascii) :
  option (nat * nat * option span) :=
  match match_here r i s with
  | Some (j, cap) => Some (i, j, cap)
  | None =>
      match s with
      | [] => None
      | _ :: s' => find_from r (S i) s'
      end
  end.

(** [re.FindStringSubmatch(input)] for an expression with one group:
    nil when nothing matches, else the matched text and the text of the
    group (empty when the group took no part). *)
Definition FindStringSubmatch (r : regex) (input : string) : list string :=
  match find_from r 0 (Str.to_list input) with
  | None => []
  | Some (i, j, cap) =>
      [Str.slice i j input;
       match cap with
       | Some (a, b) => Str.slice a b input
       | None => EmptyString
       end]
  end.

Fixpoint lits (l : list ascii) : regex :=
  match l with
  | [] => Eps
  | c :: l' => Cat (Lit c) (lits l')
  end.

Definition literal (s : string) : regex := lits (Str.to_list s).

(** The input left does not go on with a byte of the class. *)
Definition heads_outside (cls : ascii -> bool) (s : list ascii) : Prop :=
  match s with
  | c :: _ => cls c = false
  | [] => True
  end.

End Regexp.

(** ** The version in [unnamed/part_000]

    It probes for the Go tool first, prefixes the module name with an alias
    read from the SSH configuration, and writes a [scripts] directory. *)

Module Part000.
Import Os Regexp.

Definition DefaultProjectName : string := "new_project".

(** [Host github\.com\n\s+User (?P<user>\w+)], compiled. *)
Definition req : regex :=
  Cat (literal "Host github.com")
    (Cat (literal Str.nl)
      (Cat (Plus is_space)
        (Cat (literal "User ") (Group (Plus is_word))))).

Definition alias : string := "project/".
Definition sshConfigPath : string := ".ssh/config".

Section Program.
Context (E : env).

Definition templatesFS : string -> option string := embedded E.

Definition mkdir (name : string) : M unit :=
  r <- attempt (os_Stat name) ;;
  match r with
  | Ok _ => fail (Errorf "project already exists: %w" None)
  | Err _ =>
      pwd <- wrap "error getting current working directory: %w" (os_Getwd) ;;
      let path := filepath_Join pwd name in
      wrap "error creating folder: %w" (os_Mkdir E path ModePerm)
  end.

(** initRepo initializes a new Git repository in the current
    directory. *)
Definition initRepo : M unit :=
  wrap "error initializing repository: %w" (exec_Run E ["git"; "init"]).

Definition readFile (path : string) : M string :=
  file <- os_Open path ;;
  file_Read file 1024.

Definition getAlias : M string :=
  r <- attempt (os_UserHomeDir E) ;;
  match r with
  | Err _ => ret alias
  | Ok home =>
      let path := path_Join home sshConfigPath in
      r <- attempt (readFile path) ;;
      match r with
      | Err _ => ret alias
      | Ok input =>
          let matched := FindStringSubmatch req input in
          if (length matched <? 2)%nat then ret alias
          else ret ("github.com/" +:+ nth 1 matched "" +:+ "/")
      end
  end.

(** goModInit initializes a new Go module with the given name in the
    current directory. *)
Definition goModInit (name : string) : M unit :=
  alias <- getAlias ;;
  let projectName := alias +:+ name in
  wrap "error initializing Go module: %w"
    (exec_Run E ["go"; "mod"; "init"; projectName]).

(** createFile creates a new file with the given name and writes the
    contents of the specified embedded file to it. *)
Definition createFile (name : string) (store : string -> option string)
  (filePath : string) : M unit :=
  file <- wrap "error creating file: %w" (os_Create E name) ;;
  bytes <- wrap "error reading embedded file: %w" (embed_ReadFile store filePath) ;;
  wrap "error writing to file: %w" (file_Write file bytes).

(** createPreCommitHook creates a pre-commit hook for the repository. *)
Definition createPreCommitHook : M unit :=
  wrap "error changing to .git/hooks directory: %w" (os_Chdir ".git/hooks") ;;;
  file <- wrap "error creating file: %w" (os_Create E "pre-commit") ;;
  bytes <- wrap "error reading embedded file: %w"
             (embed_ReadFile templatesFS "templates/scripts/pre-commit") ;;
  wrap "error writing to file: %w" (file_Write file bytes) ;;;
  wrap "error making file executable: %w" (os_Chmod "pre-commit" perm_0700).

Definition createScripts : M unit :=
  mkdir "scripts" ;;;
  wrap "error creating pre-commit file: %w"
    (createFile "scripts/pre-commit" templatesFS "templates/scripts/pre-commit") ;;;
  wrap "error creating setup file: %w"
    (createFile "scripts/setup.sh" templatesFS "templates/scripts/setup.sh") ;;;
  wrap "error making file executable: %w" (os_Chmod "scripts/setup.sh" perm_0700) ;;;
  wrap "error creating cibuild file: %w"
    (createFile "scripts/cibuild.sh" templatesFS "templates/scripts/cibuild.sh") ;;;
  wrap "error making file executable: %w" (os_Chmod "scripts/cibuild.sh" perm_0700).

(** createProjectFiles creates the necessary files and directories for
    the project. *)
Definition createProjectFiles (projectName : string) : M unit :=
  wrap "error changing to project directory: %w" (os_Chdir projectName) ;;;
  wrap "error initializing repository: %w" initRepo ;;;
  wrap "error initializing Go module: %w" (goModInit projectName) ;;;
  wrap "error creating linting configuration file: %w"
    (createFile ".golintci.yml" templatesFS "templates/.golangci.yml") ;;;
  wrap "error creating .gitignore file: %w"
    (createFile ".gitignore" templatesFS "templates/.gitignore") ;;;
  wrap "error creating .gitignore file: %w"
    (createFile "Makefile" templatesFS "templates/Makefile") ;;;
  wrap "error creating scripts: %w" createScripts ;;;
  wrap "error creating pre-commit hook: %w" createPreCommitHook.

(** [main], given the value of the [-d] flag when it is present. An
    [Err e] outcome is [log.Fatal(e)]: the message is printed and the
    process exits with status 1. *)
Definition main (d : option string) : M unit :=
  exec_Run E ["go"; "version"] ;;;
  let projectName := default DefaultProjectName d in
  mkdir projectName ;;;
  createProjectFiles projectName.

End Program.
End Part000.

(** ** The third program in [main.go] (lines 319 to 581)

    The file names are constants, the files to write are tables, a release
    configuration and a GitHub workflow are added, and all three scripts
    are made executable. *)

Module Main3.
Import Os Regexp.

Definition DefaultProjectName : string := "new_project".
Definition GolintciTemplate : string := "templates/.golangci.yml".
Definition GoreleaserTemplate : string := "templates/.goreleaser.yml".
Definition GitignoreTemplate : string := "templates/.gitignore".
Definition MakefileTemplate : string := "templates/Makefile".
Definition ReleaserTemplate : string := "templates/releaser.yml".
Definition PreCommitHookTemplate : string := "templates/scripts/pre-commit".
Definition PreCommitScriptTemplate : string := "templates/scripts/pre-commit".
Definition SetupScriptTemplate : string := "templates/scripts/setup.sh".
Definition CIBuildScriptTemplate : string := "templates/scripts/cibuild.sh".
Definition GolintciFile : string := ".golintci.yml".
Definition GoreleaserFile : string := ".goreleaser.yml".
Definition GitignoreFile : string := ".gitignore".
Definition GithubDir : string := ".github".
Definition WorkflowsDir : string := ".github/workflows".
Definition ReleaserFile : string := ".github/workflows/releaser.yml".
Definition GitHooksDir : string := ".git/hooks".
Definition ScriptsDir : string := "scripts".
Definition PreCommitScriptFile : string := "scripts/pre-commit".
Definition SetupScriptFile : string := "scripts/setup.sh".
Definition CIBuildScriptFile : string := "scripts/cibuild.sh".
Definition PreCommitHookFile : string := "pre-commit".
Definition Makefile : string := "Makefile".
Definition SSHConfigFile : string := ".ssh/config".
Definition DefaultAlias : string := "project/".

(** [Host github\.com\n\s+User (?P<user>\w+)], compiled. *)
Definition RegexpPattern : regex :=
  Cat (literal "Host github.com")
    (Cat (literal Str.nl)
      (Cat (Plus is_space)
        (Cat (literal "User ") (Group (Plus is_word))))).

Section Program.
Context (E : env).

Definition templatesFS : string -> option string := embedded E.

Definition isGoInstalled : M bool :=
  r <- attempt (exec_Run E ["go"; "version"]) ;;
  match r with
  | Ok _ => ret true
  | Err _ => ret false
  end.

Definition mkdir (name : string) : M unit :=
  r <- attempt (os_Stat name) ;;
  match r with
  | Ok _ => fail (Errorf "folder already exists: %w" None)
  | Err _ =>
      pwd <- wrap "error getting current working directory: %w" os_Getwd ;;
      let path := filepath_Join pwd name in
      wrap "error creating folder: %w" (os_Mkdir E path ModePerm)
  end.

Definition runCommand (name : string) (arg : list string) : M unit :=
  exec_Run E (name :: arg).

Definition readFile (path : string) : M string :=
  file <- os_Open path ;;
  file_Read file 1024.

Definition getAlias : M string :=
  r <- attempt (os_UserHomeDir E) ;;
  match r with
  | Err _ => ret DefaultAlias
  | Ok home =>
      let path := path_Join home SSHConfigFile in
      r <- attempt (readFile path) ;;
      match r with
      | Err _ => ret DefaultAlias
      | Ok input =>
          let matched := FindStringSubmatch RegexpPattern input in
          if (length matched <? 2)%nat then ret DefaultAlias
          else ret ("github.com/" +:+ nth 1 matched "" +:+ "/")
      end
  end.

Definition goModInit (name : string) : M unit :=
  alias <- getAlias ;;
  let projectName := alias +:+ name in
  runCommand "go" ["mod"; "init"; projectName].

Definition createFile (name : string) (store : string -> option string)
  (filePath : string) : M unit :=
  file <- wrap "error creating file: %w" (os_Create E name) ;;
  bytes <- wrap "error reading embedded file: %w" (embed_ReadFile store filePath) ;;
  wrap "error writing to file: %w" (file_Write file bytes).

Definition createExecutableFile (name : string)
  (store : string -> option string) (filePath : string) : M unit :=
  createFile name store filePath ;;;
  wrap ("error making " +:+ name +:+ " executable: %w") (os_Chmod name perm_0700).

Definition createPreCommitHook : M unit :=
  wrap ("error changing to " +:+ GitHooksDir +:+ " directory: %w")
    (os_Chdir GitHooksDir) ;;;
  wrap ("error creating " +:+ PreCommitHookFile +:+ ": %w")
    (createExecutableFile PreCommitHookFile templatesFS PreCommitHookTemplate).

Definition createGithubAction : M unit :=
  let dirsToCreate := [GithubDir; WorkflowsDir] in
  for_each dirsToCreate (fun dir =>
    wrap ("error creating " +:+ dir +:+ ": %w") (mkdir dir)) ;;;
  wrap ("error creating " +:+ ReleaserFile +:+ ": %w")
    (createFile ReleaserFile templatesFS ReleaserTemplate).

Definition createScripts : M unit :=
  mkdir ScriptsDir ;;;
  let filesToCreate :=
    [(PreCommitScriptFile, PreCommitScriptTemplate);
     (SetupScriptFile, SetupScriptTemplate);
     (CIBuildScriptFile, CIBuildScriptTemplate)] in
  for_each filesToCreate (fun file =>
    wrap ("error creating " +:+ file.1 +:+ ": %w")
      (createExecutableFile file.1 templatesFS file.2)).

Definition createProjectFiles (projectName : string) : M unit :=
  let filesToCreate :=
    [(GolintciFile, GolintciTemplate);
     (GoreleaserFile, GoreleaserTemplate);
     (GitignoreFile, GitignoreTemplate);
     (Makefile, MakefileTemplate)] in
  wrap "error changing to project directory: %w" (os_Chdir projectName) ;;;
  wrap "error initializing repository: %w" (runCommand "git" ["init"]) ;;;
  wrap "error initializing Go module: %w" (goModInit projectName) ;;;
  for_each filesToCreate (fun file =>
    wrap ("error creating " +:+ file.1 +:+ ": %w")
      (createFile file.1 templatesFS file.2)) ;;;
  wrap "error creating scripts: %w" createScripts ;;;
  wrap "error creating github actions: %w" createGithubAction ;;;
  wrap "error creating pre-commit hook: %w" createPreCommitHook.

(** [main], as in the other versions. [log.Fatal] with a text and no
    error is an [Errorf] without operand; with a text and an error it
    is the error under that text. *)
Definition main (d : option string) : M unit :=
  ok <- isGoInstalled ;;
  if negb ok then fail (Errorf "Go is not installed." None)
  else
    let projectName := default DefaultProjectName d in
    wrap "Error creating directory: " (mkdir projectName) ;;;
    wrap "Error creating project files: " (createProjectFiles projectName).

End Program.
End Main3.

(** ** The first program in [main.go] (lines 1 to 160)

    No probe, no alias, no scripts; each template is its own embedded
    store. *)

Module Main1.
Import Os.

Definition DefaultProjectName : string := "new_project".

Section Program.
Context (E : env).
(** The embedded stores [linting], [hook] and [gitignore]. *)
Context (linting hook gitignore : string -> option string).

Definition mkdir (name : string) : M unit :=
  r <- attempt (os_Stat name) ;;
  match r with
  | Ok _ => fail (Errorf "project already exists: %w" None)
  | Err _ =>
      pwd <- wrap "error getting current working directory: %w" os_Getwd ;;
      let path := filepath_Join pwd name in
      wrap "error creating folder: %w" (os_Mkdir E path ModePerm)
  end.

Definition initRepo : M unit :=
  wrap "error initializing repository: %w" (exec_Run E ["git"; "init"]).

Definition goModInit (name : string) : M unit :=
  wrap "error initializing Go module: %w"
    (exec_Run E ["go"; "mod"; "init"; name]).

Definition createFile (name : string) (store : string -> option string)
  (filePath : string) : M unit :=
  file <- wrap "error creating file: %w" (os_Create E name) ;;
  bytes <- wrap "error reading embedded file: %w" (embed_ReadFile store filePath) ;;
  wrap "error writing to file: %w" (file_Write file bytes).

Definition createPreCommitHook : M unit :=
  wrap "error changing to .git/hooks directory: %w" (os_Chdir ".git/hooks") ;;;
  file <- wrap "error creating file: %w" (os_Create E "pre-commit") ;;
  bytes <- wrap "error reading embedded file: %w"
             (embed_ReadFile hook "pre-commit.sh") ;;
  wrap "error writing to file: %w" (file_Write file bytes) ;;;
  wrap "error making file executable: %w" (os_Chmod "pre-commit" perm_0700).

Definition createProjectFiles (projectName : string) : M unit :=
  wrap "error changing to project directory: %w" (os_Chdir projectName) ;;;
  wrap "error initializing repository: %w" initRepo ;;;
  wrap "error initializing Go module: %w" (goModInit projectName) ;;;
  wrap "error creating linting configuration file: %w"
    (createFile ".golintci.yml" linting ".golangci.yml") ;;;
  wrap "error creating .gitignore file: %w"
    (createFile ".gitignore" gitignore ".gitignore") ;;;
  wrap "error creating pre-commit hook: %w" createPreCommitHook.

Definition main (d : option string) : M unit :=
  let projectName := default DefaultProjectName d in
  mkdir projectName ;;;
  createProjectFiles projectName.

End Program.
End Main1.

(** ** The second program in [main.go] (lines 161 to 318)

    [main] makes every call itself; the hook is written before the ignore
    file and is not made executable. *)

Module Main2.
Import Os.

Section Program.
Context (E : env).
(** The embedded stores [linting], [hook] and [gitignore]. *)
Context (linting hook gitignore : string -> option string).

(** [mkdir]. A failure of [os.Getwd] ends the process at once with
    [log.Fatal(err)], which is what [main] does with an error returned. *)
Definition mkdir (name : string) : M unit :=
  r <- attempt (os_Stat name) ;;
  match r with
  | Ok _ => fail (Errorf "project already exist: %w" None)
  | Err _ =>
      pwd <- os_Getwd ;;
      let path := filepath_Join pwd name in
      wrap "error creating folder: %w" (os_Mkdir E path ModePerm)
  end.

Definition initRepo : M unit :=
  wrap "error git init: %w" (exec_Run E ["git"; "init"]).

Definition goModInit (name : string) : M unit :=
  wrap "error init go module: %w" (exec_Run E ["go"; "mod"; "init"; name]).

Definition createLintConfig : M unit :=
  file <- wrap "error creating file: %w" (os_Create E ".golintci.yml") ;;
  bytes <- wrap "error: %w" (embed_ReadFile linting ".golangci.yml") ;;
  wrap "error: %w" (file_Write file bytes).

Definition createGitIgnore : M unit :=
  file <- wrap "error creating file: %w" (os_Create E ".gitignore") ;;
  bytes <- wrap "error: %w" (embed_ReadFile gitignore ".gitignore") ;;
  wrap "error: %w" (file_Write file bytes).

Definition createPreCommitHook : M unit :=
  wrap "error cd into git: %w" (os_Chdir ".git/hooks") ;;;
  file <- wrap "error creating file: %w" (os_Create E "pre-commit") ;;
  bytes <- wrap "error: %w" (embed_ReadFile hook "pre-commit.sh") ;;
  wrap "error: %w" (file_Write file bytes).

Definition main (d : option string) : M unit :=
  let projectName := default "new_project" d in
  mkdir projectName ;;;
  os_Chdir projectName ;;;
  initRepo ;;;
  goModInit projectName ;;;
  createLintConfig ;;;
  createPreCommitHook ;;;
  createGitIgnore.

End Program.
End Main2.

(** ** What a well-formed block is

    The shape of SSH configuration text that the alias pattern accepts,
    stated on the text itself and without the matcher. *)

Module Block.
Import Regexp.

Definition all_in (cls : ascii -> bool) (s : string) : bool :=
  forallb cls (Str.to_list s).

Definition head_not_in (cls : ascii -> bool) (s : string) : bool :=
  match s with
  | String c _ => negb (cls c)
  | EmptyString => true
  end.

Definition host_line : string := "Host github.com" +:+ Str.nl.

(** The line [Host github.com], a gap, [User ], a name, and what
    follows. *)
Definition block (gap user rest : string) : string :=
  host_line +:+ gap +:+ "User " +:+ user +:+ rest.

(** The gap is a non-empty run of white space, the name a non-empty run
    of word bytes that [rest] does not continue. *)
Definition well_formed (gap user rest : string) : Prop :=
  gap <> "" /\ all_in is_space gap = true /\
  user <> "" /\ all_in is_word user = true /\
  head_not_in is_word rest = true.

Definition starts_block (s : string) : Prop :=
  exists gap user rest, well_formed gap user rest /\ s = block gap user rest.

(** [first_block s user rest]: the leftmost block of [s] names [user]
    and is followed by [rest]. *)
Inductive first_block : string -> string -> string -> Prop :=
| first_here gap user rest :
    well_formed gap user rest ->
    first_block (block gap user rest) user rest
| first_later c s user rest :
    ~ starts_block (String c s) ->
    first_block s user rest ->
    first_block (String c s) user rest.

(** The same text as byte lists, and the offsets of a match of the
    pattern that starts at [i]: its end and the span of the name. *)
Definition hostL : list ascii :=
  Str.to_list "Host github.com" ++ Str.to_list Str.nl.
Definition userL : list ascii := Str.to_list "User ".

Definition offsets (i : nat) (gap user : list ascii) : nat * option span :=
  let a := (i + length hostL + length gap + length userL)%nat in
  ((a + length user)%nat, Some (a, (a + length user)%nat)).

End Block.

(** ** Shape of the file tree, and what is assumed of external tools *)

Module Tree.
Import Os.

Definition same_kind (a b : node) : Prop :=
  match a, b with
  | Dir _, Dir _ => True
  | File _ _, File _ _ => True
  | _, _ => False
  end.

(** Every entry but the root lies in a directory. *)
Definition wf (t : gmap path node) : Prop :=
  forall p nd, t !! p = Some nd -> p <> [] ->
               exists perm, t !! parent p = Some (Dir perm).

(** An external tool leaves a tree a tree. *)
Definition tools_respect_tree (E : env) : Prop :=
  forall argv dir t, wf t -> wf (exec_tool E argv dir t).2.

(** An external tool removes nothing. *)
Definition tools_keep_entries (E : env) : Prop :=
  forall argv dir t p,
    is_Some (t !! p) -> is_Some ((exec_tool E argv dir t).2 !! p).

(** A project name that is one path component. *)
Definition valid_name (n : string) : bool :=
  negb (Str.has_slash n) && negb (String.eqb n "")
  && negb (String.eqb n ".") && negb (String.eqb n "..").

End Tree.

(** ** Relations between the worlds before and after a computation *)

Module Run.
Import Os Tree.

(** Whatever the outcome of [m], the worlds before and after are
    related by [R]. *)
Definition keeps (R : world -> world -> Prop) {A} (m : M A) : Prop :=
  forall w r w', m w = (r, w') -> R w w'.

Definition entries_stay (w w' : world) : Prop :=
  forall p, is_Some (fs w !! p) -> is_Some (fs w' !! p).

Definition trace_grows (w w' : world) : Prop :=
  exists evs, trace w' = trace w ++ evs.

Definition tree_stays (w w' : world) : Prop := wf (fs w) -> wf (fs w').

(** Every system call but [os.Chdir] keeps [R]. *)
Record calls_keep (R : world -> world -> Prop) (E : env) : Prop := {
  keep_Stat : forall name, keeps R (os_Stat name);
  keep_Getwd : keeps R os_Getwd;
  keep_Mkdir : forall p perm, keeps R (os_Mkdir E p perm);
  keep_Create : forall name, keeps R (os_Create E name);
  keep_Write : forall h data, keeps R (file_Write h data);
  keep_Chmod : forall name mode, keeps R (os_Chmod name mode);
  keep_Open : forall name, keeps R (os_Open name);
  keep_Read : forall h size, keeps R (file_Read h size);
  keep_Run : forall argv, keeps R (exec_Run E argv)
}.

(** The steps of a list one after the other, up to the first failure. *)
Fixpoint sequence (l : list (M unit)) : M unit :=
  match l with
  | [] => ret tt
  | m :: l' => bind m (fun _ => sequence l')
  end.

(** The external programs started, oldest first. *)
Definition execs (tr : list event) : list (list string) :=
  omap (fun ev => match ev with EvExec argv => Some argv | _ => None end) tr.

Definition node_perm (nd : node) : Z :=
  match nd with
  | Dir perm => perm
  | File perm _ => perm
  end.

End Run.

(** ** The orchestration of [unnamed/part_000] as a list of steps *)

Module Steps.
Import Os Part000.

(** The calls of [main] and of [createProjectFiles], in the order of the
    source, each with the wrapping applied at its call site. *)
Definition steps (E : env) (d : option string) : list (M unit) :=
  let projectName := default DefaultProjectName d in
  [ exec_Run E ["go"; "version"];
    mkdir E projectName;
    wrap "error changing to project directory: %w" (os_Chdir projectName);
    wrap "error initializing repository: %w" (initRepo E);
    wrap "error initializing Go module: %w" (goModInit E projectName);
    wrap "error creating linting configuration file: %w"
      (createFile E ".golintci.yml" (templatesFS E) "templates/.golangci.yml");
    wrap "error creating .gitignore file: %w"
      (createFile E ".gitignore" (templatesFS E) "templates/.gitignore");
    wrap "error creating .gitignore file: %w"
      (createFile E "Makefile" (templatesFS E) "templates/Makefile");
    wrap "error creating scripts: %w" (createScripts E);
    wrap "error creating pre-commit hook: %w" (createPreCommitHook E) ].

End Steps.

(** ** The tree a successful run leaves *)

Module Scaffold.
Import Os.

(** The tree [t] with the entries of [l] added under [root], in the order
    of the list. *)
Definition add_entries (root : path) (l : list (list string * node))
  (t : gmap path node) : gmap path node :=
  fold_left (fun t e => <[root ++ e.1 := e.2]> t) l t.

(** The mode of a file after [os.Create]: its old mode if it was there,
    else [0666] less the umask. *)
Definition create_perm (E : env) (t : gmap path node) (p : path) : Z :=
  match t !! p with
  | Some (File perm _) => perm
  | _ => Z.ldiff perm_0666 (umask E)
  end.

Definition template (E : env) (name : string) : string :=
  default "" (embedded E name).

(** The tree after the external programs of a run for [n] with alias [a]:
    [go version], then the new directory [root], then [git init] and
    [go mod init] in it. *)
Definition tooled (E : env) (a n : string) (w : world) : gmap path node :=
  let root := cwd w ++ [n] in
  let t1 := (exec_tool E ["go"; "version"] (cwd w) (fs w)).2 in
  let t2 := <[root := Dir (Z.ldiff ModePerm (umask E))]> t1 in
  let t3 := (exec_tool E ["git"; "init"] root t2).2 in
  (exec_tool E ["go"; "mod"; "init"; a +:+ n] root t3).2.

(** What [unnamed/part_000] writes under [root], given the tree [t] the
    tools left; [m] is the mode of [scripts/pre-commit]. *)
Definition written_part000 (E : env) (root : path) (t : gmap path node)
  (m : Z) : list (list string * node) :=
  [ ([".golintci.yml"],
     File (create_perm E t (root ++ [".golintci.yml"]))
       (template E "templates/.golangci.yml"));
    ([".gitignore"],
     File (create_perm E t (root ++ [".gitignore"]))
       (template E "templates/.gitignore"));
    (["Makefile"],
     File (create_perm E t (root ++ ["Makefile"]))
       (template E "templates/Makefile"));
    (["scripts"], Dir (Z.ldiff ModePerm (umask E)));
    (["scripts"; "pre-commit"],
     File m (template E "templates/scripts/pre-commit"));
    (["scripts"; "setup.sh"],
     File perm_0700 (template E "templates/scripts/setup.sh"));
    (["scripts"; "cibuild.sh"],
     File perm_0700 (template E "templates/scripts/cibuild.sh"));
    ([".git"; "hooks"; "pre-commit"],
     File perm_0700 (template E "templates/scripts/pre-commit")) ].

(** What the last version in [main.go] writes. *)
Definition written_main3 (E : env) (root : path) (t : gmap path node) :
  list (list string * node) :=
  [ ([".golintci.yml"],
     File (create_perm E t (root ++ [".golintci.yml"]))
       (template E "templates/.golangci.yml"));
    ([".goreleaser.yml"],
     File (create_perm E t (root ++ [".goreleaser.yml"]))
       (template E "templates/.goreleaser.yml"));
    ([".gitignore"],
     File (create_perm E t (root ++ [".gitignore"]))
       (template E "templates/.gitignore"));
    (["Makefile"],
     File (create_perm E t (root ++ ["Makefile"]))
       (template E "templates/Makefile"));
    (["scripts"], Dir (Z.ldiff ModePerm (umask E)));
    (["scripts"; "pre-commit"],
     File perm_0700 (template E "templates/scripts/pre-commit"));
    (["scripts"; "setup.sh"],
     File perm_0700 (template E "templates/scripts/setup.sh"));
    (["scripts"; "cibuild.sh"],
     File perm_0700 (template E "templates/scripts/cibuild.sh"));
    ([".github"], Dir (Z.ldiff ModePerm (umask E)));
    ([".github"; "workflows"], Dir (Z.ldiff ModePerm (umask E)));
    ([".github"; "workflows"; "releaser.yml"],
     File (Z.ldiff perm_0666 (umask E)) (template E "templates/releaser.yml"));
    ([".git"; "hooks"; "pre-commit"],
     File perm_0700 (template E "templates/scripts/pre-commit")) ].

End Scaffold.

(** ** Readings of the specification that the code is compared with *)

Module Reading.
Import Os Regexp Block.

(** Where the SSH configuration is looked for. *)
Definition config_name (E : env) : string :=
  path_Join (HOME E) Part000.sshConfigPath.

Definition config_path (E : env) (w : world) : path :=
  resolve (cwd w) (config_name E).

(** The alias made from the result of [FindStringSubmatch]. *)
Definition alias_of (matched : list string) : string :=
  if (length matched <? 2)%nat then Part000.alias
  else "github.com/" +:+ nth 1 matched "" +:+ "/".

(** The world after the calls of [getAlias] that were reached. *)
Definition opened (E : env) (w : world) : world :=
  World (fs w) (cwd w) (trace w ++ [EvOpen (config_name E)]).

Definition read (E : env) (w : world) : world :=
  World (fs w) (cwd w)
    (trace w ++ [EvOpen (config_name E); EvRead (config_path E w) 1024]).




(** The entries that the specification lists for the tree under a new
    project, with the directories that hold them, the workflow of the
    richer version included. *)
Definition listed_entries : list (list string) :=
  [ [".golintci.yml"]; [".gitignore"]; ["Makefile"];
    ["scripts"]; ["scripts"; "pre-commit"]; ["scripts"; "setup.sh"];
    ["scripts"; "cibuild.sh"];
    [".git"]; [".git"; "hooks"]; [".git"; "hooks"; "pre-commit"];
    [".github"]; [".github"; "workflows"];
    [".github"; "workflows"; "releaser.yml"] ].

(** [Host github.com] and [User <name>] with nothing but white space
    between them. *)
Definition separated_by_space (s user : string) : Prop :=
  exists pre gap rest,
    s = pre +:+ "Host github.com" +:+ gap +:+ "User " +:+ user +:+ rest /\
    gap <> "" /\ forallb is_space (Str.to_list gap) = true /\
    user <> "" /\ forallb is_word (Str.to_list user) = true /\
    match rest with String c _ => is_word c = false | EmptyString => True end.

End Reading.

(** ** Sample environments *)

Module Demo.
Import Os.

Definition is_dir (t : gmap path node) (p : path) : bool :=
  match t !! p with
  | Some (Dir _) => true
  | _ => false
  end.

Definition is_free (t : gmap path node) (p : path) : bool :=
  match t !! p with
  | None => true
  | Some _ => false
  end.

(** Sample tools. [go version] succeeds; [git init] makes [.git] and
    [.git/hooks] in a directory that has no [.git] yet; [go mod init name]
    writes [go.mod] where there is none; anything else fails. *)
Definition tools (argv : list string) (dir : path) (t : gmap path node) :
  bool * gmap path node :=
  if decide (argv = ["go"; "version"]) then (true, t)
  else if decide (argv = ["git"; "init"]) then
    if is_dir t dir && is_free t (dir ++ [".git"])
       && is_free t (dir ++ [".git"; "hooks"])
    then (true, <[dir ++ [".git"; "hooks"] := Dir 493]>
                  (<[dir ++ [".git"] := Dir 493]> t))
    else (false, t)
  else match argv with
       | [a; b; c; name] =>
           if decide ([a; b; c] = ["go"; "mod"; "init"]) then
             if is_dir t dir && is_free t (dir ++ ["go.mod"])
             then (true, <[dir ++ ["go.mod"] := File 420 ("module " +:+ name)]> t)
             else (false, t)
           else (false, t)
       | _ => (false, t)
       end.

(** The same tools, except that [go mod init] fails. *)
Definition tools_without_mod (argv : list string) (dir : path)
  (t : gmap path node) : bool * gmap path node :=
  match argv with
  | [a; b; c; name] =>
      if decide ([a; b; c] = ["go"; "mod"; "init"]) then (false, t)
      else tools argv dir t
  | _ => tools argv dir t
  end.

Definition templates (name : string) : option string :=
  if decide (name = "templates/.golangci.yml") then Some "lint"
  else if decide (name = "templates/.gitignore") then Some "ignore"
  else if decide (name = "templates/Makefile") then Some "make"
  else if decide (name = "templates/scripts/pre-commit") then Some "hook"
  else if decide (name = "templates/scripts/setup.sh") then Some "setup"
  else if decide (name = "templates/scripts/cibuild.sh") then Some "cibuild"
  else if decide (name = "templates/.goreleaser.yml") then Some "goreleaser"
  else if decide (name = "templates/releaser.yml") then Some "workflow"
  else None.

(** An embedded store that holds one file. *)
Definition store (name data : string) : string -> option string :=
  fun n => if decide (n = name) then Some data else None.

(** Umask [022], no home directory. *)
Definition E0 : env := Env 18 "" tools templates.

(** The same with a home directory. *)
Definition E1 : env := Env 18 "/home/u" tools templates.

(** No Go tool: every external program fails and changes nothing. *)
Definition E2 : env := Env 18 "" (fun _ _ t => (false, t)) templates.

(** A Go tool that cannot initialise a module. *)
Definition E3 : env := Env 18 "" tools_without_mod templates.

(** An empty working directory [/work]. *)
Definition w0 : world :=
  World (<[["work"] := Dir 493]> {[ [] := Dir 493 ]}) ["work"] [].

(** A world whose home directory holds the SSH configuration [data]. *)
Definition with_config (data : string) : world :=
  World (<[["home"; "u"; ".ssh"; "config"] := File 420 data]>
         (<[["home"; "u"; ".ssh"] := Dir 448]>
          (<[["home"; "u"] := Dir 493]>
           (<[["home"] := Dir 493]>
            (<[["work"] := Dir 493]> {[ [] := Dir 493 ]})))))
        ["work"] [].

(** A block that the 1024-byte read cuts after two bytes of the name. *)
Definition cut_config : string :=
  Str.of_list (repeat " "%char 1000) +:+ "Host github.com" +:+ Str.nl
  +:+ " User alexekdahl" +:+ Str.nl.

(** A space after [Host github.com], before the end of the line. *)
Definition trailing_space_config : string :=
  "Host github.com " +:+ Str.nl +:+ "  User foo" +:+ Str.nl.

Definition plain_config : string :=
  "# keys" +:+ Str.nl +:+ "Host github.com" +:+ Str.nl +:+ Str.nl
  +:+ "  User git" +:+ Str.nl.

Definition hyphen_config : string :=
  "Host github.com" +:+ Str.nl +:+ "  User foo-bar" +:+ Str.nl.

(** A name that starts with a hyphen. *)
Definition leading_hyphen_config : string :=
  "Host github.com" +:+ Str.nl +:+ "  User -foo" +:+ Str.nl.

(** A line of the block between [Host] and [User]. *)
Definition hostname_config : string :=
  "Host github.com" +:+ Str.nl +:+ "  HostName github.com" +:+ Str.nl
  +:+ "  User foo-bar" +:+ Str.nl.

(** The block of [hyphen_config] behind 1024 bytes of white space. *)
Definition late_config : string :=
  Str.of_list (repeat " "%char 1024) +:+ hyphen_config.

(** The sample tools, except that a [go mod init] that succeeds leaves
    an executable [Makefile] as well. *)
Definition tools_with_makefile (argv : list string) (dir : path)
  (t : gmap path node) : bool * gmap path node :=
  match argv with
  | [a; b; c; name] =>
      if decide ([a; b; c] = ["go"; "mod"; "init"]) then
        let (ok, t') := tools argv dir t in
        if ok then (true, <[dir ++ ["Makefile"] := File 493 "all:"]> t')
        else (false, t')
      else tools argv dir t
  | _ => tools argv dir t
  end.

(** Umask [022] and the tools that leave a build file. *)
Definition E4 : env := Env 18 "" tools_with_makefile templates.

End Demo.


(** ** The outcome of [mkdir] *)

Module Outcome.
Import Os.


End Outcome.

(** ** The orchestration of the last program of [main.go] as a list of
    steps *)

Module Steps3.
Import Os Main3.

(** The table of [createProjectFiles]. *)
Definition filesToCreate : list (string * string) :=
  [(GolintciFile, GolintciTemplate);
   (GoreleaserFile, GoreleaserTemplate);
   (GitignoreFile, GitignoreTemplate);
   (Makefile, MakefileTemplate)].

(** The calls of [createProjectFiles] in the order of the source, one
    step for each turn of its loop, each with the wrapping applied at
    its call site. *)
Definition project_steps (E : env) (projectName : string) : list (M unit) :=
  [ wrap "error changing to project directory: %w" (os_Chdir projectName);
    wrap "error initializing repository: %w" (runCommand E "git" ["init"]);
    wrap "error initializing Go module: %w" (goModInit E projectName) ]
  ++ map (fun file : string * string =>
            wrap ("error creating " +:+ file.1 +:+ ": %w")
              (createFile E file.1 (templatesFS E) file.2)) filesToCreate
  ++ [ wrap "error creating scripts: %w" (createScripts E);
       wrap "error creating github actions: %w" (createGithubAction E);
       wrap "error creating pre-commit hook: %w" (createPreCommitHook E) ].

(** [if !isGoInstalled() { log.Fatal("Go is not installed.") }] *)
Definition probe (E : env) : M unit :=
  ok <- isGoInstalled E ;;
  if negb ok then fail (Errorf "Go is not installed." None) else ret tt.

(** The steps of [main]: the probe, the directory, and the steps of
    [createProjectFiles] under the text [main] puts before their
    error. *)
Definition steps (E : env) (d : option string) : list (M unit) :=
  let projectName := default DefaultProjectName d in
  probe E
  :: wrap "Error creating directory: " (mkdir E projectName)
  :: map (wrap "Error creating project files: ") (project_steps E projectName).

End Steps3.

(** ** What lies outside the new project *)

Module Frame.
Import Os.

(** An external tool writes only under the directory it runs in. *)
Definition tools_local (E : env) : Prop :=
  forall argv dir t p,
    ~ dir `prefix_of` p -> (exec_tool E argv dir t).2 !! p = t !! p.

(** From a working directory under [root], the working directory stays
    under [root] and no entry outside [root] changes. *)
Definition outside_stays (root : path) (w w' : world) : Prop :=
  root `prefix_of` cwd w ->
  root `prefix_of` cwd w' /\
  forall p, ~ root `prefix_of` p -> fs w' !! p = fs w !! p.

Definition plain_component (c : string) : bool :=
  negb (String.eqb c "") && negb (String.eqb c ".") && negb (String.eqb c "..").

(** A name that leads down from the directory it is resolved in: it is
    not written from the root and has no empty, [.] or [..] component. *)
Definition descends (name : string) : bool :=
  negb (is_abs name) && forallb plain_component (Str.split_slash name).

End Frame.

(** ** The tree the first two programs of [main.go] leave *)

Module Early.
Import Os Scaffold.

(** The tree after the external programs of a run for [n]: the new
    directory [root], then [git init] and [go mod init n] in it. *)
Definition tooled (E : env) (n : string) (w : world) : gmap path node :=
  let root := cwd w ++ [n] in
  let t2 := <[root := Dir (Z.ldiff ModePerm (umask E))]> (fs w) in
  let t3 := (exec_tool E ["git"; "init"] root t2).2 in
  (exec_tool E ["go"; "mod"; "init"; n] root t3).2.

Definition content (store : string -> option string) (name : string) : string :=
  default "" (store name).

(** What the first program writes under [root], given the tree [t] the
    tools left. *)
Definition written_main1 (E : env)
  (linting hook gitignore : string -> option string)
  (root : path) (t : gmap path node) : list (list string * node) :=
  [ ([".golintci.yml"],
     File (create_perm E t (root ++ [".golintci.yml"]))
       (content linting ".golangci.yml"));
    ([".gitignore"],
     File (create_perm E t (root ++ [".gitignore"]))
       (content gitignore ".gitignore"));
    ([".git"; "hooks"; "pre-commit"],
     File perm_0700 (content hook "pre-commit.sh")) ].

(** What the second program writes: the hook keeps the mode [os.Create]
    leaves, and the ignore file is written where the hook is. *)
Definition written_main2 (E : env)
  (linting hook gitignore : string -> option string)
  (root : path) (t : gmap path node) : list (list string * node) :=
  [ ([".golintci.yml"],
     File (create_perm E t (root ++ [".golintci.yml"]))
       (content linting ".golangci.yml"));
    ([".git"; "hooks"; "pre-commit"],
     File (create_perm E t (root ++ [".git"; "hooks"; "pre-commit"]))
       (content hook "pre-commit.sh"));
    ([".git"; "hooks"; ".gitignore"],
     File (create_perm E t (root ++ [".git"; "hooks"; ".gitignore"]))
       (content gitignore ".gitignore")) ].

End Early.


(** ** The external programs a run starts *)

Module Launch.
Import Os Run.

(** No external program is started between the two worlds. *)
Definition execs_same (w w' : world) : Prop :=
  execs (trace w') = execs (trace w).

End Launch.


(** ** Where a run ends *)

Module Place.
Import Os.

(** The working directory is the same in the two worlds. *)
Definition cwd_same (w w' : world) : Prop := cwd w' = cwd w.

End Place.


(** ** Where a file can be created *)

Module Able.
Import Os.


End Able.


(** ** The limits on names

    Linux takes a component of at most [NAME_MAX] bytes and a path name
    of less than [PATH_MAX] bytes, and a zero byte cannot be passed in a
    name. The calls of [Os] have no such limits; a statement that a new
    entry is made is for names within them. *)

Module Limits.
Import Os.







End Limits.


(** * Properties *)

(** ** Strings *)

Module StrFacts.
Import Str.

Lemma to_list_app a b : to_list (a +:+ b) = to_list a ++ to_list b.
Proof. induction a as [|c a IH]; [done|]. cbn. by rewrite <- IH. Qed.

Lemma of_to_list s : of_list (to_list s) = s.
Proof. induction s as [|c s IH]; [done|]. cbn. by rewrite IH. Qed.

Lemma to_of_list l : to_list (of_list l) = l.
Proof. induction l as [|c l IH]; [done|]. cbn. by rewrite IH. Qed.

Lemma to_list_inj a b : to_list a = to_list b -> a = b.
Proof. intros H. rewrite <- (of_to_list a), <- (of_to_list b). by rewrite H. Qed.

Lemma length_to_list s : length (to_list s) = String.length s.
Proof. induction s as [|c s IH]; [done|]. cbn. by rewrite IH. Qed.

(** The slice between the ends of [a] and of [a ++ b] is [b]. *)
Lemma slice_middle a b c :
  slice (length a) (length a + length b) (of_list (a ++ b ++ c)) = of_list b.
Proof.
  unfold slice. rewrite to_of_list. f_equal.
  replace (length a + length b - length a)%nat with (length b) by lia.
  rewrite List.skipn_app, List.skipn_all, Nat.sub_diag. cbn.
  rewrite List.skipn_O, List.firstn_app, List.firstn_all, Nat.sub_diag. cbn.
  by rewrite app_nil_r.
Qed.




Lemma take_cons n c s : take (S n) (String c s) = String c (take n s).
Proof. reflexivity. Qed.



Lemma split_slash_plain s : has_slash s = false -> split_slash s = [s].
Proof.
  unfold has_slash. induction s as [|c s IH]; [done|].
  cbn. destruct (Ascii.eqb c "/"); [done|]. cbn. intros H. by rewrite (IH H).
Qed.

End StrFacts.

(** ** The matcher *)

Module RegexpFacts.
Import Regexp.
Local Open Scope nat_scope.

Lemma exec_lits l k i s cap :
  exec (lits l) k i (l ++ s) cap = k (i + length l) s cap.
Proof.
  revert i. induction l as [|c l IH]; intros i; cbn.
  - by rewrite Nat.add_0_r.
  - rewrite Ascii.eqb_refl, IH. f_equal. lia.
Qed.

Lemma exec_lits_inv l k i s cap r :
  exec (lits l) k i s cap = Some r ->
  exists s', s = l ++ s' /\ k (i + length l) s' cap = Some r.
Proof.
  revert i s. induction l as [|c l IH]; intros i s; cbn.
  - intros H. exists s. by rewrite Nat.add_0_r.
  - destruct s as [|c' s]; [done|].
    destruct (Ascii.eqb c c') eqn:Hc; [|done].
    apply Ascii.eqb_eq in Hc as <-. intros H.
    destruct (IH _ _ H) as (s' & -> & Hk). exists s'. split; [done|].
    by replace (i + S (length l)) with (S i + length l) by lia.
Qed.

(** A run stops where the class stops, if the rest of the expression
    matches from there. *)
Lemma run_greedy cls k i a b cap r :
  forallb cls a = true -> heads_outside cls b ->
  k (i + length a) b cap = Some r ->
  run cls k i (a ++ b) cap = Some r.
Proof.
  revert i. induction a as [|c a IH]; intros i Ha Hb Hk; cbn in *.
  - rewrite Nat.add_0_r in Hk. destruct b as [|c b]; [done|].
    cbn in *. by rewrite Hb.
  - apply andb_prop in Ha as [-> Ha].
    rewrite (IH (S i)); [done..|].
    by replace (S i + length a) with (i + S (length a)) by lia.
Qed.

Lemma run_inv cls k i s cap r :
  run cls k i s cap = Some r ->
  exists a b, s = a ++ b /\ forallb cls a = true /\
              k (i + length a) b cap = Some r.
Proof.
  revert i. induction s as [|c s IH]; intros i; cbn.
  - intros H. exists [], []. by rewrite Nat.add_0_r.
  - destruct (cls c) eqn:Hc.
    + destruct (run cls k (S i) s cap) as [r'|] eqn:Hrun.
      * intros [= ->]. destruct (IH _ Hrun) as (a & b & -> & Ha & Hk).
        exists (c :: a), b. cbn. rewrite Hc, Ha. split_and!; [done..|].
        by replace (i + S (length a)) with (S i + length a) by lia.
      * intros H. exists [], (c :: s). by rewrite Nat.add_0_r.
    + intros H. exists [], (c :: s). by rewrite Nat.add_0_r.
Qed.

Lemma span_exists cls s :
  exists a b, s = a ++ b /\ forallb cls a = true /\ heads_outside cls b.
Proof.
  induction s as [|c s (a & b & -> & Ha & Hb)].
  - by exists [], [].
  - destruct (cls c) eqn:Hc.
    + exists (c :: a), b. cbn. by rewrite Hc, Ha.
    + by exists [], (c :: a ++ b).
Qed.

Lemma find_from_eq r i s :
  find_from r i s =
  match match_here r i s with
  | Some (j, cap) => Some (i, j, cap)
  | None =>
      match s with
      | [] => None
      | _ :: s' => find_from r (S i) s'
      end
  end.
Proof. by destruct s. Qed.

End RegexpFacts.

(** ** The alias pattern *)

Module PatternFacts.
Import Regexp RegexpFacts Block StrFacts.
Local Open Scope nat_scope.

(** Equal results differ at most in how their offsets are written. *)
Ltac offsets_eq :=
  repeat match goal with
         | |- @eq nat _ _ => lia
         | |- _ => f_equal
         end.

Lemma exec_Cat r1 r2 k : exec (Cat r1 r2) k = exec r1 (exec r2 k).
Proof. reflexivity. Qed.

Lemma exec_Plus cls k i c s cap :
  exec (Plus cls) k i (c :: s) cap =
  if cls c then run cls k (S i) s cap else None.
Proof. reflexivity. Qed.

Lemma exec_Group r k i s cap :
  exec (Group r) k i s cap = exec r (fun j s' _ => k j s' (Some (i, j))) i s cap.
Proof. reflexivity. Qed.

Lemma match_here_block i gap user rest :
  gap <> [] -> forallb is_space gap = true ->
  user <> [] -> forallb is_word user = true ->
  heads_outside is_word rest ->
  match_here Part000.req i (hostL ++ gap ++ userL ++ user ++ rest)
  = Some (offsets i gap user).
Proof.
  intros Hg Hgs Hu Huw Hrest.
  unfold match_here, Part000.req, literal, hostL.
  rewrite !exec_Cat, <- app_assoc, !exec_lits.
  destruct gap as [|c gap]; [done|]. cbn [app forallb] in *.
  apply andb_prop in Hgs as [Hc Hgs]. rewrite exec_Plus, Hc.
  apply run_greedy; [done|done|].
  fold userL. rewrite exec_lits, exec_Group.
  destruct user as [|d user]; [done|]. cbn [app forallb] in *.
  apply andb_prop in Huw as [Hd Huw]. rewrite exec_Plus, Hd.
  apply run_greedy; [done|done|].
  unfold accept, offsets, hostL. rewrite length_app. cbn [length].
  offsets_eq.
Qed.

Lemma match_here_inv i s r :
  match_here Part000.req i s = Some r ->
  exists gap user rest,
    gap <> [] /\ forallb is_space gap = true /\
    user <> [] /\ forallb is_word user = true /\
    heads_outside is_word rest /\
    s = hostL ++ gap ++ userL ++ user ++ rest /\ r = offsets i gap user.
Proof.
  intros H. pose proof H as H0. revert H0.
  unfold match_here at 1, Part000.req, literal. rewrite !exec_Cat. intros H0.
  apply exec_lits_inv in H0 as (s1 & -> & H0).
  apply exec_lits_inv in H0 as (s2 & -> & H0).
  destruct s2 as [|c s2]; [done|]. rewrite exec_Plus in H0.
  destruct (is_space c) eqn:Hc; [|done].
  apply run_inv in H0 as (gap & b & -> & Hgap & H0).
  apply exec_lits_inv in H0 as (s3 & -> & H0). rewrite exec_Group in H0.
  destruct s3 as [|d s3]; [done|]. rewrite exec_Plus in H0.
  destruct (is_word d) eqn:Hd; [|done].
  destruct (span_exists is_word s3) as (user & rest & -> & Huser & Hrest).
  assert (Hs : Str.to_list "Host github.com" ++ Str.to_list Str.nl
               ++ c :: gap ++ Str.to_list "User " ++ d :: user ++ rest
               = hostL ++ (c :: gap) ++ userL ++ (d :: user) ++ rest).
  { unfold hostL, userL. by rewrite <- !app_assoc. }
  exists (c :: gap), (d :: user), rest. cbn [forallb]. rewrite Hc, Hd.
  split_and!; try done.
  rewrite Hs, match_here_block in H; try done; cbn [forallb].
  - by injection H.
  - by rewrite Hc.
  - by rewrite Hd.
Qed.

(** *** From lists to strings *)

Lemma to_list_block gap user rest :
  Str.to_list (block gap user rest)
  = hostL ++ Str.to_list gap ++ userL ++ Str.to_list user ++ Str.to_list rest.
Proof.
  unfold block, host_line, hostL, userL. rewrite !to_list_app.
  by rewrite <- !app_assoc.
Qed.

Lemma heads_outside_to_list cls s :
  heads_outside cls (Str.to_list s) <-> head_not_in cls s = true.
Proof. destruct s as [|c s]; cbn; [done|]. by destruct (cls c). Qed.

Lemma to_list_nonempty s : s <> EmptyString <-> Str.to_list s <> [].
Proof. by destruct s. Qed.

Lemma match_here_well_formed i gap user rest :
  well_formed gap user rest ->
  match_here Part000.req i (Str.to_list (block gap user rest))
  = Some (offsets i (Str.to_list gap) (Str.to_list user)).
Proof.
  intros (Hg & Hgs & Hu & Huw & Hrest). rewrite to_list_block.
  apply match_here_block; try done.
  - by apply to_list_nonempty.
  - by apply to_list_nonempty.
  - by apply heads_outside_to_list.
Qed.

Lemma match_here_starts i s r :
  match_here Part000.req i (Str.to_list s) = Some r -> starts_block s.
Proof.
  intros (gap & user & rest & Hg & Hgs & Hu & Huw & Hrest & Hs & _)%match_here_inv.
  exists (Str.of_list gap), (Str.of_list user), (Str.of_list rest).
  split.
  - unfold well_formed, all_in. rewrite !to_of_list. split_and!; try done.
    + intros E. apply Hg. by rewrite <- (to_of_list gap), E.
    + intros E. apply Hu. by rewrite <- (to_of_list user), E.
    + apply heads_outside_to_list. by rewrite to_of_list.
  - apply to_list_inj. by rewrite to_list_block, !to_of_list.
Qed.

Lemma match_here_none i s :
  ~ starts_block s -> match_here Part000.req i (Str.to_list s) = None.
Proof.
  intros Hs. destruct (match_here _ _ _) as [r|] eqn:H; [|done].
  destruct Hs. by eapply match_here_starts.
Qed.

(** The leftmost block is the one the search finds. [pre] is the text
    before the block and [mid] its part before the name. *)
Lemma find_from_first_block s user rest :
  first_block s user rest ->
  exists pre mid,
    Str.to_list s = pre ++ mid ++ Str.to_list user ++ Str.to_list rest /\
    forall i, find_from Part000.req i (Str.to_list s)
              = Some (i + length pre,
                      i + length pre + length mid + String.length user,
                      Some (i + length pre + length mid,
                            i + length pre + length mid + String.length user)).
Proof.
  induction 1 as [gap user rest Hwf|c s user rest Hno _ (pre & mid & Hs & IH)].
  - exists [], (hostL ++ Str.to_list gap ++ userL). split.
    + rewrite to_list_block. cbn [app]. by rewrite <- !app_assoc.
    + intros i. rewrite find_from_eq, (match_here_well_formed _ _ _ _ Hwf).
      unfold offsets. rewrite !length_app, <- !length_to_list. cbn [length].
      offsets_eq.
  - exists (c :: pre), mid. split.
    + cbn. by rewrite Hs.
    + intros i. rewrite find_from_eq, (match_here_none _ _ Hno).
      cbn [Str.to_list]. rewrite IH. cbn [length]. offsets_eq.
Qed.

Lemma find_from_no_block s :
  (forall user rest, ~ first_block s user rest) ->
  forall i, find_from Part000.req i (Str.to_list s) = None.
Proof.
  induction s as [|c s IH]; intros Hno i.
  - rewrite find_from_eq.
    destruct (match_here _ _ _) as [r|] eqn:H; [|done].
    apply (match_here_starts i EmptyString) in H as (gap & user & rest & Hwf & Hs).
    destruct (Hno user rest). rewrite Hs. by constructor.
  - rewrite find_from_eq.
    destruct (match_here _ _ _) as [r|] eqn:H.
    + apply match_here_starts in H as (gap & user & rest & Hwf & Hs).
      destruct (Hno user rest). rewrite Hs. by constructor.
    + cbn [Str.to_list]. apply IH. intros user rest Hfb. apply (Hno user rest).
      apply first_later; [|done].
      intros (gap & user' & rest' & Hwf & Hs).
      by rewrite Hs, (match_here_well_formed _ _ _ _ Hwf) in H.
Qed.

(** What [FindStringSubmatch] returns on a text with a block, and on a
    text without. *)
Lemma FindStringSubmatch_first_block s user rest :
  first_block s user rest ->
  exists whole, FindStringSubmatch Part000.req s = [whole; user].
Proof.
  intros (pre & mid & Hs & Hfind)%find_from_first_block.
  unfold FindStringSubmatch. rewrite Hfind. eexists. f_equal. f_equal.
  rewrite <- (of_to_list s), Hs, <- length_to_list.
  replace (0 + length pre + length mid) with (length (pre ++ mid))
    by (rewrite length_app; lia).
  rewrite (app_assoc pre mid), slice_middle. apply of_to_list.
Qed.

Lemma FindStringSubmatch_no_block s :
  (forall user rest, ~ first_block s user rest) ->
  FindStringSubmatch Part000.req s = [].
Proof.
  intros H. unfold FindStringSubmatch. by rewrite find_from_no_block.
Qed.

(** *** Blocks and truncation *)









End PatternFacts.

(** ** Computations *)

Module OsFacts.
Import Os Tree Run.

Lemma bind_Ok {A B} (m : M A) (k : A -> M B) w b w' :
  bind m k w = (Ok b, w') ->
  exists a w1, m w = (Ok a, w1) /\ k a w1 = (Ok b, w').
Proof.
  unfold bind. destruct (m w) as [[a|e] w1]; [|done]. intros H. by exists a, w1.
Qed.

Lemma wrap_Ok {A} format (m : M A) w a w' :
  wrap format m w = (Ok a, w') -> m w = (Ok a, w').
Proof. unfold wrap. destruct (m w) as [[a'|e] w1]; by intros [= <- <-]. Qed.

Lemma bind_step {A B} (m : M A) (k : A -> M B) w a w1 :
  m w = (Ok a, w1) -> bind m k w = k a w1.
Proof. unfold bind. by intros ->. Qed.

Lemma bind_stop {A B} (m : M A) (k : A -> M B) w e w1 :
  m w = (Err e, w1) -> bind m k w = (Err e, w1).
Proof. unfold bind. by intros ->. Qed.

Section Keeps.
Context (R : world -> world -> Prop) `{!PreOrder R}.

Lemma keeps_ret {A} (a : A) : keeps R (ret a).
Proof. intros w r w' [= <- <-]. reflexivity. Qed.

Lemma keeps_fail {A} e : keeps R (@fail A e).
Proof. intros w r w' [= <- <-]. reflexivity. Qed.

Lemma keeps_get : keeps R get.
Proof. intros w r w' [= <- <-]. reflexivity. Qed.

Lemma keeps_bind {A B} (m : M A) (k : A -> M B) :
  keeps R m -> (forall a, keeps R (k a)) -> keeps R (bind m k).
Proof.
  intros Hm Hk w r w'. unfold bind.
  destruct (m w) as [[a|e] w1] eqn:H1.
  - intros H2. transitivity w1; [by eapply Hm|by eapply Hk].
  - intros [= <- <-]. by eapply Hm.
Qed.

Lemma keeps_wrap {A} format (m : M A) : keeps R m -> keeps R (wrap format m).
Proof.
  intros Hm w r w'. unfold wrap.
  destruct (m w) as [[a|e] w1] eqn:H1; intros [= <- <-]; by eapply Hm.
Qed.

Lemma keeps_attempt {A} (m : M A) : keeps R m -> keeps R (attempt m).
Proof.
  intros Hm w r w'. unfold attempt.
  destruct (m w) as [r1 w1] eqn:H1. intros [= <- <-]. by eapply Hm.
Qed.

Lemma keeps_for_each {A} (l : list A) (body : A -> M unit) :
  (forall x, keeps R (body x)) -> keeps R (for_each l body).
Proof.
  intros Hb. induction l as [|x l IH]; cbn.
  - apply keeps_ret.
  - apply keeps_bind; [apply Hb|]. by intros _.
Qed.

Lemma keeps_sequence (l : list (M unit)) :
  Forall (keeps R) l -> keeps R (sequence l).
Proof.
  induction 1 as [|m l Hm _ IH]; cbn.
  - apply keeps_ret.
  - apply keeps_bind; [done|]. by intros _.
Qed.

Lemma keeps_embed_ReadFile store name : keeps R (embed_ReadFile store name).
Proof.
  unfold embed_ReadFile. destruct (store name); [apply keeps_ret|apply keeps_fail].
Qed.

Lemma keeps_os_UserHomeDir E : keeps R (os_UserHomeDir E).
Proof.
  unfold os_UserHomeDir. case_match; [apply keeps_fail|apply keeps_ret].
Qed.

End Keeps.

(** *** The relations are preorders *)

#[export] Instance entries_stay_preorder : PreOrder entries_stay.
Proof.
  split; [by intros w p|]. intros w1 w2 w3 H1 H2 p Hp. by apply H2, H1.
Qed.

#[export] Instance trace_grows_preorder : PreOrder trace_grows.
Proof.
  split.
  - intros w. exists []. by rewrite app_nil_r.
  - intros w1 w2 w3 [e1 H1] [e2 H2]. exists (e1 ++ e2).
    by rewrite H2, H1, app_assoc.
Qed.

#[export] Instance tree_stays_preorder : PreOrder tree_stays.
Proof.
  split; [by intros w H|]. intros w1 w2 w3 H1 H2 H. by apply H2, H1.
Qed.

Ltac keeps_step :=
  match goal with
  | |- keeps ?R (bind _ _) => apply (keeps_bind R); [try done|intros ?]
  | |- keeps ?R (wrap _ _) => apply (keeps_wrap R); [try done]
  | |- keeps ?R (attempt _) => apply (keeps_attempt R); [try done]
  | |- keeps ?R (ret _) => by apply (keeps_ret R)
  | |- keeps ?R (fail _) => by apply (keeps_fail R)
  | |- keeps ?R get => by apply (keeps_get R)
  | |- keeps ?R (embed_ReadFile _ _) => by apply (keeps_embed_ReadFile R)
  | |- keeps ?R (os_UserHomeDir _) => by apply (keeps_os_UserHomeDir R)
  | |- keeps ?R (for_each _ _) => apply (keeps_for_each R); intros ?
  | |- keeps _ (match ?x with _ => _ end) => destruct x
  end.

(** *** The file tree *)

Lemma parent_neq (p : path) : p <> [] -> parent p <> p.
Proof.
  intros Hp Heq. pose proof (app_removelast_last "" Hp) as H.
  apply (f_equal length) in H. rewrite length_app in H. cbn in H.
  unfold parent in Heq. rewrite Heq in H. lia.
Qed.

Lemma parent_snoc (p : path) c : parent (p ++ [c]) = p.
Proof. apply removelast_last. Qed.

Lemma wf_insert t p nd :
  wf t ->
  (p <> [] -> exists perm, t !! parent p = Some (Dir perm)) ->
  (forall old, t !! p = Some old -> same_kind old nd) ->
  wf (<[p := nd]> t).
Proof.
  intros Hwf Hpar Hkind q ndq Hq Hne.
  destruct (decide (q = p)) as [->|Hqp].
  - destruct (Hpar Hne) as [perm Hp]. exists perm.
    rewrite lookup_insert_ne; [done|]. intros E. by apply (parent_neq p).
  - rewrite lookup_insert_ne in Hq by done.
    destruct (Hwf q ndq Hq Hne) as [perm Hpq].
    destruct (decide (parent q = p)) as [<-|Hpp].
    + rewrite lookup_insert_eq. specialize (Hkind _ Hpq).
      destruct nd; [eauto|done].
    + rewrite lookup_insert_ne by done. eauto.
Qed.

(** *** System calls *)

Ltac prim :=
  let w := fresh "w" in
  intros w ? ?;
  unfold os_Stat, os_Getwd, os_Mkdir, os_Chdir, os_Create, file_Write,
    os_Chmod, os_Open, file_Read, exec_Run,
    bind, log, get, set_fs, set_cwd, ret, fail;
  cbn; repeat case_match; intros [= <- <-]; cbn.

Ltac trace_tac := prim; (eexists; cbn; reflexivity).

Ltac entries_tac :=
  prim; intros q Hq; cbn in *; try done;
  rewrite lookup_insert; case_decide; eauto.

Ltac tree_tac :=
  prim; intros Hwf; cbn in *;
  first [ done
        | apply wf_insert;
          [ done
          | eauto
          | let old := fresh "old" in
            let Hold := fresh "Hold" in
            intros old Hold; destruct old; first [congruence|done] ] ].

Lemma os_Stat_trace name : keeps trace_grows (os_Stat name).
Proof. trace_tac. Qed.
Lemma os_Getwd_trace : keeps trace_grows os_Getwd.
Proof. trace_tac. Qed.
Lemma os_Mkdir_trace E p perm : keeps trace_grows (os_Mkdir E p perm).
Proof. trace_tac. Qed.
Lemma os_Chdir_trace name : keeps trace_grows (os_Chdir name).
Proof. trace_tac. Qed.
Lemma os_Create_trace E name : keeps trace_grows (os_Create E name).
Proof. trace_tac. Qed.
Lemma file_Write_trace h data : keeps trace_grows (file_Write h data).
Proof. trace_tac. Qed.
Lemma os_Chmod_trace name mode : keeps trace_grows (os_Chmod name mode).
Proof. trace_tac. Qed.
Lemma os_Open_trace name : keeps trace_grows (os_Open name).
Proof. trace_tac. Qed.
Lemma file_Read_trace h size : keeps trace_grows (file_Read h size).
Proof. trace_tac. Qed.
Lemma exec_Run_trace E argv : keeps trace_grows (exec_Run E argv).
Proof. trace_tac. Qed.

Lemma os_Stat_entries name : keeps entries_stay (os_Stat name).
Proof. entries_tac. Qed.
Lemma os_Getwd_entries : keeps entries_stay os_Getwd.
Proof. entries_tac. Qed.
Lemma os_Mkdir_entries E p perm : keeps entries_stay (os_Mkdir E p perm).
Proof. entries_tac. Qed.
Lemma os_Chdir_entries name : keeps entries_stay (os_Chdir name).
Proof. entries_tac. Qed.
Lemma os_Create_entries E name : keeps entries_stay (os_Create E name).
Proof. entries_tac. Qed.
Lemma file_Write_entries h data : keeps entries_stay (file_Write h data).
Proof. entries_tac. Qed.
Lemma os_Chmod_entries name mode : keeps entries_stay (os_Chmod name mode).
Proof. entries_tac. Qed.
Lemma os_Open_entries name : keeps entries_stay (os_Open name).
Proof. entries_tac. Qed.
Lemma file_Read_entries h size : keeps entries_stay (file_Read h size).
Proof. entries_tac. Qed.
Lemma exec_Run_entries E argv :
  tools_keep_entries E -> keeps entries_stay (exec_Run E argv).
Proof.
  intros HE w r w'. unfold exec_Run, bind, log, get, set_fs, ret, fail. cbn.
  destruct (exec_tool E argv (cwd w) (fs w)) as [ok t] eqn:Ht.
  assert (Hq : forall q, is_Some (fs w !! q) -> is_Some (t !! q)).
  { intros q Hq. apply (HE argv (cwd w)) in Hq. by rewrite Ht in Hq. }
  destruct ok; intros [= <- <-]; exact Hq.
Qed.

Lemma os_Stat_tree name : keeps tree_stays (os_Stat name).
Proof. tree_tac. Qed.
Lemma os_Getwd_tree : keeps tree_stays os_Getwd.
Proof. tree_tac. Qed.
Lemma os_Mkdir_tree E p perm : keeps tree_stays (os_Mkdir E p perm).
Proof. tree_tac. Qed.
Lemma os_Chdir_tree name : keeps tree_stays (os_Chdir name).
Proof. tree_tac. Qed.
Lemma os_Create_tree E name : keeps tree_stays (os_Create E name).
Proof. tree_tac. Qed.
Lemma file_Write_tree h data : keeps tree_stays (file_Write h data).
Proof. tree_tac. Qed.
Lemma os_Chmod_tree name mode : keeps tree_stays (os_Chmod name mode).
Proof. tree_tac. Qed.
Lemma os_Open_tree name : keeps tree_stays (os_Open name).
Proof. tree_tac. Qed.
Lemma file_Read_tree h size : keeps tree_stays (file_Read h size).
Proof. tree_tac. Qed.
Lemma exec_Run_tree E argv :
  tools_respect_tree E -> keeps tree_stays (exec_Run E argv).
Proof.
  intros HE w r w'. unfold exec_Run, bind, log, get, set_fs, ret, fail. cbn.
  destruct (exec_tool E argv (cwd w) (fs w)) as [ok t] eqn:Ht.
  assert (Hq : wf (fs w) -> wf t).
  { intros Hwf. apply (HE argv (cwd w)) in Hwf. by rewrite Ht in Hwf. }
  destruct ok; intros [= <- <-]; exact Hq.
Qed.

End OsFacts.

(** ** The functions of the program *)

Module ProgramFacts.
Import Os Tree Run OsFacts.

Lemma calls_keep_trace E : calls_keep trace_grows E.
Proof.
  split; eauto using os_Stat_trace, os_Getwd_trace, os_Mkdir_trace,
    os_Create_trace, file_Write_trace, os_Chmod_trace, os_Open_trace,
    file_Read_trace, exec_Run_trace.
Qed.

Lemma calls_keep_entries E : tools_keep_entries E -> calls_keep entries_stay E.
Proof.
  split; eauto using os_Stat_entries, os_Getwd_entries, os_Mkdir_entries,
    os_Create_entries, file_Write_entries, os_Chmod_entries, os_Open_entries,
    file_Read_entries, exec_Run_entries.
Qed.

Lemma calls_keep_tree E : tools_respect_tree E -> calls_keep tree_stays E.
Proof.
  split; eauto using os_Stat_tree, os_Getwd_tree, os_Mkdir_tree,
    os_Create_tree, file_Write_tree, os_Chmod_tree, os_Open_tree,
    file_Read_tree, exec_Run_tree.
Qed.

(** A function built from calls that keep [R] keeps [R]. *)
Ltac keeps_prog HC :=
  repeat first
    [ keeps_step
    | progress cbv zeta
    | apply (keep_Stat _ _ HC) | apply (keep_Getwd _ _ HC)
    | apply (keep_Mkdir _ _ HC) | apply (keep_Create _ _ HC)
    | apply (keep_Write _ _ HC) | apply (keep_Chmod _ _ HC)
    | apply (keep_Open _ _ HC) | apply (keep_Read _ _ HC)
    | apply (keep_Run _ _ HC)
    | done ].

Section KeepsPart000.
Context (R : world -> world -> Prop) `{!PreOrder R}.
Context (E : env) (HC : calls_keep R E).
Import Part000.

Lemma mkdir_keeps name : keeps R (mkdir E name).
Proof. unfold mkdir. keeps_prog HC. Qed.

Lemma initRepo_keeps : keeps R (initRepo E).
Proof. unfold initRepo. keeps_prog HC. Qed.

Lemma readFile_keeps name : keeps R (readFile name).
Proof. unfold readFile. keeps_prog HC. Qed.

Lemma getAlias_keeps : keeps R (getAlias E).
Proof. unfold getAlias. pose proof readFile_keeps. keeps_prog HC. Qed.

Lemma goModInit_keeps name : keeps R (goModInit E name).
Proof. unfold goModInit. pose proof getAlias_keeps. keeps_prog HC. Qed.

Lemma createFile_keeps name store filePath :
  keeps R (createFile E name store filePath).
Proof. unfold createFile. keeps_prog HC. Qed.

Lemma createScripts_keeps : keeps R (createScripts E).
Proof.
  unfold createScripts. pose proof mkdir_keeps. pose proof createFile_keeps.
  keeps_prog HC.
Qed.

Context (Hcd : forall name, keeps R (os_Chdir name)).

Lemma createPreCommitHook_keeps : keeps R (createPreCommitHook E).
Proof. unfold createPreCommitHook. keeps_prog HC. Qed.

Lemma createProjectFiles_keeps name : keeps R (createProjectFiles E name).
Proof.
  unfold createProjectFiles.
  pose proof initRepo_keeps. pose proof goModInit_keeps.
  pose proof createFile_keeps. pose proof createScripts_keeps.
  pose proof createPreCommitHook_keeps. keeps_prog HC.
Qed.

Lemma steps_keep d : Forall (keeps R) (Steps.steps E d).
Proof.
  unfold Steps.steps.
  pose proof mkdir_keeps. pose proof initRepo_keeps. pose proof goModInit_keeps.
  pose proof createFile_keeps. pose proof createScripts_keeps.
  pose proof createPreCommitHook_keeps.
  repeat constructor; keeps_prog HC.
Qed.

End KeepsPart000.

Section KeepsMain3.
Context (R : world -> world -> Prop) `{!PreOrder R}.
Context (E : env) (HC : calls_keep R E).
Context (Hcd : forall name, keeps R (os_Chdir name)).
Import Main3.

Lemma mkdir3_keeps name : keeps R (mkdir E name).
Proof. unfold mkdir. keeps_prog HC. Qed.

Lemma getAlias3_keeps : keeps R (getAlias E).
Proof. unfold getAlias, readFile. keeps_prog HC. Qed.

Lemma goModInit3_keeps name : keeps R (goModInit E name).
Proof. unfold goModInit, runCommand. pose proof getAlias3_keeps. keeps_prog HC. Qed.

Lemma createFile3_keeps name store filePath :
  keeps R (createFile E name store filePath).
Proof. unfold createFile. keeps_prog HC. Qed.

Lemma createExecutableFile3_keeps name store filePath :
  keeps R (createExecutableFile E name store filePath).
Proof. unfold createExecutableFile. pose proof createFile3_keeps. keeps_prog HC. Qed.

Lemma createScripts3_keeps : keeps R (createScripts E).
Proof.
  unfold createScripts.
  pose proof mkdir3_keeps. pose proof createExecutableFile3_keeps.
  keeps_prog HC.
Qed.

Lemma createProjectFiles3_keeps name : keeps R (createProjectFiles E name).
Proof.
  unfold createProjectFiles, createScripts, createGithubAction,
    createPreCommitHook, runCommand.
  pose proof mkdir3_keeps. pose proof goModInit3_keeps.
  pose proof createFile3_keeps. pose proof createExecutableFile3_keeps.
  keeps_prog HC.
Qed.

End KeepsMain3.

End ProgramFacts.

(** ** The sample tools *)

Module DemoFacts.
Import Os Tree Run OsFacts Demo.

Lemma is_free_None t p : is_free t p = true -> t !! p = None.
Proof. unfold is_free. by destruct (t !! p). Qed.

Lemma is_dir_Some t p : is_dir t p = true -> exists perm, t !! p = Some (Dir perm).
Proof. unfold is_dir. destruct (t !! p) as [[]|]; eauto; done. Qed.

Lemma wf_new_entry t dir name nd :
  wf t -> is_dir t dir = true -> is_free t (dir ++ [name]) = true ->
  wf (<[dir ++ [name] := nd]> t).
Proof.
  intros Hwf Hdir%is_dir_Some Hfree%is_free_None. apply wf_insert; [done| |].
  - intros _. by rewrite parent_snoc.
  - intros old Hold. congruence.
Qed.

Lemma tools_tree argv dir t : wf t -> wf (tools argv dir t).2.
Proof.
  intros Hwf. unfold tools. repeat case_decide; try done.
  - destruct (is_dir t dir) eqn:Hd; [|done].
    destruct (is_free t (dir ++ [".git"])) eqn:Hg; [|done].
    destruct (is_free t (dir ++ [".git"; "hooks"])) eqn:Hh; [|done]. cbn.
    apply is_free_None in Hh.
    replace (dir ++ [".git"; "hooks"]) with ((dir ++ [".git"]) ++ ["hooks"]) in *
      by (by rewrite <- app_assoc).
    apply wf_insert; [by apply wf_new_entry| |].
    + intros _. rewrite parent_snoc, lookup_insert_eq. eauto.
    + intros old. rewrite lookup_insert_ne; [congruence|].
      intros Heq. apply (f_equal length) in Heq. rewrite !length_app in Heq.
      cbn in Heq. lia.
  - destruct argv as [|a [|b [|c [|name [|]]]]]; try done.
    case_decide; [|done].
    destruct (is_dir t dir) eqn:Hd; [|done].
    destruct (is_free t (dir ++ ["go.mod"])) eqn:Hg; [|done]. cbn.
    by apply wf_new_entry.
Qed.

Lemma tools_entries argv dir t p :
  is_Some (t !! p) -> is_Some ((tools argv dir t).2 !! p).
Proof.
  intros Hp. unfold tools.
  repeat first [case_decide | case_match]; cbn; try done;
    rewrite ?lookup_insert_is_Some'; eauto.
Qed.

Lemma E0_respects_tree : tools_respect_tree E0.
Proof. intros argv dir t. apply tools_tree. Qed.

Lemma E3_keeps_entries : tools_keep_entries E3.
Proof.
  intros argv dir t p Hp. cbn. unfold tools_without_mod.
  repeat first [case_decide | case_match]; cbn; try done;
    by apply tools_entries.
Qed.

Lemma wf_w0 : wf (fs w0).
Proof.
  intros p nd. cbn. rewrite lookup_insert_Some, lookup_singleton_Some.
  intros [[<- _]|[_ [<- _]]] Hne; [|done]. by exists 493.
Qed.

End DemoFacts.

(** ** Alias resolution *)

Module AliasFacts.
Import Os Regexp Block Reading Run OsFacts PatternFacts Part000.

Lemma config_name_nonempty E : String.eqb (config_name E) "" = false.
Proof. unfold config_name, path_Join. by destruct (HOME E). Qed.

Lemma getAlias_no_home E w : HOME E = "" -> getAlias E w = (Ok alias, w).
Proof.
  intros H. unfold getAlias, attempt, bind, os_UserHomeDir. by rewrite H.
Qed.

(** [getAlias] case by case, with a home directory. *)
Lemma getAlias_home E w :
  HOME E <> "" ->
  getAlias E w =
  match fs w !! config_path E w with
  | None => (Ok alias, opened E w)
  | Some (Dir _) => (Ok alias, read E w)
  | Some (File _ data) =>
      if String.eqb data "" then (Ok alias, read E w)
      else (Ok (alias_of (FindStringSubmatch req (Str.take 1024 data))), read E w)
  end.
Proof.
  intros H. apply String.eqb_neq in H.
  unfold getAlias, attempt, bind at 1, os_UserHomeDir. rewrite H.
  unfold ret at 1. fold (config_name E).
  unfold readFile, os_Open, file_Read, bind, log, get, ret, fail. cbn.
  rewrite config_name_nonempty. fold (config_path E w).
  destruct (fs w !! config_path E w) as [[perm|perm data]|] eqn:Hcfg; cbn;
    rewrite ?Hcfg; cbn; unfold opened, read; rewrite <- ?app_assoc; try done.
  destruct (String.eqb data ""); [done|]. unfold alias_of, Nat.ltb. cbn.
  by destruct (_ <=? _)%nat.
Qed.

Lemma alias_of_block s user rest :
  first_block s user rest -> alias_of (FindStringSubmatch req s) = "github.com/" +:+ user +:+ "/".
Proof. intros [whole ->]%FindStringSubmatch_first_block. reflexivity. Qed.

Lemma first_block_shape s user rest :
  first_block s user rest ->
  user <> "" /\ all_in is_word user = true /\ head_not_in is_word rest = true.
Proof.
  induction 1 as [gap user rest (_ & _ & ? & ? & ?)|c s user rest _ _ IH];
    [by split_and!|exact IH].
Qed.

Lemma alias_of_no_block s :
  (forall user rest, ~ first_block s user rest) ->
  alias_of (FindStringSubmatch req s) = alias.
Proof. intros ->%FindStringSubmatch_no_block. reflexivity. Qed.



End AliasFacts.

Module AliasTheorems.
Import Os Regexp Block Reading Run OsFacts PatternFacts AliasFacts Part000.



(** C5, as amended. The pattern matches [Host github.com] directly
    followed by a line feed, then one or more white-space bytes
    (indentation, blank lines), then [User ] and a name. On a text with
    such a block the group holds the name of the leftmost one and the
    alias is built from it; on a text without, nothing is found and the
    alias is the default. [getAlias] applies this to the bytes it read,
    the first 1024 of the configuration. *)
Theorem pattern_finds_first_block (s : string) :
  (forall user rest,
      first_block s user rest ->
      (exists whole, FindStringSubmatch Main3.RegexpPattern s = [whole; user]) /\
      alias_of (FindStringSubmatch req s) = "github.com/" +:+ user +:+ "/") /\
  ((forall user rest, ~ first_block s user rest) ->
   FindStringSubmatch Main3.RegexpPattern s = [] /\
   alias_of (FindStringSubmatch req s) = "project/") /\
  (forall E w perm data,
      HOME E <> "" ->
      fs w !! config_path E w = Some (File perm data) ->
      data <> "" ->
      Str.take 1024 data = s ->
      fst (getAlias E w) = Ok (alias_of (FindStringSubmatch req s))).
Proof.
  change Main3.RegexpPattern with req. split_and!.
  - intros user rest Hfb. split.
    + by eapply FindStringSubmatch_first_block.
    + by eapply alias_of_block.
  - intros Hno. split.
    + by apply FindStringSubmatch_no_block.
    + by apply alias_of_no_block.
  - intros E w perm data Hhome Hcfg Hdata <-.
    rewrite getAlias_home, Hcfg by done.
    apply String.eqb_neq in Hdata. by rewrite Hdata.
Qed.

(** A comment line comes first, and a blank line between the two lines
    is part of the gap. *)
Lemma pattern_finds_first_block_witness :
  first_block Demo.plain_config "git" Str.nl /\
  fst (getAlias Demo.E1 (Demo.with_config Demo.plain_config)) = Ok "github.com/git/".
Proof.
  assert (H : first_block Demo.plain_config "git" Str.nl).
  { do 7 (apply first_later; [intros (g & u & r & _ & Heq); discriminate Heq|]).
    apply (first_here (Str.nl +:+ "  ") "git" Str.nl).
    unfold well_formed.
    split_and!; [discriminate|reflexivity|discriminate|reflexivity|reflexivity]. }
  split; [exact H|].
  destruct (pattern_finds_first_block Demo.plain_config) as (Hyes & _ & Hget).
  rewrite (Hget Demo.E1 (Demo.with_config Demo.plain_config) 420 Demo.plain_config);
    [|discriminate|reflexivity|discriminate|reflexivity].
  by rewrite (proj2 (Hyes _ _ H)).
Defined.

(** C5, the statement refuted: a space after [Host github.com] leaves
    only white space between it and [User foo], and the name is not
    captured. Nor is it when the two lie behind the 1024 bytes that are
    read. *)
Lemma pattern_rejects_trailing_space :
  separated_by_space Demo.trailing_space_config "foo" /\
  FindStringSubmatch Main3.RegexpPattern Demo.trailing_space_config = [] /\
  fst (getAlias Demo.E1 (Demo.with_config Demo.trailing_space_config))
  = Ok "project/" /\
  separated_by_space Demo.late_config "foo" /\
  fst (getAlias Demo.E1 (Demo.with_config Demo.late_config)) = Ok "project/".
Proof.
  split_and!; [|reflexivity|reflexivity| |by vm_compute].
  - exists "", (" " +:+ Str.nl +:+ "  "), Str.nl.
    split_and!; [reflexivity|discriminate|reflexivity|discriminate|reflexivity|reflexivity].
  - exists (Str.of_list (repeat " "%char 1024)), (Str.nl +:+ "  "), ("-bar" +:+ Str.nl).
    split_and!; [by vm_compute|discriminate|reflexivity|discriminate|reflexivity|reflexivity].
Qed.

(** C8, as amended. When the leftmost block in the bytes read has a
    name that starts with word bytes and goes on with a byte [c] outside
    [\w] (as in [foo-bar]), the alias is built from the run of word
    bytes before [c]: not from the whole name, and it is not the
    default. *)
Theorem getAlias_truncates_user (E : env) (w : world) (perm : Z)
  (data user : string) (c : ascii) (rest : string) :
  HOME E <> "" ->
  fs w !! config_path E w = Some (File perm data) ->
  first_block (Str.take 1024 data) user (String c rest) ->
  user <> "" /\ all_in is_word user = true /\ is_word c = false /\
  fst (getAlias E w) = Ok ("github.com/" +:+ user +:+ "/") /\
  fst (Main3.getAlias E w) = Ok ("github.com/" +:+ user +:+ "/") /\
  "github.com/" +:+ user +:+ "/" <> "project/".
Proof.
  intros Hhome Hcfg Hfb. change (Main3.getAlias E w) with (getAlias E w).
  destruct (first_block_shape _ _ _ Hfb) as (Hu & Hw & Hc).
  cbn in Hc. apply negb_true_iff in Hc.
  rewrite getAlias_home, Hcfg by done.
  destruct (String.eqb data "") eqn:Hdata.
  { apply String.eqb_eq in Hdata as ->. inversion Hfb. }
  rewrite (alias_of_block _ _ _ Hfb). by split_and!.
Qed.

Lemma getAlias_truncates_user_witness :
  fst (getAlias Demo.E1 (Demo.with_config Demo.hyphen_config))
  = Ok "github.com/foo/".
Proof.
  refine (proj1 (proj2 (proj2 (proj2
    (getAlias_truncates_user Demo.E1 (Demo.with_config Demo.hyphen_config)
       420 Demo.hyphen_config "foo" "-" ("bar" +:+ Str.nl) _ _ _))))).
  - discriminate.
  - reflexivity.
  - apply (first_here "  " "foo" ("-bar" +:+ Str.nl)).
    unfold well_formed.
    split_and!; [discriminate|reflexivity|discriminate|reflexivity|reflexivity].
Defined.

(** C8, the statement refuted: the alias is the default when the name
    starts with a byte outside [\w], as [-foo] does, when a line of the
    block stands between [Host github.com] and [User foo-bar], and when
    the block lies behind the 1024 bytes that are read. *)
Lemma getAlias_defaults_on_hyphen :
  fst (getAlias Demo.E1 (Demo.with_config Demo.leading_hyphen_config))
  = Ok "project/" /\
  fst (getAlias Demo.E1 (Demo.with_config Demo.hostname_config))
  = Ok "project/" /\
  fst (getAlias Demo.E1 (Demo.with_config Demo.late_config))
  = Ok "project/".
Proof. split_and!; by vm_compute. Qed.

(** C9. When the SSH configuration is an empty file, the one read
    reports end of file, and [getAlias] returns the default alias, as it
    does when the file is not there. *)
Theorem getAlias_empty_file (E : env) (w : world) (perm : Z) :
  HOME E <> "" ->
  fs w !! config_path E w = Some (File perm "") ->
  readFile (config_name E) w = (Err (Errno EOF), read E w) /\
  getAlias E w = (Ok "project/", read E w) /\
  fst (getAlias E (World (delete (config_path E w) (fs w)) (cwd w) (trace w)))
  = Ok "project/".
Proof.
  intros Hhome Hcfg. split_and!.
  - unfold readFile, os_Open, file_Read, bind, log, get, ret, fail. cbn.
    rewrite config_name_nonempty. fold (config_path E w).
    rewrite Hcfg. cbn. rewrite Hcfg. cbn. unfold read. by rewrite <- app_assoc.
  - by rewrite getAlias_home, Hcfg.
  - rewrite getAlias_home by done. unfold config_path at 1. cbn [cwd fs].
    fold (config_path E w). by rewrite lookup_delete_eq.
Qed.

Lemma getAlias_empty_file_witness :
  getAlias Demo.E1 (Demo.with_config "")
  = (Ok "project/", read Demo.E1 (Demo.with_config "")).
Proof.
  refine (proj1 (proj2 (getAlias_empty_file Demo.E1 (Demo.with_config "") 420 _ _))).
  - discriminate.
  - reflexivity.
Defined.

End AliasTheorems.


(** ** Orchestration *)

Module OrchestrationFacts.
Import Os Tree Run OsFacts ProgramFacts Reading AliasFacts Part000.

Lemma mkdir_existing E n w nd :
  n <> "" -> fs w !! resolve (cwd w) n = Some nd ->
  mkdir E n w = (Err (Errorf "project already exists: %w" None),
                 World (fs w) (cwd w) (trace w ++ [EvStat n])).
Proof.
  intros Hn Hl. apply String.eqb_neq in Hn.
  unfold mkdir, attempt, bind, os_Stat, log, get, ret, fail. cbn.
  by rewrite Hn, Hl.
Qed.

(** [main] runs its steps in order. *)
Lemma main_steps E d w : main E d w = sequence (Steps.steps E d) w.
Proof.
  unfold main, createProjectFiles, Steps.steps. cbn [sequence].
  unfold bind.
  repeat match goal with
         | |- context [match ?m w with _ => _ end] => destruct (m w) as [[[]|?] ?]
         | |- context [match ?m ?w1 with _ => _ end] =>
             is_var w1; destruct (m w1) as [[[]|?] ?]
         end; reflexivity.
Qed.

(** A list of steps stops at its first failing step, in the world that
    step left. *)
Lemma sequence_fails_at (l : list (M unit)) k step w wk e w' :
  l !! k = Some step ->
  sequence (take k l) w = (Ok tt, wk) ->
  step wk = (Err e, w') ->
  sequence l w = (Err e, w').
Proof.
  revert l w. induction k as [|k IH]; intros [|m l] w Hk Hpre Hstep; try done.
  - cbn in *. injection Hk as ->. injection Hpre as ->.
    by rewrite (bind_stop _ _ _ _ _ Hstep).
  - cbn in *. apply bind_Ok in Hpre as ([] & w1 & Hm & Hpre).
    rewrite (bind_step _ _ _ _ _ Hm). by eapply IH.
Qed.

Lemma execs_app t1 t2 : execs (t1 ++ t2) = execs t1 ++ execs t2.
Proof. apply omap_app. Qed.

(** [getAlias] starts no program. *)
Lemma getAlias_execs E w :
  exists a w1, getAlias E w = (Ok a, w1) /\
               fs w1 = fs w /\ cwd w1 = cwd w /\
               execs (trace w1) = execs (trace w).
Proof.
  destruct (decide (HOME E = "")) as [Hhome|Hhome].
  { exists alias, w. by rewrite getAlias_no_home. }
  rewrite getAlias_home by done.
  destruct (fs w !! config_path E w) as [[perm|perm data]|];
    [| destruct (String.eqb data "") |];
    eexists _, _; (split; [reflexivity|]); cbn;
    rewrite execs_app; cbn; by rewrite app_nil_r.
Qed.

Lemma exec_Run_world E argv w :
  exec_Run E argv w =
  (if (exec_tool E argv (cwd w) (fs w)).1 then Ok tt else Err (Errno EEXIT),
   World (exec_tool E argv (cwd w) (fs w)).2 (cwd w) (trace w ++ [EvExec argv])).
Proof.
  unfold exec_Run, bind, log, get, set_fs, ret, fail. cbn.
  by destruct (exec_tool E argv (cwd w) (fs w)) as [[] t].
Qed.

(** *** What a successful call has done *)

Ltac call_inv H :=
  unfold os_Stat, os_Getwd, os_Mkdir, os_Chdir, os_Create, file_Write,
    os_Chmod, os_Open, file_Read, embed_ReadFile,
    bind, log, get, set_fs, set_cwd, ret, fail in H;
  cbn in H; repeat case_match; simplify_eq; cbn.

Lemma os_Stat_Err name w e w' :
  os_Stat name w = (Err e, w') -> name <> "" ->
  fs w !! resolve (cwd w) name = None /\ fs w' = fs w /\ cwd w' = cwd w.
Proof.
  intros H Hn. apply String.eqb_neq in Hn. call_inv H; first [done|congruence].
Qed.

Lemma os_Getwd_Ok w p w' :
  os_Getwd w = (Ok p, w') -> p = cwd w /\ fs w' = fs w /\ cwd w' = cwd w.
Proof. intros H. by call_inv H. Qed.

Lemma os_Mkdir_Ok E p perm w u w' :
  os_Mkdir E p perm w = (Ok u, w') ->
  cwd w' = cwd w /\ fs w !! p = None /\
  fs w' = <[p := Dir (Z.ldiff perm (umask E))]> (fs w).
Proof. intros H. by call_inv H. Qed.

Lemma os_Chdir_Ok name w u w' :
  os_Chdir name w = (Ok u, w') ->
  fs w' = fs w /\ cwd w' = resolve (cwd w) name.
Proof. intros H. by call_inv H. Qed.

Lemma os_Create_Ok E name w p w' :
  os_Create E name w = (Ok p, w') ->
  p = resolve (cwd w) name /\ cwd w' = cwd w /\
  ((fs w !! p = None /\
    fs w' = <[p := File (Z.ldiff perm_0666 (umask E)) ""]> (fs w)) \/
   (exists perm old, fs w !! p = Some (File perm old) /\
                     fs w' = <[p := File perm ""]> (fs w))).
Proof. intros H. call_inv H; split_and!; eauto. Qed.

Lemma embed_ReadFile_Ok store name w data w' :
  embed_ReadFile store name w = (Ok data, w') -> store name = Some data /\ w' = w.
Proof. intros H. by call_inv H. Qed.

Lemma file_Write_Ok h data w u w' :
  file_Write h data w = (Ok u, w') ->
  cwd w' = cwd w /\
  exists perm old, fs w !! h = Some (File perm old) /\
                   fs w' = <[h := File perm (old +:+ data)]> (fs w).
Proof. intros H. call_inv H; eauto. Qed.

Lemma os_Chmod_Ok name mode w u w' :
  os_Chmod name mode w = (Ok u, w') ->
  cwd w' = cwd w /\
  exists old new, fs w !! resolve (cwd w) name = Some old /\
                  fs w' = <[resolve (cwd w) name := new]> (fs w) /\
                  node_perm new = mode /\
                  (forall perm data, old = File perm data -> new = File mode data).
Proof.
  intros H. call_inv H; (split; [done|]); eexists _, _;
    split_and!; try done; congruence.
Qed.

(** *** Names and paths *)

Lemma valid_name_resolve c n :
  valid_name n = true ->
  n <> "" /\ resolve c n = c ++ [n] /\ filepath_Join c n = c ++ [n].
Proof.
  unfold valid_name. rewrite !andb_true_iff, !negb_true_iff.
  intros (((Hs & Hn) & Hd) & Hdd).
  assert (Hw : walk c (Str.split_slash n) = c ++ [n]).
  { rewrite (StrFacts.split_slash_plain _ Hs). cbn.
    unfold step_component. by rewrite Hn, Hd, Hdd. }
  split_and!.
  - by apply String.eqb_neq.
  - unfold resolve. replace (is_abs n) with false; [done|].
    destruct n as [|a n]; [done|]. cbn in *.
    by apply orb_false_iff in Hs as [-> _].
  - done.
Qed.

Lemma path_neq (c l1 l2 : path) : l1 <> l2 -> c ++ l1 <> c ++ l2.
Proof. intros Hne H. by apply app_inv_head in H. Qed.

End OrchestrationFacts.

Module OrchestrationTheorems.
Import Os Tree Run OsFacts ProgramFacts Reading AliasFacts OrchestrationFacts.
Import Part000.

(** C4. When an entry named [n] is in the working directory ([n] being
    the name of an entry: one component, not [.] or [..]), [mkdir n]
    fails with the error "project already exists" and does nothing else:
    the tree and the working directory are as before and the only call
    made is the [os.Stat] that found the entry. *)
Theorem mkdir_refuses_existing (E : env) (n : string) (w : world) (nd : node) :
  valid_name n = true ->
  fs w !! (cwd w ++ [n]) = Some nd ->
  exists w',
    mkdir E n w = (Err (Errorf "project already exists: %w" None), w') /\
    fs w' = fs w /\ cwd w' = cwd w /\ trace w' = trace w ++ [EvStat n].
Proof.
  intros Hn Hl.
  destruct (valid_name_resolve (cwd w) n Hn) as (Hne & Hres & _).
  rewrite <- Hres in Hl.
  eexists. split; [by eapply mkdir_existing|done].
Qed.

Lemma mkdir_refuses_existing_witness :
  fst (mkdir Demo.E0 "work" (World (fs Demo.w0) [] []))
  = Err (Errorf "project already exists: %w" None).
Proof.
  destruct (mkdir_refuses_existing Demo.E0 "work" (World (fs Demo.w0) [] [])
              (Dir 493)) as (w' & -> & _).
  - reflexivity.
  - reflexivity.
  - reflexivity.
Defined.

(** C10. [mkdir] refuses the name [n] of an entry (one component, not
    [.] or [..]) at which a regular file lies in the working directory
    [c], just as it refuses a directory: only the success of [os.Stat]
    is looked at, and [os.Mkdir] is not called. *)
Theorem mkdir_refuses_file (E : env) (n : string) (t : gmap path node)
  (c : path) (tr : list event) (perm : Z) (data : string) (perm' : Z) :
  valid_name n = true ->
  mkdir E n (World (<[c ++ [n] := File perm data]> t) c tr)
  = (Err (Errorf "project already exists: %w" None),
     World (<[c ++ [n] := File perm data]> t) c (tr ++ [EvStat n])) /\
  fst (mkdir E n (World (<[c ++ [n] := Dir perm']> t) c tr))
  = fst (mkdir E n (World (<[c ++ [n] := File perm data]> t) c tr)).
Proof.
  intros Hn.
  destruct (valid_name_resolve c n Hn) as (Hne & Hres & _).
  rewrite (mkdir_existing E n (World (<[c ++ [n] := File perm data]> t) c tr)
             (File perm data)), (mkdir_existing E n (World (<[c ++ [n] := Dir perm']> t) c tr)
             (Dir perm')); try done; cbn; by rewrite Hres, lookup_insert_eq.
Qed.

Lemma mkdir_refuses_file_witness :
  fst (mkdir Demo.E0 "notes"
         (World (<[["work"; "notes"] := File 420 "text"]> (fs Demo.w0)) ["work"] []))
  = Err (Errorf "project already exists: %w" None).
Proof.
  refine (f_equal fst (proj1 (mkdir_refuses_file Demo.E0 "notes" (fs Demo.w0)
                                ["work"] [] 420 "text" 493 _))).
  reflexivity.
Defined.

(** C3, as amended. In the two versions that resolve an alias
    ([unnamed/part_000] and the last one of [main.go]), [goModInit] starts
    one program, [go mod init] with the alias followed by the project
    name; without an SSH configuration the alias is ["project/"], so the
    name ["demo"] gives ["project/demo"]. *)
Theorem goModInit_composed_name (E : env) (name : string) (w : world) :
  exists a w1,
    getAlias E w = (Ok a, w1) /\
    execs (trace (goModInit E name w).2)
    = execs (trace w) ++ [["go"; "mod"; "init"; a +:+ name]] /\
    execs (trace (Main3.goModInit E name w).2)
    = execs (trace w) ++ [["go"; "mod"; "init"; a +:+ name]] /\
    (fs w !! config_path E w = None -> a = "project/").
Proof.
  destruct (getAlias_execs E w) as (a & w1 & Ha & Hfs & Hcwd & Hex).
  exists a, w1. split; [done|].
  assert (Hrun : execs (trace (goModInit E name w).2)
                 = execs (trace w) ++ [["go"; "mod"; "init"; a +:+ name]]).
  { unfold goModInit. rewrite (bind_step _ _ _ _ _ Ha). unfold wrap.
    rewrite exec_Run_world.
    destruct (exec_tool E _ (cwd w1) (fs w1)).1; cbn;
      by rewrite execs_app, Hex. }
  split_and!; [done| |].
  - unfold Main3.goModInit, Main3.runCommand.
    change (Main3.getAlias E) with (getAlias E).
    rewrite (bind_step _ _ _ _ _ Ha), exec_Run_world. cbn.
    by rewrite execs_app, Hex.
  - intros Hcfg. destruct (decide (HOME E = "")) as [Hhome|Hhome].
    + rewrite getAlias_no_home in Ha by done. by injection Ha as <- _.
    + rewrite getAlias_home, Hcfg in Ha by done. by injection Ha as <- _.
Qed.

Lemma goModInit_composed_name_witness :
  execs (trace (goModInit Demo.E0 "demo" Demo.w0).2)
  = [["go"; "mod"; "init"; "project/demo"]].
Proof.
  destruct (goModInit_composed_name Demo.E0 "demo" Demo.w0)
    as (a & w1 & _ & -> & _ & Ha).
  rewrite Ha; reflexivity.
Defined.

(** C3, the statement refuted: the first version in [main.go] starts
    [go mod init] with the bare project name. *)
Lemma goModInit_bare_name :
  execs (trace (Main1.goModInit Demo.E0 "demo" Demo.w0).2)
  = [["go"; "mod"; "init"; "demo"]].
Proof. reflexivity. Qed.

(** C7. In both versions with a probe, [go version] is the first call of
    [main]; and when it fails, [main] ends there: the probe is the only
    call made, and the tree is the one the probe left. *)
Theorem probe_comes_first (E : env) (d : option string) (w : world) :
  (exists rest,
      trace (main E d w).2 = trace w ++ EvExec ["go"; "version"] :: rest) /\
  (exists rest,
      trace (Main3.main E d w).2 = trace w ++ EvExec ["go"; "version"] :: rest) /\
  (forall t,
      exec_tool E ["go"; "version"] (cwd w) (fs w) = (false, t) ->
      main E d w
      = (Err (Errno EEXIT), World t (cwd w) (trace w ++ [EvExec ["go"; "version"]])) /\
      Main3.main E d w
      = (Err (Errorf "Go is not installed." None),
         World t (cwd w) (trace w ++ [EvExec ["go"; "version"]]))).
Proof.
  pose proof (calls_keep_trace E) as HC.
  split_and!.
  - unfold main, bind at 1. rewrite exec_Run_world.
    destruct (exec_tool E _ (cwd w) (fs w)) as [[] t]; cbn [fst snd].
    + destruct (bind _ _ _) as [r w'] eqn:Hrest.
      assert (Hk : keeps trace_grows
                (bind (mkdir E (default DefaultProjectName d))
                   (fun _ => createProjectFiles E (default DefaultProjectName d)))).
      { apply (keeps_bind trace_grows); [apply (mkdir_keeps _ E HC)|intros _].
        apply (createProjectFiles_keeps _ E HC os_Chdir_trace). }
      apply Hk in Hrest as [evs Hevs]. exists evs. cbn in *.
      by rewrite Hevs, <- app_assoc.
    + by exists [].
  - unfold Main3.main, Main3.isGoInstalled, attempt, bind at 1 2.
    rewrite exec_Run_world.
    destruct (exec_tool E _ (cwd w) (fs w)) as [[] t]; cbn [fst snd negb ret].
    + destruct (bind _ _ _) as [r w'] eqn:Hrest.
      assert (Hk : keeps trace_grows
                (bind (wrap "Error creating directory: "
                         (Main3.mkdir E (default Main3.DefaultProjectName d)))
                   (fun _ => wrap "Error creating project files: "
                      (Main3.createProjectFiles E
                         (default Main3.DefaultProjectName d))))).
      { apply (keeps_bind trace_grows); [|intros _]; apply (keeps_wrap trace_grows).
        - apply (mkdir3_keeps _ E HC).
        - apply (createProjectFiles3_keeps _ E HC os_Chdir_trace). }
      apply Hk in Hrest as [evs Hevs]. exists evs. cbn in *.
      by rewrite Hevs, <- app_assoc.
    + by exists [].
  - intros t Ht. split.
    + unfold main, bind at 1. by rewrite exec_Run_world, Ht.
    + unfold Main3.main, Main3.isGoInstalled, attempt, bind at 1 2.
      by rewrite exec_Run_world, Ht.
Qed.

Lemma probe_comes_first_witness :
  main Demo.E2 (Some "demo") Demo.w0
  = (Err (Errno EEXIT),
     World (fs Demo.w0) (cwd Demo.w0) [EvExec ["go"; "version"]]).
Proof.
  refine (proj1 (proj2 (proj2 (probe_comes_first Demo.E2 (Some "demo") Demo.w0))
                   (fs Demo.w0) _)).
  reflexivity.
Defined.

(** C6. When the steps before step [k] succeed and step [k] fails, [main]
    ends with the error of step [k] in the world that step left: no later
    step has made a call or touched the tree. Nothing is rolled back: what
    was in the tree when step [k] began is still there at the end, as is
    what was there at the start (external tools being assumed to remove
    nothing; the program itself has no call that removes). *)
Theorem main_stops_at_first_failure (E : env) (d : option string) (k : nat)
  (step : M unit) (w wk w' : world) (e : error) :
  Steps.steps E d !! k = Some step ->
  sequence (take k (Steps.steps E d)) w = (Ok tt, wk) ->
  step wk = (Err e, w') ->
  main E d w = (Err e, w') /\
  (tools_keep_entries E -> entries_stay w wk /\ entries_stay wk w').
Proof.
  intros Hk Hpre Hstep. split.
  - rewrite main_steps. by eapply sequence_fails_at.
  - intros HE.
    pose proof (calls_keep_entries E HE) as HC.
    pose proof (steps_keep entries_stay E HC os_Chdir_entries d) as Hall.
    split.
    + eapply (keeps_sequence entries_stay); [|done]. by apply Forall_take.
    + eapply Forall_lookup_1 in Hall; [|done]. by eapply Hall.
Qed.

Lemma main_stops_at_first_failure_witness :
  fst (main Demo.E3 (Some "demo") Demo.w0)
  = Err (Errorf "error initializing Go module: %w"
           (Some (Errorf "error initializing Go module: %w" (Some (Errno EEXIT))))) /\
  is_Some (fs (main Demo.E3 (Some "demo") Demo.w0).2 !! ["work"; "demo"; ".git"; "hooks"]) /\
  fs (main Demo.E3 (Some "demo") Demo.w0).2 !! ["work"; "demo"; ".golintci.yml"] = None.
Proof.
  set (step := wrap "error initializing Go module: %w" (goModInit Demo.E3 "demo")).
  set (wk := (sequence (take 4 (Steps.steps Demo.E3 (Some "demo"))) Demo.w0).2).
  destruct (main_stops_at_first_failure Demo.E3 (Some "demo") 4 step Demo.w0 wk
              (step wk).2
              (Errorf "error initializing Go module: %w"
                 (Some (Errorf "error initializing Go module: %w" (Some (Errno EEXIT))))))
    as (Hmain & Hstay).
  - reflexivity.
  - vm_compute. reflexivity.
  - vm_compute. reflexivity.
  - destruct (Hstay DemoFacts.E3_keeps_entries) as (_ & Hkept).
    rewrite Hmain. split_and!.
    + reflexivity.
    + apply Hkept. vm_compute. by eexists.
    + by vm_compute.
Defined.

End OrchestrationTheorems.


(** ** What a successful run leaves *)

Module ScaffoldFacts.
Import Os Tree Run Scaffold OsFacts ProgramFacts OrchestrationFacts Part000.

Lemma attempt_inv {A} (m : M A) w r w1 : attempt m w = (Ok r, w1) -> m w = (r, w1).
Proof. unfold attempt. destruct (m w). by intros [= <- <-]. Qed.

Lemma resolve_scripts c : resolve c "scripts" = c ++ ["scripts"].
Proof. reflexivity. Qed.
Lemma join_scripts c : filepath_Join c "scripts" = c ++ ["scripts"].
Proof. reflexivity. Qed.
Lemma resolve_scripts_pre_commit c :
  resolve c "scripts/pre-commit" = c ++ ["scripts"; "pre-commit"].
Proof. unfold resolve. cbn. by rewrite <- app_assoc. Qed.
Lemma resolve_scripts_setup c :
  resolve c "scripts/setup.sh" = c ++ ["scripts"; "setup.sh"].
Proof. unfold resolve. cbn. by rewrite <- app_assoc. Qed.
Lemma resolve_scripts_cibuild c :
  resolve c "scripts/cibuild.sh" = c ++ ["scripts"; "cibuild.sh"].
Proof. unfold resolve. cbn. by rewrite <- app_assoc. Qed.
Lemma resolve_git_hooks c : resolve c ".git/hooks" = c ++ [".git"; "hooks"].
Proof. unfold resolve. cbn. by rewrite <- app_assoc. Qed.
Lemma resolve_pre_commit c : resolve c "pre-commit" = c ++ ["pre-commit"].
Proof. reflexivity. Qed.

Lemma create_perm_new E t p :
  t !! p = None -> create_perm E t p = Z.ldiff perm_0666 (umask E).
Proof. unfold create_perm. by intros ->. Qed.

Lemma create_perm_insert_ne E t p q nd :
  q <> p -> create_perm E (<[q := nd]> t) p = create_perm E t p.
Proof. intros Hne. unfold create_perm. by rewrite lookup_insert_ne. Qed.

Lemma template_Some E name data : embedded E name = Some data -> template E name = data.
Proof. unfold template. by intros ->. Qed.

(** In a tree, nothing lies under a name that is free. *)
Lemma wf_free_below t (c : path) a b :
  wf t -> t !! (c ++ [a]) = None -> t !! (c ++ [a; b]) = None.
Proof.
  intros Hwf Hfree. destruct (t !! (c ++ [a; b])) as [nd|] eqn:Hl; [|done].
  destruct (Hwf _ _ Hl) as [perm Hpar]; [by destruct c|].
  replace (c ++ [a; b]) with ((c ++ [a]) ++ [b]) in Hpar by (by rewrite <- app_assoc).
  rewrite parent_snoc in Hpar. congruence.
Qed.

Lemma mkdir_Ok E name w u w' :
  mkdir E name w = (Ok u, w') -> name <> "" ->
  cwd w' = cwd w /\ fs w !! resolve (cwd w) name = None /\
  fs w' = <[filepath_Join (cwd w) name := Dir (Z.ldiff ModePerm (umask E))]> (fs w).
Proof.
  intros H Hn. unfold mkdir in H.
  apply bind_Ok in H as (r & w1 & Hs%attempt_inv & H).
  destruct r as [|e]; [done|].
  apply (os_Stat_Err _ _ _ _) in Hs as (Hnone & Hfs1 & Hcwd1); [|done].
  apply bind_Ok in H as (pwd & w2 & (-> & Hfs2 & Hcwd2)%wrap_Ok%os_Getwd_Ok & H).
  apply wrap_Ok, os_Mkdir_Ok in H as (Hcwd3 & _ & Hfs3).
  rewrite Hfs3, Hcwd3, Hfs2, Hcwd2, Hfs1, Hcwd1. done.
Qed.

(** A file written by [createFile] holds the template, with the mode
    [os.Create] leaves. *)
Lemma createFile_Ok E name store filePath w u w' :
  createFile E name store filePath w = (Ok u, w') ->
  cwd w' = cwd w /\
  exists data,
    store filePath = Some data /\
    fs w' = <[resolve (cwd w) name :=
                File (create_perm E (fs w) (resolve (cwd w) name)) data]> (fs w).
Proof.
  intros H. unfold createFile in H.
  apply bind_Ok in H as (file & w1 & (-> & Hcwd1 & Hc)%wrap_Ok%os_Create_Ok & H).
  apply bind_Ok in H as (bytes & w2 & (Hst & ->)%wrap_Ok%embed_ReadFile_Ok & H).
  apply wrap_Ok, file_Write_Ok in H as (Hcwd3 & perm & old & Hl & Hfs3).
  split; [congruence|]. exists bytes. split; [done|]. unfold create_perm.
  destruct Hc as [[Hnone Hfs1]|(perm1 & old1 & Hsome & Hfs1)];
    rewrite Hfs1, lookup_insert_eq in Hl; injection Hl as <- <-;
    rewrite Hfs3, Hfs1, insert_insert_eq; [by rewrite Hnone|by rewrite Hsome].
Qed.

(** A file written and then made executable has mode [0700]. *)
Lemma createFile_Chmod_Ok E name store filePath w u w1 u' w' :
  createFile E name store filePath w = (Ok u, w1) ->
  os_Chmod name perm_0700 w1 = (Ok u', w') ->
  cwd w' = cwd w /\
  exists data,
    store filePath = Some data /\
    fs w' = <[resolve (cwd w) name := File perm_0700 data]> (fs w).
Proof.
  intros (Hc1 & data & Hst & Hf1)%createFile_Ok
         (Hc2 & old & new & Hl & Hf2 & _ & Hk)%os_Chmod_Ok.
  rewrite Hc1 in Hl, Hf2. rewrite Hf1, lookup_insert_eq in Hl.
  injection Hl as <-. rewrite (Hk _ _ eq_refl) in Hf2.
  split; [congruence|]. exists data. split; [done|].
  by rewrite Hf2, Hf1, insert_insert_eq.
Qed.

Lemma createScripts_Ok E w u w' :
  createScripts E w = (Ok u, w') -> wf (fs w) ->
  cwd w' = cwd w /\
  fs w' = add_entries (cwd w)
            [ (["scripts"], Dir (Z.ldiff ModePerm (umask E)));
              (["scripts"; "pre-commit"],
               File (Z.ldiff perm_0666 (umask E))
                 (template E "templates/scripts/pre-commit"));
              (["scripts"; "setup.sh"],
               File perm_0700 (template E "templates/scripts/setup.sh"));
              (["scripts"; "cibuild.sh"],
               File perm_0700 (template E "templates/scripts/cibuild.sh")) ]
            (fs w).
Proof.
  intros H Hwf. unfold createScripts in H.
  apply bind_Ok in H as ([] & w1 & (Hc1 & Hn1 & Hf1)%mkdir_Ok & H); [|done].
  apply bind_Ok in H as ([] & w2 & (Hc2 & d2 & Hs2 & Hf2)%wrap_Ok%createFile_Ok & H).
  apply bind_Ok in H as ([] & w3 & H3%wrap_Ok & H).
  apply bind_Ok in H as ([] & w4 & H4%wrap_Ok & H).
  apply bind_Ok in H as ([] & w5 & H5%wrap_Ok & H6%wrap_Ok).
  destruct (createFile_Chmod_Ok _ _ _ _ _ _ _ _ _ H3 H4) as (Hc4 & d3 & Hs3 & Hf4).
  destruct (createFile_Chmod_Ok _ _ _ _ _ _ _ _ _ H5 H6) as (Hc6 & d5 & Hs5 & Hf6).
  rewrite resolve_scripts in Hn1. rewrite join_scripts in Hf1.
  rewrite Hc1, resolve_scripts_pre_commit in Hf2.
  rewrite Hc2, Hc1, resolve_scripts_setup in Hf4.
  rewrite Hc4, Hc2, Hc1, resolve_scripts_cibuild in Hf6.
  split; [congruence|].
  rewrite create_perm_new in Hf2.
  - unfold templatesFS in *.
    rewrite Hf6, Hf4, Hf2, Hf1. cbn.
    by rewrite (template_Some _ _ _ Hs2), (template_Some _ _ _ Hs3),
      (template_Some _ _ _ Hs5).
  - rewrite Hf1, lookup_insert_ne by (by apply path_neq).
    by apply wf_free_below.
Qed.

Lemma createPreCommitHook_Ok E w u w' :
  createPreCommitHook E w = (Ok u, w') ->
  cwd w' = cwd w ++ [".git"; "hooks"] /\
  fs w' = <[cwd w ++ [".git"; "hooks"; "pre-commit"] :=
              File perm_0700 (template E "templates/scripts/pre-commit")]> (fs w).
Proof.
  intros H. unfold createPreCommitHook in H.
  apply bind_Ok in H as ([] & w1 & (Hf1 & Hc1)%wrap_Ok%os_Chdir_Ok & H).
  apply bind_Ok in H as (file & w2 & (-> & Hc2 & Hcr)%wrap_Ok%os_Create_Ok & H).
  apply bind_Ok in H as (bytes & w3 & (Hst & ->)%wrap_Ok%embed_ReadFile_Ok & H).
  apply bind_Ok in H as ([] & w4 & (Hc4 & perm & old & Hl4 & Hf4)%wrap_Ok%file_Write_Ok
                         & (Hc5 & o5 & n5 & Hl5 & Hf5 & _ & Hk5)%wrap_Ok%os_Chmod_Ok).
  rewrite resolve_git_hooks in Hc1. rewrite Hc1 in Hc2, Hcr, Hl4, Hf4.
  rewrite Hc2 in Hc4. rewrite Hc4 in Hl5, Hf5.
  rewrite resolve_pre_commit, <- app_assoc in Hcr, Hl4, Hf4, Hl5, Hf5.
  cbn [app] in *.
  rewrite Hf4, lookup_insert_eq in Hl5. injection Hl5 as <-.
  rewrite (Hk5 _ _ eq_refl) in Hf5.
  split; [congruence|].
  rewrite Hf5, Hf4, insert_insert_eq.
  unfold templatesFS in Hst. rewrite (template_Some _ _ _ Hst).
  destruct Hcr as [[_ Hf2]|(perm1 & old1 & Hsome & Hf2)];
    rewrite Hf2, lookup_insert_eq in Hl4; injection Hl4 as <- <-;
    by rewrite Hf2, insert_insert_eq, Hf1.
Qed.

Lemma exec_Run_Ok E argv w u w' :
  exec_Run E argv w = (Ok u, w') ->
  fs w' = (exec_tool E argv (cwd w) (fs w)).2 /\ cwd w' = cwd w.
Proof. rewrite exec_Run_world. by intros [= _ <-]. Qed.

(** The whole of a successful run of [unnamed/part_000]. *)
Lemma part000_Ok E n w w' :
  tools_respect_tree E -> wf (fs w) -> valid_name n = true ->
  main E (Some n) w = (Ok tt, w') ->
  exists a,
    fs w' = add_entries (cwd w ++ [n])
              (written_part000 E (cwd w ++ [n]) (tooled E a n w)
                 (Z.ldiff perm_0666 (umask E)))
              (tooled E a n w) /\
    cwd w' = cwd w ++ [n; ".git"; "hooks"].
Proof.
  intros HE Hwf Hn H.
  pose proof (calls_keep_tree E HE) as HCt.
  destruct (valid_name_resolve (cwd w) n Hn) as (Hne & Hres & Hjoin).
  unfold main in H. change (default DefaultProjectName (Some n)) with n in H.
  apply bind_Ok in H as ([] & w1 & H1 & H).
  apply bind_Ok in H as ([] & w2 & H2 & H).
  unfold createProjectFiles in H.
  apply bind_Ok in H as ([] & w3 & H3%wrap_Ok & H).
  apply bind_Ok in H as ([] & w4 & H4%wrap_Ok & H).
  apply bind_Ok in H as ([] & w5 & H5%wrap_Ok & H).
  apply bind_Ok in H as ([] & w6 & H6%wrap_Ok & H).
  apply bind_Ok in H as ([] & w7 & H7%wrap_Ok & H).
  apply bind_Ok in H as ([] & w8 & H8%wrap_Ok & H).
  apply bind_Ok in H as ([] & w9 & H9%wrap_Ok & H10%wrap_Ok).
  (* the tree stays a tree up to the scripts *)
  assert (T8 : wf (fs w8)).
  { apply (createFile_keeps _ _ HCt _ _ _ _ _ _ H8).
    apply (createFile_keeps _ _ HCt _ _ _ _ _ _ H7).
    apply (createFile_keeps _ _ HCt _ _ _ _ _ _ H6).
    apply (goModInit_keeps _ _ HCt _ _ _ _ H5).
    apply (initRepo_keeps _ _ HCt _ _ _ H4).
    apply (os_Chdir_tree _ _ _ _ H3).
    apply (mkdir_keeps _ _ HCt _ _ _ _ H2).
    by apply (keep_Run _ _ HCt _ _ _ _ H1). }
  (* the external programs *)
  apply exec_Run_Ok in H1 as (F1 & C1).
  apply mkdir_Ok in H2 as (C2 & _ & F2); [|done].
  apply os_Chdir_Ok in H3 as (F3 & C3).
  unfold initRepo in H4. apply wrap_Ok, exec_Run_Ok in H4 as (F4 & C4).
  unfold goModInit in H5. apply bind_Ok in H5 as (a & w4' & Ha & H5).
  destruct (getAlias_execs E w4) as (a' & w4'' & Ha' & Fa & Ca & _).
  rewrite Ha in Ha'. injection Ha' as <- <-.
  apply wrap_Ok, exec_Run_Ok in H5 as (F5 & C5).
  assert (Hroot : cwd w5 = cwd w ++ [n]) by congruence.
  assert (Htool : fs w5 = tooled E a n w).
  { unfold tooled. rewrite F5, Ca, Fa, C4, F4, F3, C3, C2, F2, F1, C1, Hres, Hjoin.
    done. }
  (* the files *)
  apply createFile_Ok in H6 as (C6 & d6 & S6 & F6).
  apply createFile_Ok in H7 as (C7 & d7 & S7 & F7).
  apply createFile_Ok in H8 as (C8 & d8 & S8 & F8).
  apply createScripts_Ok in H9 as (C9 & F9); [|done].
  apply createPreCommitHook_Ok in H10 as (C10 & F10).
  rewrite Hroot in C6, F6. rewrite C6 in C7, F7. rewrite C7 in C8, F8.
  rewrite C8 in C9, F9. rewrite C9 in C10, F10.
  change (resolve (cwd w ++ [n]) ".golintci.yml")
    with ((cwd w ++ [n]) ++ [".golintci.yml"]) in F6.
  change (resolve (cwd w ++ [n]) ".gitignore")
    with ((cwd w ++ [n]) ++ [".gitignore"]) in F7.
  change (resolve (cwd w ++ [n]) "Makefile")
    with ((cwd w ++ [n]) ++ ["Makefile"]) in F8.
  rewrite F7, create_perm_insert_ne in F8 by (by apply path_neq).
  rewrite F6, !create_perm_insert_ne in F8 by (by apply path_neq).
  unfold templatesFS in *.
  exists a. split.
  - rewrite F10, F9, F8, Htool. unfold written_part000, add_entries. cbn.
    by rewrite (template_Some _ _ _ S6), (template_Some _ _ _ S7),
      (template_Some _ _ _ S8).
  - rewrite C10, <- app_assoc. done.
Qed.

(** *** The last version in [main.go] *)

Lemma resolve_github c : resolve c ".github" = c ++ [".github"].
Proof. reflexivity. Qed.
Lemma join_github c : filepath_Join c ".github" = c ++ [".github"].
Proof. reflexivity. Qed.
Lemma join_workflows c :
  filepath_Join c ".github/workflows" = c ++ [".github"; "workflows"].
Proof. unfold filepath_Join. cbn. by rewrite <- app_assoc. Qed.
Lemma resolve_releaser c :
  resolve c ".github/workflows/releaser.yml"
  = c ++ [".github"; "workflows"; "releaser.yml"].
Proof. unfold resolve. cbn. by rewrite <- !app_assoc. Qed.

Lemma mkdir3_Ok E name w u w' :
  Main3.mkdir E name w = (Ok u, w') -> name <> "" ->
  cwd w' = cwd w /\ fs w !! resolve (cwd w) name = None /\
  fs w' = <[filepath_Join (cwd w) name := Dir (Z.ldiff ModePerm (umask E))]> (fs w).
Proof.
  intros H Hn. unfold Main3.mkdir in H.
  apply bind_Ok in H as (r & w1 & Hs%attempt_inv & H).
  destruct r as [|e]; [done|].
  apply (os_Stat_Err _ _ _ _) in Hs as (Hnone & Hfs1 & Hcwd1); [|done].
  apply bind_Ok in H as (pwd & w2 & (-> & Hfs2 & Hcwd2)%wrap_Ok%os_Getwd_Ok & H).
  apply wrap_Ok, os_Mkdir_Ok in H as (Hcwd3 & _ & Hfs3).
  rewrite Hfs3, Hcwd3, Hfs2, Hcwd2, Hfs1, Hcwd1. done.
Qed.

Lemma createFile3_Ok E name store filePath w u w' :
  Main3.createFile E name store filePath w = (Ok u, w') ->
  cwd w' = cwd w /\
  exists data,
    store filePath = Some data /\
    fs w' = <[resolve (cwd w) name :=
                File (create_perm E (fs w) (resolve (cwd w) name)) data]> (fs w).
Proof. apply createFile_Ok. Qed.

Lemma createExecutableFile3_Ok E name store filePath w u w' :
  Main3.createExecutableFile E name store filePath w = (Ok u, w') ->
  cwd w' = cwd w /\
  exists data,
    store filePath = Some data /\
    fs w' = <[resolve (cwd w) name := File perm_0700 data]> (fs w).
Proof.
  intros H. unfold Main3.createExecutableFile in H.
  apply bind_Ok in H as ([] & w1 & H1 & H2%wrap_Ok).
  by eapply (createFile_Chmod_Ok E).
Qed.

Lemma createScripts3_Ok E w u w' :
  Main3.createScripts E w = (Ok u, w') ->
  cwd w' = cwd w /\
  fs w' = add_entries (cwd w)
            [ (["scripts"], Dir (Z.ldiff ModePerm (umask E)));
              (["scripts"; "pre-commit"],
               File perm_0700 (template E "templates/scripts/pre-commit"));
              (["scripts"; "setup.sh"],
               File perm_0700 (template E "templates/scripts/setup.sh"));
              (["scripts"; "cibuild.sh"],
               File perm_0700 (template E "templates/scripts/cibuild.sh")) ]
            (fs w).
Proof.
  intros H. destruct u. unfold Main3.createScripts in H.
  apply bind_Ok in H as ([] & w1 & (Hc1 & Hn1 & Hf1)%mkdir3_Ok & H); [|done].
  cbn [for_each fst snd] in H.
  apply bind_Ok in H as ([] & w2 & (Hc2 & d2 & Hs2 & Hf2)%wrap_Ok%createExecutableFile3_Ok & H).
  apply bind_Ok in H as ([] & w3 & (Hc3 & d3 & Hs3 & Hf3)%wrap_Ok%createExecutableFile3_Ok & H).
  apply bind_Ok in H as ([] & w4 & (Hc4 & d4 & Hs4 & Hf4)%wrap_Ok%createExecutableFile3_Ok & H).
  injection H as <-.
  change (filepath_Join (cwd w) Main3.ScriptsDir) with (cwd w ++ ["scripts"]) in Hf1.
  unfold Main3.PreCommitScriptFile, Main3.SetupScriptFile,
    Main3.CIBuildScriptFile, Main3.PreCommitScriptTemplate,
    Main3.SetupScriptTemplate, Main3.CIBuildScriptTemplate,
    Main3.templatesFS in *.
  rewrite Hc1, resolve_scripts_pre_commit in Hf2.
  rewrite Hc2, Hc1, resolve_scripts_setup in Hf3.
  rewrite Hc3, Hc2, Hc1, resolve_scripts_cibuild in Hf4.
  split; [congruence|].
  rewrite Hf4, Hf3, Hf2, Hf1. cbn.
  by rewrite (template_Some _ _ _ Hs2), (template_Some _ _ _ Hs3),
    (template_Some _ _ _ Hs4).
Qed.

Lemma createGithubAction3_Ok E w u w' :
  Main3.createGithubAction E w = (Ok u, w') -> wf (fs w) ->
  cwd w' = cwd w /\
  fs w' = add_entries (cwd w)
            [ ([".github"], Dir (Z.ldiff ModePerm (umask E)));
              ([".github"; "workflows"], Dir (Z.ldiff ModePerm (umask E)));
              ([".github"; "workflows"; "releaser.yml"],
               File (Z.ldiff perm_0666 (umask E)) (template E "templates/releaser.yml")) ]
            (fs w).
Proof.
  intros H Hwf. destruct u. unfold Main3.createGithubAction in H.
  cbn [for_each] in H.
  apply bind_Ok in H as ([] & w3 & H & H3).
  apply bind_Ok in H as ([] & w1 & (Hc1 & Hn1 & Hf1)%wrap_Ok%mkdir3_Ok & H); [|done].
  apply bind_Ok in H as ([] & w2 & (Hc2 & Hn2 & Hf2)%wrap_Ok%mkdir3_Ok & H); [|done].
  injection H as <-.
  apply wrap_Ok, createFile3_Ok in H3 as (Hc3 & d3 & Hs3 & Hf3).
  unfold Main3.GithubDir, Main3.WorkflowsDir, Main3.ReleaserFile,
    Main3.ReleaserTemplate, Main3.templatesFS in *.
  rewrite resolve_github in Hn1. rewrite join_github in Hf1.
  rewrite Hc1, join_workflows in Hf2.
  rewrite Hc2, Hc1, resolve_releaser in Hf3.
  split; [congruence|].
  rewrite create_perm_new in Hf3.
  - rewrite Hf3, Hf2, Hf1. cbn. by rewrite (template_Some _ _ _ Hs3).
  - rewrite Hf2, lookup_insert_ne by (by apply path_neq).
    rewrite Hf1, lookup_insert_ne by (by apply path_neq).
    replace (cwd w ++ [".github"; "workflows"; "releaser.yml"])
      with ((cwd w ++ [".github"]) ++ ["workflows"; "releaser.yml"])
      by (by rewrite <- app_assoc).
    apply wf_free_below; [done|]. rewrite <- app_assoc. cbn.
    by apply wf_free_below.
Qed.

Lemma createPreCommitHook3_Ok E w u w' :
  Main3.createPreCommitHook E w = (Ok u, w') ->
  cwd w' = cwd w ++ [".git"; "hooks"] /\
  fs w' = <[cwd w ++ [".git"; "hooks"; "pre-commit"] :=
              File perm_0700 (template E "templates/scripts/pre-commit")]> (fs w).
Proof.
  intros H. unfold Main3.createPreCommitHook in H.
  apply bind_Ok in H as ([] & w1 & (Hf1 & Hc1)%wrap_Ok%os_Chdir_Ok
                         & (Hc2 & d & Hs & Hf2)%wrap_Ok%createExecutableFile3_Ok).
  unfold Main3.GitHooksDir, Main3.PreCommitHookFile,
    Main3.PreCommitHookTemplate, Main3.templatesFS in *.
  rewrite resolve_git_hooks in Hc1.
  rewrite Hc1, resolve_pre_commit, <- app_assoc in Hf2. cbn [app] in Hf2.
  split; [congruence|]. by rewrite Hf2, Hf1, (template_Some _ _ _ Hs).
Qed.

(** The whole of a successful run of the last version. *)
Lemma main3_Ok E n w w' :
  tools_respect_tree E -> wf (fs w) -> valid_name n = true ->
  Main3.main E (Some n) w = (Ok tt, w') ->
  exists a,
    fs w' = add_entries (cwd w ++ [n])
              (written_main3 E (cwd w ++ [n]) (tooled E a n w)) (tooled E a n w) /\
    cwd w' = cwd w ++ [n; ".git"; "hooks"].
Proof.
  intros HE Hwf Hn H.
  pose proof (calls_keep_tree E HE) as HCt.
  destruct (valid_name_resolve (cwd w) n Hn) as (Hne & Hres & Hjoin).
  unfold Main3.main in H.
  change (default Main3.DefaultProjectName (Some n)) with n in H.
  apply bind_Ok in H as (ok & w1 & H1 & H).
  unfold Main3.isGoInstalled in H1.
  apply bind_Ok in H1 as (r & w1' & H1%attempt_inv & Hr).
  destruct r as [[]|e]; injection Hr as <- <-; [|done]. cbn [negb] in H.
  apply bind_Ok in H as ([] & w2 & H2%wrap_Ok & H%wrap_Ok).
  unfold Main3.createProjectFiles in H.
  apply bind_Ok in H as ([] & w3 & H3%wrap_Ok & H).
  apply bind_Ok in H as ([] & w4 & H4%wrap_Ok & H).
  apply bind_Ok in H as ([] & w5 & H5%wrap_Ok & H).
  apply bind_Ok in H as ([] & w9 & Hfiles & H).
  cbn [for_each fst snd] in Hfiles.
  apply bind_Ok in Hfiles as ([] & w6 & H6%wrap_Ok & Hfiles).
  apply bind_Ok in Hfiles as ([] & w7 & H7%wrap_Ok & Hfiles).
  apply bind_Ok in Hfiles as ([] & w8 & H8%wrap_Ok & Hfiles).
  apply bind_Ok in Hfiles as ([] & w9' & H9%wrap_Ok & Hfiles).
  injection Hfiles as ->.
  apply bind_Ok in H as ([] & w10 & H10%wrap_Ok & H).
  apply bind_Ok in H as ([] & w11 & H11%wrap_Ok & H12%wrap_Ok).
  (* the tree stays a tree up to the workflow *)
  assert (T9 : wf (fs w9)).
  { apply (createFile3_keeps _ _ HCt _ _ _ _ _ _ H9).
    apply (createFile3_keeps _ _ HCt _ _ _ _ _ _ H8).
    apply (createFile3_keeps _ _ HCt _ _ _ _ _ _ H7).
    apply (createFile3_keeps _ _ HCt _ _ _ _ _ _ H6).
    apply (goModInit3_keeps _ _ HCt _ _ _ _ H5).
    apply (keep_Run _ _ HCt _ _ _ _ H4).
    apply (os_Chdir_tree _ _ _ _ H3).
    apply (mkdir3_keeps _ _ HCt _ _ _ _ H2).
    by apply (keep_Run _ _ HCt _ _ _ _ H1). }
  assert (T10 : wf (fs w10)) by (by apply (createScripts3_keeps _ _ HCt _ _ _ H10)).
  (* the external programs *)
  apply exec_Run_Ok in H1 as (F1 & C1).
  apply mkdir3_Ok in H2 as (C2 & _ & F2); [|done].
  apply os_Chdir_Ok in H3 as (F3 & C3).
  unfold Main3.runCommand in H4. apply exec_Run_Ok in H4 as (F4 & C4).
  unfold Main3.goModInit, Main3.runCommand in H5.
  apply bind_Ok in H5 as (a & w4' & Ha & H5).
  destruct (getAlias_execs E w4) as (a' & w4'' & Ha' & Fa & Ca & _).
  change (Main3.getAlias E w4) with (getAlias E w4) in Ha.
  rewrite Ha in Ha'. injection Ha' as <- <-.
  apply exec_Run_Ok in H5 as (F5 & C5).
  assert (Hroot : cwd w5 = cwd w ++ [n]) by congruence.
  assert (Htool : fs w5 = tooled E a n w).
  { unfold tooled. rewrite F5, Ca, Fa, C4, F4, F3, C3, C2, F2, F1, C1, Hres, Hjoin.
    done. }
  (* the files *)
  apply createFile3_Ok in H6 as (C6 & d6 & S6 & F6).
  apply createFile3_Ok in H7 as (C7 & d7 & S7 & F7).
  apply createFile3_Ok in H8 as (C8 & d8 & S8 & F8).
  apply createFile3_Ok in H9 as (C9 & d9 & S9 & F9).
  apply createScripts3_Ok in H10 as (C10 & F10).
  apply createGithubAction3_Ok in H11 as (C11 & F11); [|done].
  apply createPreCommitHook3_Ok in H12 as (C12 & F12).
  rewrite Hroot in C6, F6. rewrite C6 in C7, F7. rewrite C7 in C8, F8.
  rewrite C8 in C9, F9. rewrite C9 in C10, F10. rewrite C10 in C11, F11.
  rewrite C11 in C12, F12.
  change (resolve (cwd w ++ [n]) Main3.GolintciFile)
    with ((cwd w ++ [n]) ++ [".golintci.yml"]) in F6.
  change (resolve (cwd w ++ [n]) Main3.GoreleaserFile)
    with ((cwd w ++ [n]) ++ [".goreleaser.yml"]) in F7.
  change (resolve (cwd w ++ [n]) Main3.GitignoreFile)
    with ((cwd w ++ [n]) ++ [".gitignore"]) in F8.
  change (resolve (cwd w ++ [n]) Main3.Makefile)
    with ((cwd w ++ [n]) ++ ["Makefile"]) in F9.
  rewrite F8, create_perm_insert_ne in F9 by (by apply path_neq).
  rewrite F7, !create_perm_insert_ne in F9 by (by apply path_neq).
  rewrite F6, !create_perm_insert_ne in F9 by (by apply path_neq).
  unfold Main3.templatesFS, Main3.GolintciTemplate, Main3.GoreleaserTemplate,
    Main3.GitignoreTemplate, Main3.MakefileTemplate in *.
  exists a. split.
  - rewrite F12, F11, F10, F9, Htool. unfold written_main3, add_entries. cbn.
    by rewrite (template_Some _ _ _ S6), (template_Some _ _ _ S7),
      (template_Some _ _ _ S8), (template_Some _ _ _ S9).
  - rewrite C12, <- app_assoc. done.
Qed.

End ScaffoldFacts.



Module ScaffoldTheorems.
Import Os Tree Run Scaffold Reading OsFacts ProgramFacts OrchestrationFacts.
Import ScaffoldFacts.

Lemma create_mode_not_executable u : any_exec (Z.ldiff perm_0666 u) = false.
Proof.
  unfold any_exec. apply negb_false_iff, Z.eqb_eq, Z.bits_inj'. intros i Hi.
  rewrite Z.land_spec, Z.ldiff_spec, Z.bits_0.
  assert (H : Z.testbit perm_0666 i && Z.testbit perm_0111 i = false).
  { rewrite <- Z.land_spec. change (Z.land perm_0666 perm_0111) with 0.
    apply Z.bits_0. }
  destruct (Z.testbit perm_0666 i), (Z.testbit perm_0111 i), (Z.testbit u i);
    done.
Qed.

(** A file written by [createFile] has an execute bit only if it was
    there with one. *)
Lemma create_perm_exec E t p :
  any_exec (create_perm E t p) = true ->
  exists perm data, t !! p = Some (File perm data) /\ any_exec perm = true.
Proof.
  unfold create_perm. destruct (t !! p) as [[perm|perm data]|] eqn:H.
  - by rewrite create_mode_not_executable.
  - intros Hx. by exists perm, data.
  - by rewrite create_mode_not_executable.
Qed.

(** C1, as amended. After a successful run for a valid name [n] in a
    well-formed tree, the tree is the one the external programs left
    ([tooled]) with exactly the entries of [written_part000] (for
    [unnamed/part_000]) or [written_main3] (for the last version in
    [main.go]) added under [n]: the lint, ignore and build files,
    [scripts] with its three files, the hook [.git/hooks/pre-commit], and
    in the last version the release configuration and the workflow as
    well. The scripts and the hook have mode [0700], which has the owner
    execute bit; for [unnamed/part_000] the mode [m] of
    [scripts/pre-commit] is no part of the statement. The other files
    have the mode [os.Create] leaves: [0666] less the umask, which has no
    execute bit, for a new file, and its own mode for a file that an
    external program left there. *)
Theorem run_leaves (E : env) (n : string) (w : world) :
  tools_respect_tree E ->
  wf (fs w) ->
  valid_name n = true ->
  (forall w',
      Part000.main E (Some n) w = (Ok tt, w') ->
      exists a m,
        fs w' = add_entries (cwd w ++ [n])
                  (written_part000 E (cwd w ++ [n]) (tooled E a n w) m)
                  (tooled E a n w)) /\
  (forall w',
      Main3.main E (Some n) w = (Ok tt, w') ->
      exists a,
        fs w' = add_entries (cwd w ++ [n])
                  (written_main3 E (cwd w ++ [n]) (tooled E a n w)) (tooled E a n w)) /\
  owner_exec perm_0700 = true /\
  any_exec (Z.ldiff perm_0666 (umask E)) = false /\
  (forall t p,
      any_exec (create_perm E t p) = true ->
      exists perm data, t !! p = Some (File perm data) /\ any_exec perm = true).
Proof.
  intros HE Hwf Hn. split_and!.
  - intros w' H. destruct (part000_Ok E n w w' HE Hwf Hn H) as (a & Hfs & _).
    by exists a, (Z.ldiff perm_0666 (umask E)).
  - intros w' H. destruct (main3_Ok E n w w' HE Hwf Hn H) as (a & Hfs & _).
    by exists a.
  - reflexivity.
  - apply create_mode_not_executable.
  - apply create_perm_exec.
Qed.

Lemma run_leaves_witness :
  exists a,
    fs (Main3.main Demo.E0 (Some "demo") Demo.w0).2
    = add_entries ["work"; "demo"]
        (written_main3 Demo.E0 ["work"; "demo"] (tooled Demo.E0 a "demo" Demo.w0))
        (tooled Demo.E0 a "demo" Demo.w0).
Proof.
  refine (proj1 (proj2 (run_leaves Demo.E0 "demo" Demo.w0 _ _ _)) _ _).
  - exact DemoFacts.E0_respects_tree.
  - exact DemoFacts.wf_w0.
  - reflexivity.
  - vm_compute. reflexivity.
Defined.

(** C1, the statement refuted. A successful run of the last version
    leaves [.goreleaser.yml] under the project, and [go.mod], which
    [go mod init] wrote: neither is among the entries listed. The second
    program of [main.go] runs to its end and leaves no [scripts] and no
    build file. And a build file that an external program left there
    executable is executable after the run: [os.Create] keeps the mode
    of a file that is there. *)
Lemma release_config_not_listed :
  let linting := Demo.store ".golangci.yml" "lint" in
  let hook := Demo.store "pre-commit.sh" "hook" in
  let gitignore := Demo.store ".gitignore" "ignore" in
  let r3 := Main3.main Demo.E0 (Some "demo") Demo.w0 in
  let r2 := Main2.main Demo.E0 linting hook gitignore (Some "demo") Demo.w0 in
  let r4 := Main3.main Demo.E4 (Some "demo") Demo.w0 in
  fst r3 = Ok tt /\
  fs r3.2 !! (["work"; "demo"] ++ [".goreleaser.yml"])
  = Some (File 420 "goreleaser") /\
  ([".goreleaser.yml"] ∉ listed_entries) /\
  fs r3.2 !! (["work"; "demo"] ++ ["go.mod"])
  = Some (File 420 "module project/demo") /\
  (["go.mod"] ∉ listed_entries) /\
  fst r2 = Ok tt /\
  fs r2.2 !! ["work"; "demo"; "scripts"] = None /\
  fs r2.2 !! ["work"; "demo"; "Makefile"] = None /\
  fst r4 = Ok tt /\
  fs r4.2 !! ["work"; "demo"; "Makefile"] = Some (File 493 "make") /\
  any_exec 493 = true.
Proof.
  assert (Hout : forall e,
             e ∈ [[".goreleaser.yml"]; ["go.mod"]] -> e ∉ listed_entries).
  { intros e He. unfold listed_entries. rewrite !not_elem_of_cons.
    apply elem_of_cons in He as [->|He];
      [|apply list_elem_of_singleton in He as ->];
      split_and!; try done; apply not_elem_of_nil. }
  cbv zeta. split_and!; try (by vm_compute); apply Hout; set_solver.
Qed.

(** In [unnamed/part_000], [scripts/pre-commit] is written but not made
    executable: with umask [022] it has mode [0644], while the other two
    scripts have mode [0700]. *)
Lemma scripts_pre_commit_left_plain :
  fst (Part000.main Demo.E0 (Some "demo") Demo.w0) = Ok tt /\
  fs (Part000.main Demo.E0 (Some "demo") Demo.w0).2
    !! ["work"; "demo"; "scripts"; "pre-commit"] = Some (File 420 "hook") /\
  owner_exec 420 = false /\
  fs (Part000.main Demo.E0 (Some "demo") Demo.w0).2
    !! ["work"; "demo"; "scripts"; "setup.sh"] = Some (File perm_0700 "setup") /\
  fs (Main3.main Demo.E0 (Some "demo") Demo.w0).2
    !! ["work"; "demo"; "scripts"; "pre-commit"] = Some (File perm_0700 "hook").
Proof. by vm_compute. Qed.

(** The first two programs of [main.go] write no [scripts] directory and no
    build file; the second leaves the hook with the mode of a plain file
    and, being in [.git/hooks] by then, writes the ignore file there. *)
Lemma early_programs_write_no_scripts :
  let linting := Demo.store ".golangci.yml" "lint" in
  let hook := Demo.store "pre-commit.sh" "hook" in
  let gitignore := Demo.store ".gitignore" "ignore" in
  let r1 := Main1.main Demo.E0 linting hook gitignore (Some "demo") Demo.w0 in
  let r2 := Main2.main Demo.E0 linting hook gitignore (Some "demo") Demo.w0 in
  fst r1 = Ok tt /\
  fs r1.2 !! ["work"; "demo"; "scripts"] = None /\
  fs r1.2 !! ["work"; "demo"; "Makefile"] = None /\
  fst r2 = Ok tt /\
  fs r2.2 !! ["work"; "demo"; "scripts"] = None /\
  fs r2.2 !! ["work"; "demo"; "Makefile"] = None /\
  fs r2.2 !! ["work"; "demo"; ".git"; "hooks"; "pre-commit"] = Some (File 420 "hook") /\
  fs r2.2 !! ["work"; "demo"; ".gitignore"] = None /\
  fs r2.2 !! ["work"; "demo"; ".git"; "hooks"; ".gitignore"] = Some (File 420 "ignore").
Proof. by vm_compute. Qed.

End ScaffoldTheorems.


(** ** More on [mkdir]

    The four versions of [mkdir] differ in their messages only. *)

Module MkdirFacts.
Import Os Tree Run OsFacts OrchestrationFacts StrFacts.

Lemma split_slash_cons a b :
  Str.has_slash a = false ->
  Str.split_slash (a +:+ "/" +:+ b) = a :: Str.split_slash b.
Proof.
  unfold Str.has_slash. induction a as [|c a IH]; [done|].
  cbn [Str.to_list existsb]. intros [Hc Ha]%orb_false_iff.
  change (String c a +:+ "/" +:+ b) with (String c (a +:+ "/" +:+ b)).
  cbn [Str.split_slash]. by rewrite Hc, (IH Ha).
Qed.

Lemma valid_name_step c n :
  valid_name n = true -> step_component c n = c ++ [n].
Proof.
  unfold valid_name. rewrite !andb_true_iff, !negb_true_iff.
  intros (((_ & Hn) & Hd) & Hdd). unfold step_component. by rewrite Hn, Hd, Hdd.
Qed.

(** A name of two components, resolved and joined. *)
Lemma nested_name_resolve c a b :
  valid_name a = true -> valid_name b = true ->
  a +:+ "/" +:+ b <> "" /\
  resolve c (a +:+ "/" +:+ b) = c ++ [a; b] /\
  filepath_Join c (a +:+ "/" +:+ b) = c ++ [a; b].
Proof.
  intros Ha Hb.
  assert (Hsa : Str.has_slash a = false).
  { unfold valid_name in Ha. rewrite !andb_true_iff, !negb_true_iff in Ha. tauto. }
  assert (Hsb : Str.has_slash b = false).
  { unfold valid_name in Hb. rewrite !andb_true_iff, !negb_true_iff in Hb. tauto. }
  assert (Hw : walk c (Str.split_slash (a +:+ "/" +:+ b)) = c ++ [a; b]).
  { rewrite (split_slash_cons _ _ Hsa), (split_slash_plain _ Hsb). cbn.
    rewrite (valid_name_step _ _ Ha), (valid_name_step _ _ Hb), <- app_assoc.
    done. }
  split_and!; [by destruct a| |done].
  unfold resolve. replace (is_abs (a +:+ "/" +:+ b)) with false; [done|].
  destruct a as [|x a]; [done|].
  change (is_abs (String x a +:+ "/" +:+ b)) with (Ascii.eqb x "/").
  cbn in Hsa. by apply orb_false_iff in Hsa as [-> _].
Qed.

(** A one-component name written from the root. *)
Lemma rooted_name_resolve c m :
  valid_name m = true ->
  resolve c ("/" +:+ m) = [m] /\ filepath_Join c ("/" +:+ m) = c ++ [m].
Proof.
  intros Hm.
  assert (Hs : Str.has_slash m = false).
  { unfold valid_name in Hm. rewrite !andb_true_iff, !negb_true_iff in Hm. tauto. }
  unfold resolve, filepath_Join.
  change (Str.split_slash ("/" +:+ m)) with (EmptyString :: Str.split_slash m).
  rewrite (split_slash_plain _ Hs). cbn. by rewrite !(valid_name_step _ _ Hm).
Qed.

(** The calls of [mkdir] on a name that [os.Stat] does not find. *)
Lemma mkdir_run E name w :
  name <> "" -> fs w !! resolve (cwd w) name = None ->
  Part000.mkdir E name w =
  match fs w !! cwd w with
  | Some (Dir _) =>
      wrap "error creating folder: %w"
        (os_Mkdir E (filepath_Join (cwd w) name) ModePerm)
        (World (fs w) (cwd w) (trace w ++ [EvStat name; EvGetwd]))
  | _ => (Err (Errorf "error getting current working directory: %w"
                 (Some (Errno ENOENT))),
          World (fs w) (cwd w) (trace w ++ [EvStat name; EvGetwd]))
  end.
Proof.
  intros Hn%String.eqb_neq Hfree.
  unfold Part000.mkdir, attempt, bind at 1, os_Stat, bind, log, get, ret, fail.
  cbn. rewrite Hn, Hfree. unfold wrap at 1, os_Getwd, bind, log, get, ret, fail.
  cbn. rewrite <- app_assoc. cbn.
  by destruct (fs w !! cwd w) as [[]|].
Qed.


(** Where [os.Stat] finds nothing, the versions of [mkdir] do the same. *)
Lemma mkdir_versions E name w :
  name <> "" -> fs w !! resolve (cwd w) name = None ->
  Main1.mkdir E name w = Part000.mkdir E name w /\
  Main3.mkdir E name w = Part000.mkdir E name w /\
  (forall perm, fs w !! cwd w = Some (Dir perm) ->
                Main2.mkdir E name w = Part000.mkdir E name w).
Proof.
  intros Hn Hfree. split_and!; [done| |].
  - apply String.eqb_neq in Hn.
    unfold Main3.mkdir, Part000.mkdir, attempt, bind at 1 3, os_Stat, bind,
      log, get, ret, fail.
    cbn. by rewrite Hn, Hfree.
  - intros perm Hcwd. apply String.eqb_neq in Hn.
    unfold Main2.mkdir, Part000.mkdir, attempt, bind at 1 3, os_Stat, bind,
      log, get, ret, fail.
    cbn. rewrite Hn, Hfree.
    unfold wrap at 2, os_Getwd, bind, log, get, ret, fail. cbn.
    by rewrite Hcwd.
Qed.

Lemma os_Mkdir_new E p perm w pp :
  fs w !! p = None -> fs w !! parent p = Some (Dir pp) ->
  os_Mkdir E p perm w
  = (Ok tt, World (<[p := Dir (Z.ldiff perm (umask E))]> (fs w)) (cwd w)
              (trace w ++ [EvMkdir p perm])).
Proof.
  intros Hp Hpar. unfold os_Mkdir, bind, log, get, set_fs, ret, fail. cbn.
  by rewrite Hp, Hpar.
Qed.

Lemma os_Mkdir_orphan E p perm w :
  fs w !! p = None -> fs w !! parent p = None ->
  os_Mkdir E p perm w
  = (Err (Errno ENOENT), World (fs w) (cwd w) (trace w ++ [EvMkdir p perm])).
Proof.
  intros Hp Hpar. unfold os_Mkdir, bind, log, get, set_fs, ret, fail. cbn.
  by rewrite Hp, Hpar.
Qed.

End MkdirFacts.


Module MkdirTheorems.
Import Os Tree Run OsFacts OrchestrationFacts ScaffoldFacts StrFacts MkdirFacts Outcome.
Import Limits.



(** X2. [mkdir] makes no intermediate directory: for a name [a/b] whose
    first component is not there, [os.Mkdir] fails for want of the parent
    and the tree is left as it was. *)
Theorem mkdir_not_recursive (E : env) (a b : string) (w : world) (perm : Z) :
  valid_name a = true -> valid_name b = true ->
  wf (fs w) ->
  fs w !! cwd w = Some (Dir perm) ->
  fs w !! (cwd w ++ [a]) = None ->
  Part000.mkdir E (a +:+ "/" +:+ b) w
  = (Err (Errorf "error creating folder: %w" (Some (Errno ENOENT))),
     World (fs w) (cwd w)
       (trace w ++ [EvStat (a +:+ "/" +:+ b); EvGetwd;
                    EvMkdir (cwd w ++ [a; b]) ModePerm])) /\
  Main3.mkdir E (a +:+ "/" +:+ b) w = Part000.mkdir E (a +:+ "/" +:+ b) w.
Proof.
  intros Ha Hb Hwf Hcwd Hfree.
  destruct (nested_name_resolve (cwd w) a b Ha Hb) as (Hne & Hres & Hjoin).
  assert (Hab : fs w !! (cwd w ++ [a; b]) = None) by (by apply wf_free_below).
  destruct (mkdir_versions E (a +:+ "/" +:+ b) w) as (_ & -> & _);
    rewrite ?Hres; try done.
  split; [|done].
  assert (Hpar : fs w !! parent (cwd w ++ [a; b]) = None).
  { replace (cwd w ++ [a; b]) with ((cwd w ++ [a]) ++ [b])
      by (by rewrite <- app_assoc).
    by rewrite parent_snoc. }
  rewrite mkdir_run, Hcwd, Hjoin by (by rewrite ?Hres). unfold wrap.
  rewrite os_Mkdir_orphan by done. cbn.
  by rewrite <- app_assoc.
Qed.

Lemma mkdir_not_recursive_witness :
  fst (Part000.mkdir Demo.E0 ".github/workflows" Demo.w0)
  = Err (Errorf "error creating folder: %w" (Some (Errno ENOENT))).
Proof.
  refine (f_equal fst (proj1 (mkdir_not_recursive Demo.E0 ".github" "workflows"
                                Demo.w0 493 _ _ _ _ _))).
  - reflexivity.
  - reflexivity.
  - exact DemoFacts.wf_w0.
  - reflexivity.
  - reflexivity.
Defined.

(** X3. [mkdir] of the empty name never succeeds and makes nothing:
    [os.Stat] does not find it, the path joined is the working directory
    itself, and [os.Mkdir] finds that one there. *)
Theorem mkdir_empty_name (E : env) (w : world) :
  exists e w',
    Part000.mkdir E "" w = (Err e, w') /\ Main3.mkdir E "" w = (Err e, w') /\
    fs w' = fs w /\ cwd w' = cwd w /\
    (forall perm, fs w !! cwd w = Some (Dir perm) ->
                  e = Errorf "error creating folder: %w" (Some (Errno EEXIST))).
Proof.
  change (Main3.mkdir E "" w) with (Part000.mkdir E "" w).
  destruct (Part000.mkdir E "" w) as [r w1] eqn:H.
  unfold Part000.mkdir, attempt, bind at 1, os_Stat, bind, log, get, ret, fail in H.
  cbn in H. unfold wrap at 1, os_Getwd, bind, log, get, ret, fail in H. cbn in H.
  destruct (fs w !! cwd w) as [[perm|perm data]|] eqn:Hcwd.
  - unfold wrap, os_Mkdir, filepath_Join, bind, log, get, set_fs, ret, fail in H.
    cbn -[Z.ldiff] in H. rewrite Hcwd in H. injection H as <- <-.
    eexists _, _. split_and!; [reflexivity|reflexivity|done|done|done].
  - injection H as <- <-.
    eexists _, _. split_and!; [reflexivity|reflexivity|done|done|done].
  - injection H as <- <-.
    eexists _, _. split_and!; [reflexivity|reflexivity|done|done|done].
Qed.

(** X4. For a name written from the root, [/m], [os.Stat] and [os.Chdir]
    look at [/m] while [filepath.Join] puts the new directory under the
    working directory. So when neither is there, the first program makes
    [m] in the working directory and then fails to enter [/m]; the
    directory stays. The second program does the same, with the error of
    [os.Chdir] as it is. *)
Theorem rooted_name_misplaced (E : env)
  (linting hook gitignore : string -> option string)
  (m : string) (w : world) (perm : Z) :
  valid_name m = true ->
  cwd w <> [] ->
  fs w !! cwd w = Some (Dir perm) ->
  fs w !! [m] = None ->
  fs w !! (cwd w ++ [m]) = None ->
  Main1.main E linting hook gitignore (Some ("/" +:+ m)) w
  = (Err (Errorf "error changing to project directory: %w" (Some (Errno ENOENT))),
     World (<[cwd w ++ [m] := Dir (Z.ldiff ModePerm (umask E))]> (fs w)) (cwd w)
       (trace w ++ [EvStat ("/" +:+ m); EvGetwd;
                    EvMkdir (cwd w ++ [m]) ModePerm; EvChdir ("/" +:+ m)])) /\
  Main2.main E linting hook gitignore (Some ("/" +:+ m)) w
  = (Err (Errno ENOENT),
     World (<[cwd w ++ [m] := Dir (Z.ldiff ModePerm (umask E))]> (fs w)) (cwd w)
       (trace w ++ [EvStat ("/" +:+ m); EvGetwd;
                    EvMkdir (cwd w ++ [m]) ModePerm; EvChdir ("/" +:+ m)])).
Proof.
  intros Hm Hc Hcwd Hroot Hfree.
  destruct (rooted_name_resolve (cwd w) m Hm) as (Hres & Hjoin).
  assert (Hmk : Part000.mkdir E ("/" +:+ m) w
                = (Ok tt,
                   World (<[cwd w ++ [m] := Dir (Z.ldiff ModePerm (umask E))]> (fs w))
                     (cwd w)
                     (trace w ++ [EvStat ("/" +:+ m); EvGetwd;
                                  EvMkdir (cwd w ++ [m]) ModePerm]))).
  { rewrite mkdir_run, Hcwd, Hjoin by (by rewrite ?Hres). unfold wrap.
    rewrite (os_Mkdir_new _ _ _ _ perm); cbn; rewrite ?parent_snoc; try done.
    by rewrite <- app_assoc. }
  assert (Hcd : forall tr,
             os_Chdir ("/" +:+ m)
               (World (<[cwd w ++ [m] := Dir (Z.ldiff ModePerm (umask E))]> (fs w))
                  (cwd w) tr)
             = (Err (Errno ENOENT),
                World (<[cwd w ++ [m] := Dir (Z.ldiff ModePerm (umask E))]> (fs w))
                  (cwd w) (tr ++ [EvChdir ("/" +:+ m)]))).
  { intros tr. unfold os_Chdir, bind, log, get, set_cwd, ret, fail.
    cbn -[resolve Z.ldiff]. rewrite Hres, lookup_insert_ne, Hroot; [done|].
    intros Heq. apply (f_equal length) in Heq. rewrite length_app in Heq.
    destruct (cwd w); [done|cbn in Heq; lia]. }
  split.
  - unfold Main1.main. change (default Main1.DefaultProjectName (Some ?n)) with n.
    change (Main1.mkdir E) with (Part000.mkdir E).
    rewrite (bind_step _ _ _ _ _ Hmk). unfold Main1.createProjectFiles.
    erewrite bind_stop; [|unfold wrap; rewrite Hcd; reflexivity].
    by rewrite <- app_assoc.
  - destruct (mkdir_versions E ("/" +:+ m) w) as (_ & _ & H2);
      rewrite ?Hres; try done.
    unfold Main2.main. change (default "new_project" (Some ?n)) with n.
    rewrite (bind_step _ _ _ _ _ (eq_trans (H2 perm Hcwd) Hmk)).
    erewrite bind_stop; [|rewrite Hcd; reflexivity].
    by rewrite <- app_assoc.
Qed.

Lemma rooted_name_misplaced_witness :
  fs (Main1.main Demo.E0 (Demo.store ".golangci.yml" "lint")
        (Demo.store "pre-commit.sh" "hook") (Demo.store ".gitignore" "ignore")
        (Some "/demo") Demo.w0).2 !! ["work"; "demo"] = Some (Dir 493) /\
  fst (Main1.main Demo.E0 (Demo.store ".golangci.yml" "lint")
         (Demo.store "pre-commit.sh" "hook") (Demo.store ".gitignore" "ignore")
         (Some "/demo") Demo.w0)
  = Err (Errorf "error changing to project directory: %w" (Some (Errno ENOENT))).
Proof.
  pose proof (proj1 (rooted_name_misplaced Demo.E0 (Demo.store ".golangci.yml" "lint")
                       (Demo.store "pre-commit.sh" "hook")
                       (Demo.store ".gitignore" "ignore") "demo" Demo.w0 493
                       eq_refl ltac:(discriminate) eq_refl eq_refl eq_refl)) as H.
  change ("/" +:+ "demo") with "/demo" in H. rewrite H. split; reflexivity.
Defined.

(** X5. When an entry named [n] (one component, not [.] or [..]) is in
    the working directory, every version ends at the check in [mkdir]:
    the program makes no directory and no file, and starts no external
    program but the probe of the versions that have one. What the tree
    holds afterwards is what the probe left. *)
Theorem main_refuses_existing (E : env)
  (linting hook gitignore : string -> option string)
  (n : string) (w : world) :
  valid_name n = true ->
  is_Some (fs w !! (cwd w ++ [n])) ->
  Main1.main E linting hook gitignore (Some n) w
  = (Err (Errorf "project already exists: %w" None),
     World (fs w) (cwd w) (trace w ++ [EvStat n])) /\
  Main2.main E linting hook gitignore (Some n) w
  = (Err (Errorf "project already exist: %w" None),
     World (fs w) (cwd w) (trace w ++ [EvStat n])) /\
  (tools_keep_entries E ->
   forall t, exec_tool E ["go"; "version"] (cwd w) (fs w) = (true, t) ->
   Part000.main E (Some n) w
   = (Err (Errorf "project already exists: %w" None),
      World t (cwd w) (trace w ++ [EvExec ["go"; "version"]; EvStat n])) /\
   Main3.main E (Some n) w
   = (Err (Errorf "Error creating directory: "
             (Some (Errorf "folder already exists: %w" None))),
      World t (cwd w) (trace w ++ [EvExec ["go"; "version"]; EvStat n]))).
Proof.
  intros Hv [nd Hnd].
  destruct (valid_name_resolve (cwd w) n Hv) as (Hn & Hres & _).
  rewrite <- Hres in Hnd. split_and!.
  - unfold Main1.main. change (default Main1.DefaultProjectName (Some ?x)) with x.
    change (Main1.mkdir E) with (Part000.mkdir E).
    by rewrite (bind_stop _ _ _ _ _ (mkdir_existing E n w nd Hn Hnd)).
  - apply String.eqb_neq in Hn.
    unfold Main2.main, Main2.mkdir, attempt, bind, os_Stat, log, get, ret, fail.
    cbn -[resolve]. by rewrite Hn, Hnd.
  - intros HE t Ht.
    assert (Ht' : is_Some (t !! resolve (cwd w) n)).
    { specialize (HE ["go"; "version"] (cwd w) (fs w) (resolve (cwd w) n)).
      rewrite Ht in HE. apply HE. by exists nd. }
    destruct Ht' as [nd' Hnd'].
    assert (Hprobe : exec_Run E ["go"; "version"] w
                     = (Ok tt, World t (cwd w) (trace w ++ [EvExec ["go"; "version"]])))
      by (by rewrite exec_Run_world, Ht).
    split.
    + unfold Part000.main. rewrite (bind_step _ _ _ _ _ Hprobe).
      change (default Part000.DefaultProjectName (Some ?x)) with x.
      rewrite (bind_stop _ _ _ _ _
                 (mkdir_existing E n
                    (World t (cwd w) (trace w ++ [EvExec ["go"; "version"]]))
                    nd' Hn Hnd')).
      cbn. by rewrite <- app_assoc.
    + apply String.eqb_neq in Hn.
      unfold Main3.main, Main3.isGoInstalled, attempt, bind at 1 2.
      rewrite Hprobe. cbn [ret negb].
      change (default Main3.DefaultProjectName (Some ?x)) with x.
      unfold Main3.mkdir, wrap, attempt, bind, os_Stat, log, get, ret, fail.
      cbn -[resolve]. rewrite Hn, Hnd'. by rewrite <- app_assoc.
Qed.

Lemma main_refuses_existing_witness :
  Main3.main Demo.E0 (Some "work") (World (fs Demo.w0) [] [])
  = (Err (Errorf "Error creating directory: "
            (Some (Errorf "folder already exists: %w" None))),
     World (fs Demo.w0) [] [EvExec ["go"; "version"]; EvStat "work"]).
Proof.
  refine (proj2 (proj2 (proj2 (main_refuses_existing Demo.E0
                                 (fun _ => None) (fun _ => None) (fun _ => None)
                                 "work" (World (fs Demo.w0) [] []) _ _)) _ _ _)).
  - reflexivity.
  - by eexists.
  - intros argv dir t p. apply DemoFacts.tools_entries.
  - reflexivity.
Defined.

End MkdirTheorems.


(** ** Writing a file *)

Module FileFacts.
Import Os Tree Run Scaffold OsFacts OrchestrationFacts ScaffoldFacts.


Lemma os_Create_name E name w p w' :
  os_Create E name w = (Ok p, w') -> name <> "".
Proof.
  intros H ->. unfold os_Create, bind, log, get, fail in H. cbn in H. done.
Qed.



Lemma createFile_Ok_create E name store key w u w' :
  Part000.createFile E name store key w = (Ok u, w') ->
  exists w1, os_Create E name w = (Ok (resolve (cwd w) name), w1).
Proof.
  intros H. unfold Part000.createFile in H.
  apply bind_Ok in H as (file & w1 & H1%wrap_Ok & _).
  pose proof (os_Create_Ok _ _ _ _ _ H1) as (-> & _). by exists w1.
Qed.

(** [os.Chmod] on a file that is there. *)
Lemma os_Chmod_file name mode w perm data :
  name <> "" ->
  fs w !! resolve (cwd w) name = Some (File perm data) ->
  os_Chmod name mode w
  = (Ok tt, World (<[resolve (cwd w) name := File mode data]> (fs w)) (cwd w)
              (trace w ++ [EvChmod name mode])).
Proof.
  intros Hn%String.eqb_neq Hl.
  unfold os_Chmod, bind, log, get, set_fs, ret, fail. cbn -[resolve].
  by rewrite Hn, Hl.
Qed.

End FileFacts.

Module FileTheorems.
Import Os Tree Run Scaffold OsFacts OrchestrationFacts ScaffoldFacts FileFacts.



(** X7. [createFile] opens the file before it reads the template. When
    the store has no template of that name, the error is that of the
    read, and the file has been created, or emptied if it was there, and
    is left so. *)
Theorem createFile_without_template (E : env) (name : string)
  (store : string -> option string) (key : string) (w w1 : world) (p : path) :
  store key = None ->
  os_Create E name w = (Ok p, w1) ->
  Part000.createFile E name store key w
  = (Err (Errorf "error reading embedded file: %w" (Some (Errno ENOENT))), w1) /\
  Main3.createFile E name store key w
  = (Err (Errorf "error reading embedded file: %w" (Some (Errno ENOENT))), w1) /\
  fs w1 = <[p := File (create_perm E (fs w) p) ""]> (fs w).
Proof.
  intros Hst Hc.
  assert (H : Part000.createFile E name store key w
              = (Err (Errorf "error reading embedded file: %w" (Some (Errno ENOENT))),
                 w1)).
  { unfold Part000.createFile.
    erewrite bind_step; [|unfold wrap; rewrite Hc; reflexivity].
    erewrite bind_stop; [done|].
    unfold wrap, embed_ReadFile. by rewrite Hst. }
  split_and!; [done|done|].
  apply os_Create_Ok in Hc as (-> & _ & Hfs). unfold create_perm.
  by destruct Hfs as [[-> ->]|(perm & old & -> & ->)].
Qed.

Lemma createFile_without_template_witness :
  fs (Part000.createFile Demo.E0 "notes" Demo.templates "templates/none"
        (World (<[["work"; "notes"] := File 384 "text"]> (fs Demo.w0)) ["work"] [])).2
  !! ["work"; "notes"] = Some (File 384 "").
Proof.
  destruct (createFile_without_template Demo.E0 "notes" Demo.templates
              "templates/none"
              (World (<[["work"; "notes"] := File 384 "text"]> (fs Demo.w0))
                 ["work"] [])
              (os_Create Demo.E0 "notes"
                 (World (<[["work"; "notes"] := File 384 "text"]> (fs Demo.w0))
                    ["work"] [])).2
              ["work"; "notes"])
    as (-> & _ & _).
  - reflexivity.
  - by vm_compute.
  - by vm_compute.
Defined.

(** X8. [createExecutableFile] fails only when [createFile] fails, and
    then with the error of [createFile] as it is; when [createFile]
    succeeds the file is found by [os.Chmod] and ends with mode [0700],
    whatever the umask and whatever mode it had. *)
Theorem createExecutableFile_mode (E : env) (name : string)
  (store : string -> option string) (key : string) (w : world) :
  match Main3.createFile E name store key w with
  | (Err e, w1) => Main3.createExecutableFile E name store key w = (Err e, w1)
  | (Ok _, w1) =>
      exists data,
        store key = Some data /\
        Main3.createExecutableFile E name store key w
        = (Ok tt, World (<[resolve (cwd w) name := File perm_0700 data]> (fs w))
                    (cwd w) (trace w1 ++ [EvChmod name perm_0700]))
  end.
Proof.
  destruct (Main3.createFile E name store key w) as [[[]|e] w1] eqn:H.
  - destruct (createFile_Ok_create _ _ _ _ _ _ _ H) as (w0 & Hc0).
    pose proof (os_Create_name _ _ _ _ _ Hc0) as Hn.
    pose proof (createFile_Ok _ _ _ _ _ _ _ H) as (Hcwd & data & Hst & Hfs).
    exists data. split; [done|].
    unfold Main3.createExecutableFile. rewrite (bind_step _ _ _ _ _ H).
    unfold wrap.
    rewrite (os_Chmod_file name perm_0700 w1
               (create_perm E (fs w) (resolve (cwd w) name)) data)
      by (by rewrite ?Hcwd, ?Hfs, ?lookup_insert_eq).
    by rewrite Hcwd, Hfs, insert_insert_eq.
  - unfold Main3.createExecutableFile. by rewrite (bind_stop _ _ _ _ _ H).
Qed.

(** X9. The two versions of [createScripts] differ in one mode. In
    [unnamed/part_000], [scripts/pre-commit] is left as [os.Create] made
    it, with no execute bit whatever the umask, while [setup.sh] and
    [cibuild.sh] get mode [0700]; in the last program of [main.go] all
    three get mode [0700]. The rest of the tree is the same. *)
Theorem createScripts_modes (E : env) (w : world) :
  wf (fs w) ->
  (forall w1,
      Part000.createScripts E w = (Ok tt, w1) ->
      fs w1 !! (cwd w ++ ["scripts"; "pre-commit"])
      = Some (File (Z.ldiff perm_0666 (umask E))
                (template E "templates/scripts/pre-commit")) /\
      any_exec (Z.ldiff perm_0666 (umask E)) = false /\
      fs w1 !! (cwd w ++ ["scripts"; "setup.sh"])
      = Some (File perm_0700 (template E "templates/scripts/setup.sh")) /\
      fs w1 !! (cwd w ++ ["scripts"; "cibuild.sh"])
      = Some (File perm_0700 (template E "templates/scripts/cibuild.sh"))) /\
  (forall w1 w3,
      Part000.createScripts E w = (Ok tt, w1) ->
      Main3.createScripts E w = (Ok tt, w3) ->
      fs w3 = <[cwd w ++ ["scripts"; "pre-commit"] :=
                  File perm_0700 (template E "templates/scripts/pre-commit")]>
                (fs w1)).
Proof.
  intros Hwf. split.
  - intros w1 (_ & ->)%createScripts_Ok; [|done].
    unfold add_entries. cbn [fold_left fst snd]. split_and!.
    + rewrite lookup_insert_ne by (by apply path_neq).
      rewrite lookup_insert_ne by (by apply path_neq).
      by rewrite lookup_insert_eq.
    + unfold any_exec. apply negb_false_iff, Z.eqb_eq, Z.bits_inj'. intros i Hi.
      rewrite Z.land_spec, Z.ldiff_spec, Z.bits_0.
      assert (H : Z.testbit perm_0666 i && Z.testbit perm_0111 i = false).
      { rewrite <- Z.land_spec. change (Z.land perm_0666 perm_0111) with 0.
        apply Z.bits_0. }
      destruct (Z.testbit perm_0666 i), (Z.testbit perm_0111 i),
        (Z.testbit (umask E) i); done.
    + rewrite lookup_insert_ne by (by apply path_neq).
      by rewrite lookup_insert_eq.
    + by rewrite lookup_insert_eq.
  - intros w1 w3 (_ & ->)%createScripts_Ok (_ & ->)%createScripts3_Ok; [|done].
    unfold add_entries. cbn [fold_left fst snd].
    rewrite (insert_insert_ne _ (cwd w ++ ["scripts"; "pre-commit"])
               (cwd w ++ ["scripts"; "cibuild.sh"])) by (by apply path_neq).
    rewrite (insert_insert_ne _ (cwd w ++ ["scripts"; "pre-commit"])
               (cwd w ++ ["scripts"; "setup.sh"])) by (by apply path_neq).
    by rewrite insert_insert_eq.
Qed.

Lemma createScripts_modes_witness :
  fs (Part000.createScripts Demo.E0 Demo.w0).2 !! ["work"; "scripts"; "pre-commit"]
  = Some (File 420 "hook").
Proof.
  refine (proj1 (proj1 (createScripts_modes Demo.E0 Demo.w0 DemoFacts.wf_w0)
                   (Part000.createScripts Demo.E0 Demo.w0).2 _)).
  by vm_compute.
Defined.

End FileTheorems.


(** ** More on the alias *)

Module ReadingFacts.
Import Os Regexp Block Reading Run OsFacts StrFacts RegexpFacts PatternFacts AliasFacts.
Import Part000.

(** What the search finds is a block. *)
Lemma find_from_Some s i r :
  find_from req i (Str.to_list s) = Some r ->
  exists user rest, first_block s user rest.
Proof.
  revert i. induction s as [|c s IH]; intros i; rewrite find_from_eq.
  - destruct (match_here _ _ _) as [[j cap]|] eqn:H; [|done]. intros _.
    apply (match_here_starts i EmptyString) in H as (gap & user & rest & Hwf & ->).
    exists user, rest. by constructor.
  - destruct (match_here _ _ _) as [[j cap]|] eqn:H.
    + intros _.
      apply match_here_starts in H as (gap & user & rest & Hwf & ->).
      exists user, rest. by constructor.
    + cbn [Str.to_list]. intros (user & rest & Hfb)%IH.
      exists user, rest. apply first_later; [|done].
      intros (gap & user' & rest' & Hwf & Hs).
      by rewrite Hs, (match_here_well_formed _ _ _ _ Hwf) in H.
Qed.

(** A text holds a block or holds none. *)
Lemma first_block_dec s :
  (exists user rest, first_block s user rest) \/
  (forall user rest, ~ first_block s user rest).
Proof.
  destruct (find_from req 0 (Str.to_list s)) as [r|] eqn:H.
  - left. by eapply find_from_Some.
  - right. intros user rest (pre & mid & _ & Hfind)%find_from_first_block.
    by rewrite Hfind in H.
Qed.

Lemma length_take n s : (String.length (Str.take n s) <= n)%nat.
Proof.
  revert s. induction n as [|n IH]; intros [|c s];
    [apply Nat.le_0_l | apply Nat.le_0_l | apply Nat.le_0_l |].
  rewrite take_cons. cbn [String.length]. specialize (IH s). lia.
Qed.

Lemma take_empty n s : Str.take (S n) s = "" -> s = "".
Proof. by destruct s. Qed.

Lemma readFile_Ok name w s w' :
  readFile name w = (Ok s, w') ->
  exists perm data,
    fs w !! resolve (cwd w) name = Some (File perm data) /\
    data <> "" /\ s = Str.take 1024 data /\
    fs w' = fs w /\ cwd w' = cwd w.
Proof.
  intros H. unfold readFile, os_Open, file_Read, bind, log, get, ret, fail in H.
  cbn -[resolve] in H.
  destruct (String.eqb name ""); [done|].
  destruct (fs w !! resolve (cwd w) name) as [[perm|perm data]|] eqn:Hl;
    cbn -[resolve] in H; rewrite ?Hl in H; try done.
  destruct (String.eqb data "") eqn:Hd; [done|]. injection H as <- <-.
  exists perm, data. split_and!; try done. by apply String.eqb_neq.
Qed.

End ReadingFacts.

Module ReadingTheorems.
Import Os Regexp Block Reading Run OsFacts StrFacts PatternFacts AliasFacts ReadingFacts.
Import Part000.

(** X10. Whatever the SSH configuration holds, the alias is the default
    or [github.com/<user>/] for a non-empty [<user>] made of letters,
    digits and underscores only: it always ends in a slash and the user
    part never holds one. *)
Theorem getAlias_shape (E : env) (w : world) :
  exists a,
    fst (getAlias E w) = Ok a /\ fst (Main3.getAlias E w) = Ok a /\
    (a = "project/" \/
     exists user,
       user <> "" /\ all_in is_word user = true /\
       a = "github.com/" +:+ user +:+ "/").
Proof.
  change (Main3.getAlias E w) with (getAlias E w).
  destruct (decide (HOME E = "")) as [Hhome|Hhome].
  { exists "project/". rewrite getAlias_no_home by done. split_and!; try done. by left. }
  rewrite getAlias_home by done.
  destruct (fs w !! config_path E w) as [[perm|perm data]|];
    [exists "project/"; split_and!; try done; by left|
    |exists "project/"; split_and!; try done; by left].
  destruct (String.eqb data "");
    [exists "project/"; split_and!; try done; by left|].
  cbn [fst].
  destruct (first_block_dec (Str.take 1024 data)) as [(user & rest & Hfb)|Hno].
  - exists ("github.com/" +:+ user +:+ "/").
    destruct (first_block_shape _ _ _ Hfb) as (Hu & Hw & _).
    rewrite (alias_of_block _ _ _ Hfb). split_and!; try done. right. by exists user.
  - exists "project/". rewrite alias_of_no_block by done.
    split_and!; try done. by left.
Qed.

(** X11. Only the first 1024 bytes of the SSH configuration count: two
    files that agree on them give the same alias. *)
Theorem getAlias_first_bytes (E : env) (w1 w2 : world)
  (perm1 perm2 : Z) (data1 data2 : string) :
  fs w1 !! config_path E w1 = Some (File perm1 data1) ->
  fs w2 !! config_path E w2 = Some (File perm2 data2) ->
  Str.take 1024 data1 = Str.take 1024 data2 ->
  fst (getAlias E w1) = fst (getAlias E w2) /\
  fst (Main3.getAlias E w1) = fst (Main3.getAlias E w2).
Proof.
  intros H1 H2 Heq.
  change (Main3.getAlias E) with (getAlias E).
  assert (H : fst (getAlias E w1) = fst (getAlias E w2)); [|done].
  destruct (decide (HOME E = "")) as [Hhome|Hhome].
  { by rewrite !getAlias_no_home. }
  rewrite !getAlias_home, H1, H2 by done.
  destruct data1 as [|c1 d1], data2 as [|c2 d2]; try done.
  cbn [String.eqb fst]. by rewrite Heq.
Qed.

Lemma getAlias_first_bytes_witness :
  fst (getAlias Demo.E1 (Demo.with_config Demo.cut_config))
  = fst (getAlias Demo.E1 (Demo.with_config (Demo.cut_config +:+ "andmore"))).
Proof.
  refine (proj1 (getAlias_first_bytes Demo.E1 (Demo.with_config Demo.cut_config)
                   (Demo.with_config (Demo.cut_config +:+ "andmore"))
                   420 420 Demo.cut_config (Demo.cut_config +:+ "andmore") _ _ _)).
  - reflexivity.
  - reflexivity.
  - by vm_compute.
Defined.

(** X12. [readFile] returns between 1 and 1024 bytes, the start of the
    file: it fails on a name that is not there, on a directory and on an
    empty file, and never returns the empty string. It changes neither
    the tree nor the working directory. *)
Theorem readFile_bounds (name : string) (w w' : world) (s : string) :
  readFile name w = (Ok s, w') ->
  s <> "" /\ (String.length s <= 1024)%nat /\
  (exists perm data,
      fs w !! resolve (cwd w) name = Some (File perm data) /\
      s = Str.take 1024 data) /\
  fs w' = fs w /\ cwd w' = cwd w /\
  Main3.readFile name w = (Ok s, w').
Proof.
  intros H.
  destruct (readFile_Ok _ _ _ _ H) as (perm & data & Hl & Hd & -> & Hfs & Hcwd).
  split_and!; try done.
  - intros Ht. by apply take_empty in Ht.
  - apply length_take.
  - by exists perm, data.
Qed.

Lemma readFile_bounds_witness :
  (String.length (Str.take 1024 Demo.cut_config) <= 1024)%nat.
Proof.
  refine (proj1 (proj2 (readFile_bounds "/home/u/.ssh/config"
                          (Demo.with_config Demo.cut_config)
                          (readFile "/home/u/.ssh/config"
                             (Demo.with_config Demo.cut_config)).2
                          (Str.take 1024 Demo.cut_config) _))).
  by vm_compute.
Defined.

End ReadingTheorems.


(** ** The first two programs of [main.go] *)

Module EarlyFacts.
Import Os Tree Run Scaffold Early OsFacts OrchestrationFacts ScaffoldFacts.

Lemma content_Some store name data : store name = Some data -> content store name = data.
Proof. unfold content. by intros ->. Qed.

(** The three calls that write a template, under any messages. *)
Lemma write_template_Ok E name store key f1 f2 f3 w u w' :
  (file <- wrap f1 (os_Create E name) ;;
   bytes <- wrap f2 (embed_ReadFile store key) ;;
   wrap f3 (file_Write file bytes)) w = (Ok u, w') ->
  cwd w' = cwd w /\
  exists data,
    store key = Some data /\
    fs w' = <[resolve (cwd w) name :=
                File (create_perm E (fs w) (resolve (cwd w) name)) data]> (fs w).
Proof.
  intros H.
  apply bind_Ok in H as (file & w1 & (-> & Hcwd1 & Hc)%wrap_Ok%os_Create_Ok & H).
  apply bind_Ok in H as (bytes & w2 & (Hst & ->)%wrap_Ok%embed_ReadFile_Ok & H).
  apply wrap_Ok, file_Write_Ok in H as (Hcwd3 & perm & old & Hl & Hfs3).
  split; [congruence|]. exists bytes. split; [done|]. unfold create_perm.
  destruct Hc as [[Hnone Hfs1]|(perm1 & old1 & Hsome & Hfs1)];
    rewrite Hfs1, lookup_insert_eq in Hl; injection Hl as <- <-;
    rewrite Hfs3, Hfs1, insert_insert_eq; [by rewrite Hnone|by rewrite Hsome].
Qed.

Lemma resolve_hooks_gitignore c :
  resolve (c ++ [".git"; "hooks"]) ".gitignore" = c ++ [".git"; "hooks"; ".gitignore"].
Proof. unfold resolve. cbn. by rewrite <- app_assoc. Qed.

Lemma resolve_hooks_pre_commit c :
  resolve (c ++ [".git"; "hooks"]) "pre-commit" = c ++ [".git"; "hooks"; "pre-commit"].
Proof. unfold resolve. cbn. by rewrite <- app_assoc. Qed.

Lemma createPreCommitHook1_Ok E hook w u w' :
  Main1.createPreCommitHook E hook w = (Ok u, w') ->
  cwd w' = cwd w ++ [".git"; "hooks"] /\
  fs w' = <[cwd w ++ [".git"; "hooks"; "pre-commit"] :=
              File perm_0700 (content hook "pre-commit.sh")]> (fs w).
Proof.
  intros H. unfold Main1.createPreCommitHook in H.
  apply bind_Ok in H as ([] & w1 & (Hf1 & Hc1)%wrap_Ok%os_Chdir_Ok & H).
  apply bind_Ok in H as (file & w2 & (-> & Hc2 & Hcr)%wrap_Ok%os_Create_Ok & H).
  apply bind_Ok in H as (bytes & w3 & (Hst & ->)%wrap_Ok%embed_ReadFile_Ok & H).
  apply bind_Ok in H as ([] & w4 & (Hc4 & perm & old & Hl4 & Hf4)%wrap_Ok%file_Write_Ok
                         & (Hc5 & o5 & n5 & Hl5 & Hf5 & _ & Hk5)%wrap_Ok%os_Chmod_Ok).
  rewrite resolve_git_hooks in Hc1. rewrite Hc1 in Hc2, Hcr, Hl4, Hf4.
  rewrite Hc2 in Hc4. rewrite Hc4 in Hl5, Hf5.
  rewrite resolve_hooks_pre_commit in Hcr, Hl4, Hf4, Hl5, Hf5.
  rewrite Hf4, lookup_insert_eq in Hl5. injection Hl5 as <-.
  rewrite (Hk5 _ _ eq_refl) in Hf5.
  split; [congruence|].
  rewrite Hf5, Hf4, insert_insert_eq, (content_Some _ _ _ Hst).
  destruct Hcr as [[_ Hf2]|(perm1 & old1 & Hsome & Hf2)];
    rewrite Hf2, lookup_insert_eq in Hl4; injection Hl4 as <- <-;
    by rewrite Hf2, insert_insert_eq, Hf1.
Qed.

Lemma main1_Ok E linting hook gitignore n w w' :
  valid_name n = true ->
  Main1.main E linting hook gitignore (Some n) w = (Ok tt, w') ->
  fs w' = add_entries (cwd w ++ [n])
            (written_main1 E linting hook gitignore (cwd w ++ [n]) (tooled E n w))
            (tooled E n w) /\
  cwd w' = cwd w ++ [n; ".git"; "hooks"].
Proof.
  intros Hn H.
  destruct (valid_name_resolve (cwd w) n Hn) as (Hne & Hres & Hjoin).
  unfold Main1.main in H. change (default Main1.DefaultProjectName (Some n)) with n in H.
  apply bind_Ok in H as ([] & w2 & H2 & H).
  unfold Main1.createProjectFiles in H.
  apply bind_Ok in H as ([] & w3 & H3%wrap_Ok & H).
  apply bind_Ok in H as ([] & w4 & H4%wrap_Ok & H).
  apply bind_Ok in H as ([] & w5 & H5%wrap_Ok & H).
  apply bind_Ok in H as ([] & w6 & H6%wrap_Ok & H).
  apply bind_Ok in H as ([] & w7 & H7%wrap_Ok & H8%wrap_Ok).
  apply (mkdir_Ok E) in H2 as (C2 & _ & F2); [|done].
  apply os_Chdir_Ok in H3 as (F3 & C3).
  unfold Main1.initRepo in H4. apply wrap_Ok, exec_Run_Ok in H4 as (F4 & C4).
  unfold Main1.goModInit in H5. apply wrap_Ok, exec_Run_Ok in H5 as (F5 & C5).
  assert (Hroot : cwd w5 = cwd w ++ [n]) by congruence.
  assert (Htool : fs w5 = tooled E n w).
  { unfold tooled. rewrite F5, C4, F4, F3, C3, C2, F2, Hres, Hjoin. done. }
  apply (createFile_Ok E) in H6 as (C6 & d6 & S6 & F6).
  apply (createFile_Ok E) in H7 as (C7 & d7 & S7 & F7).
  apply createPreCommitHook1_Ok in H8 as (C8 & F8).
  rewrite Hroot in C6, F6. rewrite C6 in C7, F7. rewrite C7 in C8, F8.
  change (resolve (cwd w ++ [n]) ".golintci.yml")
    with ((cwd w ++ [n]) ++ [".golintci.yml"]) in F6.
  change (resolve (cwd w ++ [n]) ".gitignore")
    with ((cwd w ++ [n]) ++ [".gitignore"]) in F7.
  rewrite F6, create_perm_insert_ne in F7 by (by apply path_neq).
  split.
  - rewrite F8, F7, Htool. unfold written_main1, add_entries. cbn.
    by rewrite (content_Some _ _ _ S6), (content_Some _ _ _ S7).
  - rewrite C8, <- app_assoc. done.
Qed.

Lemma main2_Ok E linting hook gitignore n w w' :
  valid_name n = true ->
  Main2.main E linting hook gitignore (Some n) w = (Ok tt, w') ->
  fs w' = add_entries (cwd w ++ [n])
            (written_main2 E linting hook gitignore (cwd w ++ [n]) (tooled E n w))
            (tooled E n w) /\
  cwd w' = cwd w ++ [n; ".git"; "hooks"].
Proof.
  intros Hn H.
  destruct (valid_name_resolve (cwd w) n Hn) as (Hne & Hres & Hjoin).
  unfold Main2.main in H. change (default "new_project" (Some n)) with n in H.
  apply bind_Ok in H as ([] & w2 & H2 & H).
  apply bind_Ok in H as ([] & w3 & H3 & H).
  apply bind_Ok in H as ([] & w4 & H4 & H).
  apply bind_Ok in H as ([] & w5 & H5 & H).
  apply bind_Ok in H as ([] & w6 & H6 & H).
  apply bind_Ok in H as ([] & w7 & H7 & H8).
  (* the directory *)
  unfold Main2.mkdir in H2.
  apply bind_Ok in H2 as (r & w1 & Hs%attempt_inv & H2).
  destruct r as [|e]; [done|].
  apply (os_Stat_Err _ _ _ _) in Hs as (_ & Hfs1 & Hcwd1); [|done].
  apply bind_Ok in H2 as (pwd & w1' & (-> & Hfs2 & Hcwd2)%os_Getwd_Ok & H2).
  apply wrap_Ok, os_Mkdir_Ok in H2 as (C2 & _ & F2).
  rewrite Hcwd2, Hcwd1 in C2. rewrite Hfs2, Hfs1, Hcwd1 in F2.
  (* the external programs *)
  apply os_Chdir_Ok in H3 as (F3 & C3).
  unfold Main2.initRepo in H4. apply wrap_Ok, exec_Run_Ok in H4 as (F4 & C4).
  unfold Main2.goModInit in H5. apply wrap_Ok, exec_Run_Ok in H5 as (F5 & C5).
  assert (Hroot : cwd w5 = cwd w ++ [n]) by congruence.
  assert (Htool : fs w5 = tooled E n w).
  { unfold tooled. rewrite F5, C4, F4, F3, C3, C2, F2, Hres, Hjoin. done. }
  (* the files *)
  apply write_template_Ok in H6 as (C6 & d6 & S6 & F6).
  unfold Main2.createPreCommitHook in H7.
  apply bind_Ok in H7 as ([] & w6' & (F7a & C7a)%wrap_Ok%os_Chdir_Ok & H7).
  apply write_template_Ok in H7 as (C7 & d7 & S7 & F7).
  apply write_template_Ok in H8 as (C8 & d8 & S8 & F8).
  rewrite Hroot in C6, F6. rewrite C6, resolve_git_hooks in C7a.
  rewrite C7a in C7, F7. rewrite C7 in C8, F8.
  change (resolve (cwd w ++ [n]) ".golintci.yml")
    with ((cwd w ++ [n]) ++ [".golintci.yml"]) in F6.
  rewrite resolve_hooks_pre_commit in F7. rewrite resolve_hooks_gitignore in F8.
  rewrite F7a, F6, create_perm_insert_ne in F7 by (by apply path_neq).
  rewrite F7, !create_perm_insert_ne in F8 by (by apply path_neq).
  split.
  - rewrite F8, Htool. unfold written_main2, add_entries. cbn.
    by rewrite (content_Some _ _ _ S6), (content_Some _ _ _ S7),
      (content_Some _ _ _ S8).
  - rewrite C8, <- app_assoc. done.
Qed.

End EarlyFacts.

Module EarlyTheorems.
Import Os Tree Run Scaffold Early OsFacts OrchestrationFacts ScaffoldFacts EarlyFacts.

(** X13. After a successful run of the first program of [main.go] for a
    one-component name [n], the tree is the one its external programs
    left with exactly three files added under [n]: the lint
    configuration and the ignore file, with the mode [os.Create] leaves,
    and the hook [.git/hooks/pre-commit] with mode [0700]. The working
    directory is [n/.git/hooks]. *)
Theorem main1_leaves (E : env)
  (linting hook gitignore : string -> option string)
  (n : string) (w w' : world) :
  valid_name n = true ->
  Main1.main E linting hook gitignore (Some n) w = (Ok tt, w') ->
  fs w' = add_entries (cwd w ++ [n])
            (written_main1 E linting hook gitignore (cwd w ++ [n]) (tooled E n w))
            (tooled E n w) /\
  cwd w' = cwd w ++ [n; ".git"; "hooks"].
Proof. apply main1_Ok. Qed.

Lemma main1_leaves_witness :
  fs (Main1.main Demo.E0 (Demo.store ".golangci.yml" "lint")
        (Demo.store "pre-commit.sh" "hook") (Demo.store ".gitignore" "ignore")
        (Some "demo") Demo.w0).2
  = add_entries ["work"; "demo"]
      (written_main1 Demo.E0 (Demo.store ".golangci.yml" "lint")
         (Demo.store "pre-commit.sh" "hook") (Demo.store ".gitignore" "ignore")
         ["work"; "demo"] (tooled Demo.E0 "demo" Demo.w0))
      (tooled Demo.E0 "demo" Demo.w0).
Proof.
  refine (proj1 (main1_leaves Demo.E0 _ _ _ "demo" Demo.w0 _ _ _)).
  - reflexivity.
  - by vm_compute.
Defined.

(** X14. In the second program of [main.go], [createGitIgnore] runs
    after [createPreCommitHook] has moved into [.git/hooks]: after a
    successful run the ignore file lies in [n/.git/hooks], and
    [n/.gitignore] is what the external programs left there. The hook is
    not made executable: where the external programs left no hook, its
    mode is [0666] less the umask, which has no execute bit. *)
Theorem main2_misplaces_ignore (E : env)
  (linting hook gitignore : string -> option string)
  (n : string) (w w' : world) :
  valid_name n = true ->
  Main2.main E linting hook gitignore (Some n) w = (Ok tt, w') ->
  fs w' = add_entries (cwd w ++ [n])
            (written_main2 E linting hook gitignore (cwd w ++ [n]) (tooled E n w))
            (tooled E n w) /\
  (exists perm,
      fs w' !! (cwd w ++ [n; ".git"; "hooks"; ".gitignore"])
      = Some (File perm (content gitignore ".gitignore"))) /\
  fs w' !! (cwd w ++ [n; ".gitignore"]) = tooled E n w !! (cwd w ++ [n; ".gitignore"]) /\
  (tooled E n w !! (cwd w ++ [n; ".git"; "hooks"; "pre-commit"]) = None ->
   fs w' !! (cwd w ++ [n; ".git"; "hooks"; "pre-commit"])
   = Some (File (Z.ldiff perm_0666 (umask E)) (content hook "pre-commit.sh")) /\
   any_exec (Z.ldiff perm_0666 (umask E)) = false).
Proof.
  intros Hn H. destruct (main2_Ok _ _ _ _ _ _ _ Hn H) as (Hfs & _).
  split; [done|]. rewrite Hfs. unfold written_main2, add_entries.
  cbn [fold_left fst snd]. rewrite <- !app_assoc. cbn [app].
  split_and!.
  - eexists. by rewrite lookup_insert_eq.
  - by rewrite !lookup_insert_ne by (by apply path_neq).
  - intros Hnone. split.
    + rewrite lookup_insert_ne by (by apply path_neq).
      rewrite lookup_insert_eq. unfold create_perm. by rewrite Hnone.
    + unfold any_exec. apply negb_false_iff, Z.eqb_eq, Z.bits_inj'. intros i Hi.
      rewrite Z.land_spec, Z.ldiff_spec, Z.bits_0.
      assert (H0 : Z.testbit perm_0666 i && Z.testbit perm_0111 i = false).
      { rewrite <- Z.land_spec. change (Z.land perm_0666 perm_0111) with 0.
        apply Z.bits_0. }
      destruct (Z.testbit perm_0666 i), (Z.testbit perm_0111 i),
        (Z.testbit (umask E) i); done.
Qed.

Lemma main2_misplaces_ignore_witness :
  fs (Main2.main Demo.E0 (Demo.store ".golangci.yml" "lint")
        (Demo.store "pre-commit.sh" "hook") (Demo.store ".gitignore" "ignore")
        (Some "demo") Demo.w0).2
  !! ["work"; "demo"; ".gitignore"]
  = tooled Demo.E0 "demo" Demo.w0 !! ["work"; "demo"; ".gitignore"].
Proof.
  refine (proj1 (proj2 (proj2
            (main2_misplaces_ignore Demo.E0 (Demo.store ".golangci.yml" "lint")
               (Demo.store "pre-commit.sh" "hook") (Demo.store ".gitignore" "ignore")
               "demo" Demo.w0
               (Main2.main Demo.E0 (Demo.store ".golangci.yml" "lint")
                  (Demo.store "pre-commit.sh" "hook")
                  (Demo.store ".gitignore" "ignore") (Some "demo") Demo.w0).2
               _ _)))).
  - reflexivity.
  - by vm_compute.
Defined.

End EarlyTheorems.


(** ** The last program of [main.go], step by step *)

Module Steps3Facts.
Import Os Tree Run OsFacts ProgramFacts OrchestrationFacts Main3 Steps3.

Lemma wrap_bind {A B} format (m : M A) (k : A -> M B) w :
  wrap format (bind m k) w = bind (wrap format m) (fun a => wrap format (k a)) w.
Proof. unfold wrap, bind. by destruct (m w) as [[a|e] w1]. Qed.

Lemma wrap_sequence format (l : list (M unit)) w :
  wrap format (sequence l) w = sequence (map (wrap format) l) w.
Proof.
  revert w. induction l as [|m l IH]; intros w; [done|].
  cbn [sequence map]. rewrite wrap_bind. unfold bind.
  destruct (wrap format m w) as [[[]|e] w1]; [apply IH|done].
Qed.

Lemma for_each_sequence {A} (l : list A) (body : A -> M unit) w :
  for_each l body w = sequence (map body l) w.
Proof.
  revert w. induction l as [|x l IH]; intros w; [done|].
  cbn [for_each sequence map]. unfold bind.
  destruct (body x w) as [[[]|e] w1]; [apply IH|done].
Qed.

Lemma sequence_app (l1 l2 : list (M unit)) w :
  sequence (l1 ++ l2) w = bind (sequence l1) (fun _ => sequence l2) w.
Proof.
  revert w. induction l1 as [|m l1 IH]; intros w; [done|].
  cbn [sequence app]. unfold bind at 1 2 3.
  destruct (m w) as [[[]|e] w1]; [|done].
  rewrite IH. done.
Qed.

Lemma bind_cong {A B} (m m' : M A) (k k' : A -> M B) w :
  m w = m' w -> (forall a w1, k a w1 = k' a w1) -> bind m k w = bind m' k' w.
Proof. intros Hm Hk. unfold bind. rewrite Hm. destruct (m' w) as [[a|e] w1]; eauto. Qed.

Lemma bind_ret_tt (m : M unit) w : bind m (fun _ => ret tt) w = m w.
Proof. unfold bind, ret. by destruct (m w) as [[[]|e] w1]. Qed.

(** [createProjectFiles] runs its steps in order. *)
Lemma createProjectFiles_steps E n w :
  createProjectFiles E n w = sequence (project_steps E n) w.
Proof.
  unfold createProjectFiles, project_steps. cbn [app sequence].
  apply bind_cong; [done|intros _ w1].
  apply bind_cong; [done|intros _ w2].
  apply bind_cong; [done|intros _ w3].
  rewrite sequence_app.
  apply bind_cong; [apply for_each_sequence|intros _ w4].
  cbn [sequence].
  apply bind_cong; [done|intros _ w5].
  apply bind_cong; [done|intros _ w6].
  by rewrite bind_ret_tt.
Qed.

(** [main] runs its steps in order. *)
Lemma main3_steps E d w : main E d w = sequence (steps E d) w.
Proof.
  unfold main, steps, probe. cbn [sequence]. unfold bind at 1 3 4.
  destruct (isGoInstalled E w) as [[ok|e] w1]; [|done].
  destruct ok; cbn [negb]; [|done]. unfold ret at 1.
  apply bind_cong; [done|intros _ w2].
  rewrite <- wrap_sequence. unfold wrap. by rewrite createProjectFiles_steps.
Qed.

Section Keeps3.
Context (R : world -> world -> Prop) `{!PreOrder R}.
Context (E : env) (HC : calls_keep R E).
Context (Hcd : forall name, keeps R (os_Chdir name)).

Lemma isGoInstalled_keeps : keeps R (isGoInstalled E).
Proof. unfold isGoInstalled. keeps_prog HC. Qed.

Lemma createGithubAction_keeps : keeps R (createGithubAction E).
Proof.
  unfold createGithubAction.
  pose proof (mkdir3_keeps R E HC). pose proof (createFile3_keeps R E HC).
  keeps_prog HC.
Qed.

Lemma createPreCommitHook3_keeps : keeps R (createPreCommitHook E).
Proof.
  unfold createPreCommitHook.
  pose proof (createExecutableFile3_keeps R E HC). keeps_prog HC.
Qed.

Lemma steps3_keep d : Forall (keeps R) (steps E d).
Proof.
  unfold steps, project_steps, probe, runCommand.
  pose proof isGoInstalled_keeps. pose proof (mkdir3_keeps R E HC).
  pose proof (goModInit3_keeps R E HC). pose proof (createFile3_keeps R E HC).
  pose proof (createScripts3_keeps R E HC).
  pose proof createGithubAction_keeps. pose proof createPreCommitHook3_keeps.
  cbn [map app filesToCreate].
  repeat constructor; keeps_prog HC.
Qed.

End Keeps3.

End Steps3Facts.

Module Steps3Theorems.
Import Os Tree Run OsFacts ProgramFacts OrchestrationFacts Main3 Steps3 Steps3Facts.

(** X15. The last program of [main.go] stops at its first failing step:
    when the steps before step [k] succeed and step [k] fails, [main]
    ends with the error of that step in the world it left, so no later
    step has made a call. Nothing is rolled back: what was in the tree
    before is still there (external tools being assumed to remove
    nothing). *)
Theorem main3_stops_at_first_failure (E : env) (d : option string) (k : nat)
  (step : M unit) (w wk w' : world) (e : error) :
  steps E d !! k = Some step ->
  sequence (take k (steps E d)) w = (Ok tt, wk) ->
  step wk = (Err e, w') ->
  main E d w = (Err e, w') /\
  (tools_keep_entries E -> entries_stay w wk /\ entries_stay wk w').
Proof.
  intros Hk Hpre Hstep. split.
  - rewrite main3_steps. by eapply sequence_fails_at.
  - intros HE.
    pose proof (calls_keep_entries E HE) as HC.
    pose proof (steps3_keep entries_stay E HC os_Chdir_entries d) as Hall.
    split.
    + eapply (keeps_sequence entries_stay); [|done]. by apply Forall_take.
    + eapply Forall_lookup_1 in Hall; [|done]. by eapply Hall.
Qed.

Lemma main3_stops_at_first_failure_witness :
  fst (main Demo.E3 (Some "demo") Demo.w0)
  = Err (Errorf "Error creating project files: "
           (Some (Errorf "error initializing Go module: %w" (Some (Errno EEXIT))))) /\
  is_Some (fs (main Demo.E3 (Some "demo") Demo.w0).2 !! ["work"; "demo"; ".git"; "hooks"]) /\
  fs (main Demo.E3 (Some "demo") Demo.w0).2 !! ["work"; "demo"; ".golintci.yml"] = None.
Proof.
  set (step := wrap "Error creating project files: "
                 (wrap "error initializing Go module: %w" (goModInit Demo.E3 "demo"))).
  set (wk := (sequence (take 4 (steps Demo.E3 (Some "demo"))) Demo.w0).2).
  destruct (main3_stops_at_first_failure Demo.E3 (Some "demo") 4 step Demo.w0 wk
              (step wk).2
              (Errorf "Error creating project files: "
                 (Some (Errorf "error initializing Go module: %w" (Some (Errno EEXIT))))))
    as (Hmain & Hstay).
  - reflexivity.
  - vm_compute. reflexivity.
  - vm_compute. reflexivity.
  - destruct (Hstay DemoFacts.E3_keeps_entries) as (_ & Hkept).
    rewrite Hmain. split_and!.
    + reflexivity.
    + apply Hkept. vm_compute. by eexists.
    + by vm_compute.
Defined.

End Steps3Theorems.


(** ** Nothing outside the project is touched *)

Module FrameFacts.
Import Os Tree Run Frame OsFacts ProgramFacts Reading AliasFacts OrchestrationFacts.

#[export] Instance outside_stays_preorder root : PreOrder (outside_stays root).
Proof.
  split.
  - by intros w H.
  - intros w1 w2 w3 H1 H2 H. destruct (H1 H) as (Hc2 & Hf2).
    destruct (H2 Hc2) as (Hc3 & Hf3). split; [done|].
    intros p Hp. by rewrite Hf3, Hf2.
Qed.

Lemma walk_plain c cs : forallb plain_component cs = true -> walk c cs = c ++ cs.
Proof.
  revert c. induction cs as [|x cs IH]; intros c H.
  - by rewrite app_nil_r.
  - cbn in H. apply andb_prop in H as [Hx Hcs].
    unfold walk. cbn [fold_left]. fold (walk (step_component c x) cs).
    unfold plain_component in Hx.
    rewrite !andb_true_iff, !negb_true_iff in Hx. destruct Hx as ((H1 & H2) & H3).
    unfold step_component. rewrite H1, H2, H3, (IH _ Hcs), <- app_assoc. done.
Qed.

Lemma descends_resolve name c :
  descends name = true ->
  name <> "" /\
  resolve c name = c ++ Str.split_slash name /\
  filepath_Join c name = c ++ Str.split_slash name.
Proof.
  unfold descends. intros [Habs Hcs]%andb_prop. apply negb_true_iff in Habs.
  split_and!.
  - by intros ->.
  - unfold resolve. by rewrite Habs, walk_plain.
  - unfold filepath_Join. by rewrite walk_plain.
Qed.

Lemma valid_name_descends n : valid_name n = true -> descends n = true.
Proof.
  intros Hn. unfold valid_name in Hn.
  rewrite !andb_true_iff, !negb_true_iff in Hn. destruct Hn as (((Hs & H1) & H2) & H3).
  unfold descends. rewrite (StrFacts.split_slash_plain _ Hs). cbn.
  unfold plain_component. rewrite H1, H2, H3. cbn. rewrite andb_true_r.
  apply negb_true_iff. destruct n as [|a n]; [done|]. cbn in *.
  by apply orb_false_iff in Hs as [-> _].
Qed.

(** The sample tools write under the directory they run in. *)
Lemma tools_local_E0 : tools_local Demo.E0.
Proof.
  intros argv dir t p Hp. cbn. unfold Demo.tools.
  assert (Hne : forall l, dir ++ l <> p).
  { intros l <-. apply Hp. by apply prefix_app_r. }
  repeat first [case_decide | case_match]; cbn; try done;
    by rewrite ?lookup_insert_ne.
Qed.

Section Outside.
Context (root : path) (E : env) (HE : tools_local E).

(** A computation that changes neither the tree nor the working
    directory. *)
Lemma unchanged_outside {A} (m : M A) :
  (forall w r w', m w = (r, w') -> fs w' = fs w /\ cwd w' = cwd w) ->
  keeps (outside_stays root) m.
Proof.
  intros Hm w r w' H Hc. destruct (Hm _ _ _ H) as (-> & ->). done.
Qed.

(** A computation that changes at most the entry named [name] in the
    working directory. *)
Lemma one_entry_outside {A} (m : M A) name :
  descends name = true ->
  (forall w r w', m w = (r, w') ->
     cwd w' = cwd w /\
     forall q, q <> resolve (cwd w) name -> fs w' !! q = fs w !! q) ->
  keeps (outside_stays root) m.
Proof.
  intros Hd Hm w r w' H Hc. destruct (Hm _ _ _ H) as (-> & Hf).
  split; [done|]. intros p Hp. apply Hf. intros ->.
  destruct (descends_resolve name (cwd w) Hd) as (_ & Hres & _).
  rewrite Hres in Hp. apply Hp. by apply prefix_app_r.
Qed.

Lemma os_Chdir_outside name :
  descends name = true -> keeps (outside_stays root) (os_Chdir name).
Proof.
  intros Hd w r w' H Hc.
  destruct (descends_resolve name (cwd w) Hd) as (_ & Hres & _).
  unfold os_Chdir, bind, log, get, set_cwd, ret, fail in H.
  cbn -[resolve] in H. rewrite Hres in H.
  repeat case_match; simplify_eq; cbn; (split; [|done]); try done.
  by apply prefix_app_r.
Qed.

Lemma exec_Run_outside argv : keeps (outside_stays root) (exec_Run E argv).
Proof.
  intros w r w' H Hc. rewrite exec_Run_world in H. injection H as _ <-. cbn.
  split; [done|]. intros p Hp. apply HE. intros Hcp. apply Hp.
  by transitivity (cwd w).
Qed.

Lemma getAlias_outside : keeps (outside_stays root) (Part000.getAlias E).
Proof.
  apply unchanged_outside. intros w r w' H.
  destruct (getAlias_execs E w) as (a & w1 & Ha & Hf & Hc & _).
  rewrite Ha in H. by injection H as _ <-.
Qed.

(** *** The calls that write *)

Lemma write_template_touches name store key f1 f2 f3 w r w' :
  (file <- wrap f1 (os_Create E name) ;;
   bytes <- wrap f2 (embed_ReadFile store key) ;;
   wrap f3 (file_Write file bytes)) w = (r, w') ->
  cwd w' = cwd w /\
  forall q, q <> resolve (cwd w) name -> fs w' !! q = fs w !! q.
Proof.
  intros H.
  unfold wrap, bind, os_Create, embed_ReadFile, file_Write, bind, log, get,
    set_fs, ret, fail in H.
  cbn -[resolve Z.ldiff] in H.
  repeat (case_match; simplify_eq; cbn -[resolve Z.ldiff] in * );
    (split; [done|]); intros q Hq; by rewrite ?lookup_insert_ne.
Qed.

Lemma os_Chmod_touches name mode w r w' :
  os_Chmod name mode w = (r, w') ->
  cwd w' = cwd w /\
  forall q, q <> resolve (cwd w) name -> fs w' !! q = fs w !! q.
Proof.
  intros H. unfold os_Chmod, bind, log, get, set_fs, ret, fail in H.
  cbn -[resolve] in H.
  repeat (case_match; simplify_eq; cbn -[resolve] in * );
    (split; [done|]); intros q Hq; by rewrite ?lookup_insert_ne.
Qed.

Lemma mkdir_touches name w r w' :
  Part000.mkdir E name w = (r, w') ->
  cwd w' = cwd w /\
  forall q, q <> filepath_Join (cwd w) name -> fs w' !! q = fs w !! q.
Proof.
  intros H.
  unfold Part000.mkdir, attempt, wrap, bind, os_Stat, os_Getwd, os_Mkdir, bind,
    log, get, set_fs, ret, fail in H.
  cbn -[resolve filepath_Join Z.ldiff] in H.
  repeat (case_match; simplify_eq; cbn -[resolve filepath_Join Z.ldiff] in * );
    (split; [done|]); intros q Hq; by rewrite ?lookup_insert_ne.
Qed.

Lemma mkdir3_touches name w r w' :
  Main3.mkdir E name w = (r, w') ->
  cwd w' = cwd w /\
  forall q, q <> filepath_Join (cwd w) name -> fs w' !! q = fs w !! q.
Proof.
  intros H.
  unfold Main3.mkdir, attempt, wrap, bind, os_Stat, os_Getwd, os_Mkdir, bind,
    log, get, set_fs, ret, fail in H.
  cbn -[resolve filepath_Join Z.ldiff] in H.
  repeat (case_match; simplify_eq; cbn -[resolve filepath_Join Z.ldiff] in * );
    (split; [done|]); intros q Hq; by rewrite ?lookup_insert_ne.
Qed.

Lemma os_Chdir_fs name w r w' : os_Chdir name w = (r, w') -> fs w' = fs w.
Proof.
  intros H. unfold os_Chdir, bind, log, get, set_cwd, ret, fail in H.
  cbn -[resolve] in H. by repeat (case_match; simplify_eq).
Qed.

(** *** The functions, from inside the project *)

Lemma createFile_outside name store key :
  descends name = true ->
  keeps (outside_stays root) (Part000.createFile E name store key).
Proof.
  intros Hd. apply (one_entry_outside _ name Hd). intros w r w'.
  apply write_template_touches.
Qed.

Lemma os_Chmod_outside name mode :
  descends name = true -> keeps (outside_stays root) (os_Chmod name mode).
Proof.
  intros Hd. apply (one_entry_outside _ name Hd). intros w r w'.
  apply os_Chmod_touches.
Qed.

Lemma mkdir_outside name :
  descends name = true -> keeps (outside_stays root) (Part000.mkdir E name).
Proof.
  intros Hd. apply (one_entry_outside _ name Hd). intros w r w' H.
  destruct (descends_resolve name (cwd w) Hd) as (_ & -> & <-).
  by eapply mkdir_touches.
Qed.

Lemma mkdir3_outside name :
  descends name = true -> keeps (outside_stays root) (Main3.mkdir E name).
Proof.
  intros Hd. apply (one_entry_outside _ name Hd). intros w r w' H.
  destruct (descends_resolve name (cwd w) Hd) as (_ & -> & <-).
  by eapply mkdir3_touches.
Qed.

Lemma keeps_same {A} (R : world -> world -> Prop) (m m' : M A) :
  (forall w, m w = m' w) -> keeps R m' -> keeps R m.
Proof. intros Heq Hm w r w' H. rewrite Heq in H. by eapply Hm. Qed.

(** The hook of [unnamed/part_000] is written as [createFile] writes. *)
Lemma createPreCommitHook_as_createFile w :
  Part000.createPreCommitHook E w
  = (wrap "error changing to .git/hooks directory: %w" (os_Chdir ".git/hooks") ;;;
     Part000.createFile E "pre-commit" (Part000.templatesFS E)
       "templates/scripts/pre-commit" ;;;
     wrap "error making file executable: %w" (os_Chmod "pre-commit" perm_0700)) w.
Proof.
  unfold Part000.createPreCommitHook, Part000.createFile, bind.
  destruct (wrap _ (os_Chdir _) w) as [[[]|?] w1]; [|done].
  destruct (wrap _ (os_Create _ _) w1) as [[file|?] w2]; [|done].
  destruct (wrap _ (embed_ReadFile _ _) w2) as [[bytes|?] w3]; [|done].
  by destruct (wrap _ (file_Write _ _) w3) as [[[]|?] w4].
Qed.

Ltac outside_prog :=
  repeat first
    [ progress cbn [for_each fst snd]
    | keeps_step
    | progress cbv zeta
    | apply createFile_outside; reflexivity
    | apply os_Chmod_outside; reflexivity
    | apply mkdir_outside; reflexivity
    | apply mkdir3_outside; reflexivity
    | apply os_Chdir_outside; reflexivity
    | apply exec_Run_outside
    | apply getAlias_outside
    | done ].

Lemma createScripts_outside : keeps (outside_stays root) (Part000.createScripts E).
Proof. unfold Part000.createScripts. outside_prog. Qed.

Lemma createPreCommitHook_outside :
  keeps (outside_stays root) (Part000.createPreCommitHook E).
Proof.
  eapply keeps_same; [apply createPreCommitHook_as_createFile|]. outside_prog.
Qed.

Lemma goModInit_outside name : keeps (outside_stays root) (Part000.goModInit E name).
Proof. unfold Part000.goModInit. outside_prog. Qed.

Lemma createScripts3_outside : keeps (outside_stays root) (Main3.createScripts E).
Proof.
  unfold Main3.createScripts, Main3.createExecutableFile. outside_prog.
Qed.

Lemma createGithubAction3_outside :
  keeps (outside_stays root) (Main3.createGithubAction E).
Proof. unfold Main3.createGithubAction. outside_prog. Qed.

Lemma createPreCommitHook3_outside :
  keeps (outside_stays root) (Main3.createPreCommitHook E).
Proof.
  unfold Main3.createPreCommitHook, Main3.createExecutableFile. outside_prog.
Qed.

Lemma goModInit3_outside name : keeps (outside_stays root) (Main3.goModInit E name).
Proof. unfold Main3.goModInit, Main3.runCommand. outside_prog. Qed.

(** [createProjectFiles], once it has entered the project. *)
Lemma createProjectFiles_outside n w r w' :
  valid_name n = true ->
  cwd w ++ [n] = root ->
  Part000.createProjectFiles E n w = (r, w') ->
  forall p, ~ root `prefix_of` p -> fs w' !! p = fs w !! p.
Proof.
  intros Hn Hroot H p Hp.
  destruct (valid_name_resolve (cwd w) n Hn) as (_ & Hres & _).
  unfold Part000.createProjectFiles in H. unfold bind at 1 in H.
  destruct (wrap _ (os_Chdir n) w) as [[[]|e] w1] eqn:Hcd.
  - unfold wrap in Hcd. destruct (os_Chdir n w) as [[[]|?] w0] eqn:Hcd0; [|done].
    injection Hcd as ->.
    apply os_Chdir_Ok in Hcd0 as (Hf1 & Hc1). rewrite Hres, Hroot in Hc1.
    match type of H with
    | ?m w1 = _ => assert (K : keeps (outside_stays root) m)
    end.
    { pose proof createScripts_outside. pose proof createPreCommitHook_outside.
      pose proof goModInit_outside. unfold Part000.initRepo. outside_prog. }
    destruct (K _ _ _ H) as (_ & Hf); [by rewrite Hc1|].
    by rewrite Hf, Hf1.
  - injection H as _ <-. unfold wrap in Hcd.
    destruct (os_Chdir n w) as [[[]|?] w0] eqn:Hcd0; [done|].
    injection Hcd as _ <-. by rewrite (os_Chdir_fs _ _ _ _ Hcd0).
Qed.

Lemma createProjectFiles3_outside n w r w' :
  valid_name n = true ->
  cwd w ++ [n] = root ->
  Main3.createProjectFiles E n w = (r, w') ->
  forall p, ~ root `prefix_of` p -> fs w' !! p = fs w !! p.
Proof.
  intros Hn Hroot H p Hp.
  destruct (valid_name_resolve (cwd w) n Hn) as (_ & Hres & _).
  unfold Main3.createProjectFiles in H. cbv zeta in H. unfold bind at 1 in H.
  destruct (wrap _ (os_Chdir n) w) as [[[]|e] w1] eqn:Hcd.
  - unfold wrap in Hcd. destruct (os_Chdir n w) as [[[]|?] w0] eqn:Hcd0; [|done].
    injection Hcd as ->.
    apply os_Chdir_Ok in Hcd0 as (Hf1 & Hc1). rewrite Hres, Hroot in Hc1.
    match type of H with
    | ?m w1 = _ => assert (K : keeps (outside_stays root) m)
    end.
    { pose proof createScripts3_outside. pose proof createPreCommitHook3_outside.
      pose proof createGithubAction3_outside.
      pose proof goModInit3_outside. unfold Main3.runCommand. outside_prog. }
    destruct (K _ _ _ H) as (_ & Hf); [by rewrite Hc1|].
    by rewrite Hf, Hf1.
  - injection H as _ <-. unfold wrap in Hcd.
    destruct (os_Chdir n w) as [[[]|?] w0] eqn:Hcd0; [done|].
    injection Hcd as _ <-. by rewrite (os_Chdir_fs _ _ _ _ Hcd0).
Qed.

(** *** The first two programs *)

Lemma mkdir2_touches name w r w' :
  Main2.mkdir E name w = (r, w') ->
  cwd w' = cwd w /\
  forall q, q <> filepath_Join (cwd w) name -> fs w' !! q = fs w !! q.
Proof.
  intros H.
  unfold Main2.mkdir, attempt, wrap, bind, os_Stat, os_Getwd, os_Mkdir, bind,
    log, get, set_fs, ret, fail in H.
  cbn -[resolve filepath_Join Z.ldiff] in H.
  repeat (case_match; simplify_eq; cbn -[resolve filepath_Join Z.ldiff] in * );
    (split; [done|]); intros q Hq; by rewrite ?lookup_insert_ne.
Qed.

Lemma write_template_outside name store key f1 f2 f3 :
  descends name = true ->
  keeps (outside_stays root)
    (file <- wrap f1 (os_Create E name) ;;
     bytes <- wrap f2 (embed_ReadFile store key) ;;
     wrap f3 (file_Write file bytes)).
Proof.
  intros Hd. apply (one_entry_outside _ name Hd). intros w r w'.
  apply write_template_touches.
Qed.

Lemma createPreCommitHook1_as_createFile hook w :
  Main1.createPreCommitHook E hook w
  = (wrap "error changing to .git/hooks directory: %w" (os_Chdir ".git/hooks") ;;;
     Main1.createFile E "pre-commit" hook "pre-commit.sh" ;;;
     wrap "error making file executable: %w" (os_Chmod "pre-commit" perm_0700)) w.
Proof.
  unfold Main1.createPreCommitHook, Main1.createFile, bind.
  destruct (wrap _ (os_Chdir _) w) as [[[]|?] w1]; [|done].
  destruct (wrap _ (os_Create _ _) w1) as [[file|?] w2]; [|done].
  destruct (wrap _ (embed_ReadFile _ _) w2) as [[bytes|?] w3]; [|done].
  by destruct (wrap _ (file_Write _ _) w3) as [[[]|?] w4].
Qed.

Lemma createPreCommitHook1_outside hook :
  keeps (outside_stays root) (Main1.createPreCommitHook E hook).
Proof.
  eapply keeps_same; [apply createPreCommitHook1_as_createFile|]. outside_prog.
Qed.

Lemma createProjectFiles1_outside linting hook gitignore n w r w' :
  valid_name n = true ->
  cwd w ++ [n] = root ->
  Main1.createProjectFiles E linting hook gitignore n w = (r, w') ->
  forall p, ~ root `prefix_of` p -> fs w' !! p = fs w !! p.
Proof.
  intros Hn Hroot H p Hp.
  destruct (valid_name_resolve (cwd w) n Hn) as (_ & Hres & _).
  unfold Main1.createProjectFiles in H. unfold bind at 1 in H.
  destruct (wrap _ (os_Chdir n) w) as [[[]|e] w1] eqn:Hcd.
  - unfold wrap in Hcd. destruct (os_Chdir n w) as [[[]|?] w0] eqn:Hcd0; [|done].
    injection Hcd as ->.
    apply os_Chdir_Ok in Hcd0 as (Hf1 & Hc1). rewrite Hres, Hroot in Hc1.
    match type of H with
    | ?m w1 = _ => assert (K : keeps (outside_stays root) m)
    end.
    { pose proof createPreCommitHook1_outside.
      unfold Main1.initRepo, Main1.goModInit. outside_prog. }
    destruct (K _ _ _ H) as (_ & Hf); [by rewrite Hc1|].
    by rewrite Hf, Hf1.
  - injection H as _ <-. unfold wrap in Hcd.
    destruct (os_Chdir n w) as [[[]|?] w0] eqn:Hcd0; [done|].
    injection Hcd as _ <-. by rewrite (os_Chdir_fs _ _ _ _ Hcd0).
Qed.

(** The second program, from its [os.Chdir] on. *)
Lemma main2_outside linting hook gitignore n w r w' :
  valid_name n = true ->
  cwd w ++ [n] = root ->
  (os_Chdir n ;;;
   Main2.initRepo E ;;;
   Main2.goModInit E n ;;;
   Main2.createLintConfig E linting ;;;
   Main2.createPreCommitHook E hook ;;;
   Main2.createGitIgnore E gitignore) w = (r, w') ->
  forall p, ~ root `prefix_of` p -> fs w' !! p = fs w !! p.
Proof.
  intros Hn Hroot H p Hp.
  destruct (valid_name_resolve (cwd w) n Hn) as (_ & Hres & _).
  unfold bind at 1 in H.
  destruct (os_Chdir n w) as [[[]|e] w1] eqn:Hcd.
  - apply os_Chdir_Ok in Hcd as (Hf1 & Hc1). rewrite Hres, Hroot in Hc1.
    match type of H with
    | ?m w1 = _ => assert (K : keeps (outside_stays root) m)
    end.
    { unfold Main2.initRepo, Main2.goModInit, Main2.createLintConfig,
        Main2.createPreCommitHook, Main2.createGitIgnore.
      repeat first
        [ apply write_template_outside; reflexivity
        | apply os_Chdir_outside; reflexivity
        | apply exec_Run_outside
        | keeps_step ]. }
    destruct (K _ _ _ H) as (_ & Hf); [by rewrite Hc1|].
    by rewrite Hf, Hf1.
  - injection H as _ <-. by rewrite (os_Chdir_fs _ _ _ _ Hcd).
Qed.

End Outside.

End FrameFacts.

Module FrameTheorems.
Import Os Tree Run Frame OsFacts OrchestrationFacts FrameFacts.

(** X16. Whatever the outcome of a run for a one-component name [n],
    nothing outside the new directory is changed by the program: an entry
    that is not under [n] is as the probe [go version] left it, and in the
    programs without a probe as it was. External tools are assumed to
    write only under the directory they run in. *)
Theorem outside_untouched (E : env)
  (linting hook gitignore : string -> option string)
  (n : string) (w : world) (p : path) :
  valid_name n = true ->
  tools_local E ->
  ~ (cwd w ++ [n]) `prefix_of` p ->
  fs (Part000.main E (Some n) w).2 !! p
  = (exec_tool E ["go"; "version"] (cwd w) (fs w)).2 !! p /\
  fs (Main3.main E (Some n) w).2 !! p
  = (exec_tool E ["go"; "version"] (cwd w) (fs w)).2 !! p /\
  fs (Main1.main E linting hook gitignore (Some n) w).2 !! p = fs w !! p /\
  fs (Main2.main E linting hook gitignore (Some n) w).2 !! p = fs w !! p.
Proof.
  intros Hn HE Hp.
  destruct (valid_name_resolve (cwd w) n Hn) as (_ & _ & Hjoin).
  assert (Hne : p <> cwd w ++ [n]) by (by intros ->).
  split_and!.
  - unfold Part000.main, bind at 1. rewrite exec_Run_world.
    destruct (exec_tool E _ (cwd w) (fs w)) as [[] t1]; cbn [fst snd]; [|done].
    change (default Part000.DefaultProjectName (Some n)) with n.
    unfold bind.
    destruct (Part000.mkdir E n _) as [[[]|e] w2] eqn:Hmk;
      apply mkdir_touches in Hmk as (Hc2 & Hf2); cbn [cwd fs] in Hc2, Hf2;
      rewrite Hjoin in Hf2.
    + destruct (Part000.createProjectFiles E n w2) as [r w'] eqn:H. cbn [snd].
      rewrite (createProjectFiles_outside (cwd w ++ [n]) E HE n w2 r w' Hn
                 ltac:(by rewrite Hc2) H p Hp).
      by apply Hf2.
    + by apply Hf2.
  - unfold Main3.main, Main3.isGoInstalled, attempt, bind at 1 2.
    rewrite exec_Run_world.
    destruct (exec_tool E _ (cwd w) (fs w)) as [[] t1]; cbn [fst snd ret negb];
      [|done].
    change (default Main3.DefaultProjectName (Some n)) with n.
    unfold bind, wrap.
    destruct (Main3.mkdir E n _) as [[[]|e] w2] eqn:Hmk;
      apply mkdir3_touches in Hmk as (Hc2 & Hf2); cbn [cwd fs] in Hc2, Hf2;
      rewrite Hjoin in Hf2.
    + destruct (Main3.createProjectFiles E n w2) as [r w'] eqn:H.
      pose proof (createProjectFiles3_outside (cwd w ++ [n]) E HE n w2 r w' Hn
                    ltac:(by rewrite Hc2) H p Hp) as Hf.
      destruct r; cbn [snd]; rewrite Hf; by apply Hf2.
    + by apply Hf2.
  - unfold Main1.main. change (default Main1.DefaultProjectName (Some n)) with n.
    unfold bind. change (Main1.mkdir E) with (Part000.mkdir E).
    destruct (Part000.mkdir E n w) as [[[]|e] w2] eqn:Hmk;
      apply mkdir_touches in Hmk as (Hc2 & Hf2); rewrite Hjoin in Hf2.
    + destruct (Main1.createProjectFiles E linting hook gitignore n w2)
        as [r w'] eqn:H.
      cbn [snd]. rewrite (createProjectFiles1_outside (cwd w ++ [n]) E HE
                 linting hook gitignore n w2 r w' Hn ltac:(by rewrite Hc2) H p Hp).
      by apply Hf2.
    + by apply Hf2.
  - unfold Main2.main. change (default "new_project" (Some n)) with n.
    unfold bind at 1.
    destruct (Main2.mkdir E n w) as [[[]|e] w2] eqn:Hmk;
      apply mkdir2_touches in Hmk as (Hc2 & Hf2);
      rewrite Hjoin in Hf2.
    + match goal with
      | |- fs (?m w2).2 !! p = _ => destruct (m w2) as [r w'] eqn:H
      end.
      cbn [snd]. rewrite (main2_outside (cwd w ++ [n]) E HE linting hook gitignore n w2 r w'
                 Hn ltac:(by rewrite Hc2) H p Hp).
      by apply Hf2.
    + by apply Hf2.
Qed.

Lemma outside_untouched_witness :
  fs (Main3.main Demo.E0 (Some "demo") Demo.w0).2 !! ["work"] = Some (Dir 493).
Proof.
  refine (proj1 (proj2 (outside_untouched Demo.E0 (fun _ => None) (fun _ => None)
                          (fun _ => None) "demo" Demo.w0 ["work"] _ _ _))).
  - reflexivity.
  - exact tools_local_E0.
  - intros [k Hk]. discriminate Hk.
Defined.

End FrameTheorems.


(** ** More on the orchestration of [unnamed/part_000] *)

Module RunTheorems.
Import Os Tree Run Scaffold OsFacts ProgramFacts OrchestrationFacts ScaffoldFacts.
Import Part000.

(** X17. In [unnamed/part_000] a failure to write [Makefile] is reported
    under the text of the step before it, "error creating .gitignore
    file": the two failures cannot be told apart by the text [main]
    prints first. *)
Theorem makefile_failure_mislabelled (E : env) (d : option string)
  (k : nat) (name key : string) (w wk w' : world) (e : error) :
  (k = 6%nat /\ name = ".gitignore" /\ key = "templates/.gitignore") \/
  (k = 7%nat /\ name = "Makefile" /\ key = "templates/Makefile") ->
  sequence (take k (Steps.steps E d)) w = (Ok tt, wk) ->
  createFile E name (templatesFS E) key wk = (Err e, w') ->
  main E d w = (Err (Errorf "error creating .gitignore file: %w" (Some e)), w').
Proof.
  intros Hk Hpre Hstep. rewrite main_steps.
  eapply (sequence_fails_at _ k
            (wrap "error creating .gitignore file: %w"
               (createFile E name (templatesFS E) key))); [|done|].
  - by destruct Hk as [(-> & -> & ->)|(-> & -> & ->)].
  - unfold wrap. by rewrite Hstep.
Qed.

Lemma makefile_failure_mislabelled_witness :
  fst (main (Env 18 "" Demo.tools
               (fun name => if decide (name = "templates/Makefile") then None
                            else Demo.templates name))
         (Some "demo") Demo.w0)
  = Err (Errorf "error creating .gitignore file: %w"
           (Some (Errorf "error reading embedded file: %w" (Some (Errno ENOENT))))).
Proof.
  set (E := Env 18 "" Demo.tools
              (fun name => if decide (name = "templates/Makefile") then None
                           else Demo.templates name)).
  set (wk := (sequence (take 7 (Steps.steps E (Some "demo"))) Demo.w0).2).
  rewrite (makefile_failure_mislabelled E (Some "demo") 7 "Makefile"
             "templates/Makefile" Demo.w0 wk
             (createFile E "Makefile" (templatesFS E) "templates/Makefile" wk).2
             (Errorf "error reading embedded file: %w" (Some (Errno ENOENT)))).
  - reflexivity.
  - by right.
  - by vm_compute.
  - by vm_compute.
Defined.

End RunTheorems.


(** ** The order of the external programs *)

Module LaunchFacts.
Import Os Tree Run Launch OsFacts ProgramFacts Reading AliasFacts OrchestrationFacts.
Import ScaffoldFacts.

#[export] Instance execs_same_preorder : PreOrder execs_same.
Proof.
  split; [by intros w|]. intros w1 w2 w3 H1 H2. unfold execs_same in *. congruence.
Qed.





















End LaunchFacts.

Module LaunchTheorems.
Import Os Tree Run Launch OsFacts OrchestrationFacts LaunchFacts.



End LaunchTheorems.


(** ** The working directory at the end *)

Module PlaceFacts.
Import Os Tree Run Place OsFacts ProgramFacts OrchestrationFacts.

#[export] Instance cwd_same_preorder : PreOrder cwd_same.
Proof.
  split; [by intros w|]. intros w1 w2 w3 H1 H2. unfold cwd_same in *. congruence.
Qed.

Ltac cwd_tac := prim; unfold cwd_same; cbn; done.

(** Every call but [os.Chdir] leaves the working directory. *)
Lemma calls_keep_cwd E : calls_keep cwd_same E.
Proof.
  split.
  - intros name. cwd_tac.
  - cwd_tac.
  - intros p perm. cwd_tac.
  - intros name. cwd_tac.
  - intros h data. cwd_tac.
  - intros name mode. cwd_tac.
  - intros name. cwd_tac.
  - intros h size. cwd_tac.
  - intros argv w r w'. rewrite exec_Run_world. by intros [= _ <-].
Qed.

End PlaceFacts.

Module PlaceTheorems.
Import Os Tree Run Place OsFacts ProgramFacts OrchestrationFacts ScaffoldFacts.
Import Steps3Facts PlaceFacts.

(** X19. A successful run ends two levels below the project: the working
    directory is moved into [n] and then into [n/.git/hooks], and is not
    moved back, in [unnamed/part_000] as in the last program of
    [main.go]. *)
Theorem run_ends_in_hooks (E : env) (n : string) (w w' : world) :
  valid_name n = true ->
  Part000.main E (Some n) w = (Ok tt, w') \/ Main3.main E (Some n) w = (Ok tt, w') ->
  cwd w' = cwd w ++ [n; ".git"; "hooks"].
Proof.
  intros Hn H.
  destruct (valid_name_resolve (cwd w) n Hn) as (_ & Hres & _).
  pose proof (calls_keep_cwd E) as HC.
  destruct H as [H|H].
  - unfold Part000.main in H.
    change (default Part000.DefaultProjectName (Some n)) with n in H.
    apply bind_Ok in H as ([] & w1 & H1 & H).
    apply bind_Ok in H as ([] & w2 & H2 & H).
    unfold Part000.createProjectFiles in H.
    apply bind_Ok in H as ([] & w3 & H3%wrap_Ok & H).
    apply bind_Ok in H as ([] & w4 & H4%wrap_Ok & H).
    apply bind_Ok in H as ([] & w5 & H5%wrap_Ok & H).
    apply bind_Ok in H as ([] & w6 & H6%wrap_Ok & H).
    apply bind_Ok in H as ([] & w7 & H7%wrap_Ok & H).
    apply bind_Ok in H as ([] & w8 & H8%wrap_Ok & H).
    apply bind_Ok in H as ([] & w9 & H9%wrap_Ok & H10%wrap_Ok).
    apply (keep_Run _ _ HC) in H1. apply (mkdir_keeps _ _ HC) in H2.
    apply os_Chdir_Ok in H3 as (_ & H3).
    apply (initRepo_keeps _ _ HC) in H4. apply (goModInit_keeps _ _ HC) in H5.
    apply (createFile_keeps _ _ HC) in H6. apply (createFile_keeps _ _ HC) in H7.
    apply (createFile_keeps _ _ HC) in H8. apply (createScripts_keeps _ _ HC) in H9.
    apply createPreCommitHook_Ok in H10 as (H10 & _).
    unfold cwd_same in *.
    rewrite H10, H9, H8, H7, H6, H5, H4, H3, H2, H1, Hres, <- app_assoc. done.
  - unfold Main3.main in H.
    change (default Main3.DefaultProjectName (Some n)) with n in H.
    apply bind_Ok in H as (ok & w1 & H1 & H).
    apply (isGoInstalled_keeps _ _ HC) in H1.
    destruct ok; cbn [negb] in H; [|done].
    apply bind_Ok in H as ([] & w2 & H2%wrap_Ok & H%wrap_Ok).
    unfold Main3.createProjectFiles in H. cbv zeta in H.
    apply bind_Ok in H as ([] & w3 & H3%wrap_Ok & H).
    apply bind_Ok in H as ([] & w4 & H4%wrap_Ok & H).
    apply bind_Ok in H as ([] & w5 & H5%wrap_Ok & H).
    apply bind_Ok in H as ([] & w9 & Hfiles & H).
    apply bind_Ok in H as ([] & w10 & H10%wrap_Ok & H).
    apply bind_Ok in H as ([] & w11 & H11%wrap_Ok & H12%wrap_Ok).
    apply (mkdir3_keeps _ _ HC) in H2.
    apply os_Chdir_Ok in H3 as (_ & H3).
    unfold Main3.runCommand in H4. apply (keep_Run _ _ HC) in H4.
    apply (goModInit3_keeps _ _ HC) in H5.
    assert (Hf : cwd_same w5 w9).
    { eapply (keeps_for_each cwd_same); [|exact Hfiles].
      intros file. apply (keeps_wrap cwd_same), (createFile3_keeps _ _ HC). }
    apply (createScripts3_keeps _ _ HC) in H10.
    apply (createGithubAction_keeps _ _ HC) in H11.
    apply createPreCommitHook3_Ok in H12 as (H12 & _).
    unfold cwd_same in *.
    rewrite H12, H11, H10, Hf, H5, H4, H3, H2, H1, Hres, <- app_assoc. done.
Qed.

Lemma run_ends_in_hooks_witness :
  cwd (Main3.main Demo.E0 (Some "demo") Demo.w0).2 = ["work"; "demo"; ".git"; "hooks"].
Proof.
  refine (run_ends_in_hooks Demo.E0 "demo" Demo.w0
            (Main3.main Demo.E0 (Some "demo") Demo.w0).2 _ _).
  - reflexivity.
  - right. by vm_compute.
Defined.

End PlaceTheorems.


(** ** When the steps succeed *)

Module AbleFacts.
Import Os Tree Run Scaffold Able OsFacts OrchestrationFacts ScaffoldFacts FileFacts.
Import FrameFacts.






End AbleFacts.

Module AbleTheorems.
Import Os Tree Run Scaffold Able OsFacts OrchestrationFacts ScaffoldFacts FileFacts.
Import FrameFacts AbleFacts Frame Limits.




End AbleTheorems.
